(** * The Ignis skybox system (engine/src/systems/skybox_system.c)

    A shallow embedding of the skybox subsystem: the global [state_ptr],
    the [skybox_state] structure, and the public entry points
    [skybox_system_initialize], [skybox_system_shutdown],
    [skybox_system_load], [skybox_system_unload],
    [skybox_system_get_current_name], [skybox_system_is_loaded] and
    [skybox_system_render], together with the private helpers
    [load_cubemap_faces], [free_face_pixels] and [create_skybox_cube].
    [skybox_system_get_available] and [skybox_system_free_available_list]
    need two more collaborators and follow further down.

    The subsystem talks to the rest of the engine (shader system, renderer
    frontend, resource system, geometry system, memory subsystem) only
    through function calls.  Those collaborators are not part of the
    subsystem; they are an interface here ([Engine]) that acts on an
    abstract [World].  Every call the subsystem makes is recorded, with the
    answer it got, in an event trace, so that statements about the order of
    acquisitions and releases can be made about the code itself. *)

From Stdlib Require Import ZArith List String Ascii Bool Lia.
Import ListNotations.
Open Scope Z_scope.

(** ** Machine integers and C strings *)

Definition wrap32 (z : Z) : Z := z mod 2 ^ 32.
Definition wrap64 (z : Z) : Z := z mod 2 ^ 64.

(** [(u64)-1] *)
Definition U64_MAX : Z := wrap64 (-1).

Definition NUL : ascii := Ascii.zero.

Definition is_nul (c : ascii) : bool := Ascii.eqb c NUL.

(** The characters of a stretch of memory up to (not including) the first
    NUL: what a reader of that memory as a C string sees.  A stretch
    without a NUL yields all of its characters, where the C read goes on
    through whatever lies behind; so this is applied below to memory that
    ends in a NUL, or under the hypothesis that a NUL is there. *)
Fixpoint c_string_chars (buf : list ascii) : list ascii :=
  match buf with
  | [] => []
  | c :: rest => if is_nul c then [] else c :: c_string_chars rest
  end.

Definition c_string (buf : list ascii) : string :=
  string_of_list_ascii (c_string_chars buf).

(** A [const char*] argument denotes the characters before its terminator,
    so it has no NUL inside. *)
Definition is_c_string (s : string) : Prop :=
  forallb (fun c => negb (is_nul c)) (list_ascii_of_string s) = true.

(** Modelled from the spec: core/kstring.c is not among the sources.  The
    skybox name is a "bounded string"; [string_ncopy dest source length]
    copies at most [length] characters of [source] and pads what is left of
    the [length] characters with NUL, as [strncpy] does (no terminator is
    written when [source] has [length] characters or more).  The result is
    the new content of the first [length] characters of [dest]. *)
Definition string_ncopy_chars (source : string) (length : nat) : list ascii :=
  let src := c_string_chars (list_ascii_of_string source) in
  firstn length src ++ repeat NUL (length - List.length src).

(** [dest] keeps what lies beyond the first [length] characters. *)
Definition string_ncopy (dest : list ascii) (source : string) (length : nat)
  : list ascii :=
  string_ncopy_chars source length ++ skipn length dest.

(** [buf[0] = 0] *)
Definition clear_first (buf : list ascii) : list ascii :=
  match buf with
  | [] => []
  | _ :: rest => NUL :: rest
  end.

(** [face_names]: order +X, -X, +Y, -Y, +Z, -Z *)
Definition face_names : list string :=
  [ "right"; "left"; "top"; "bottom"; "front"; "back" ]%string.

Definition face_name (i : nat) : string := nth i face_names ""%string.

Definition SKYBOX_NAME_MAX_LENGTH : nat := 64.

(** A pointer returned by [kallocate]; [0] is the null pointer. *)
Definition ptr := Z.

(** [if (p)] *)
Definition nonnull (p : ptr) : bool := negb (p =? 0).

(** [image_resource_data] *)
Record image_resource_data := {
  img_channel_count : Z;
  img_width : Z;
  img_height : Z;
  img_pixels : list Z
}.

(** [texture]: the fields the subsystem writes, and the part owned by the
    renderer backend. *)
Record texture := {
  tex_width : Z;
  tex_height : Z;
  tex_channel_count : Z;
  tex_generation : Z;
  tex_name : list ascii;
  tex_internal_data : Z
}.

(** Where [texture_map.texture] points: nowhere, or at the subsystem's own
    [cubemap_texture] field. *)
Inductive texture_ref := NullTexture | CubemapTextureField.

(** [texture_map]; the enumerations are C integers. *)
Record texture_map := {
  map_texture : texture_ref;
  map_use : Z;
  map_filter_minify : Z;
  map_filter_magnify : Z;
  map_repeat_u : Z;
  map_repeat_v : Z;
  map_repeat_w : Z;
  map_internal_data : Z
}.

(** [geometry_config] as [create_skybox_cube] fills it; a vertex is a
    position only, and every coordinate of the cube is 1 or -1. *)
Record geometry_config := {
  cfg_vertex_size : Z;
  cfg_vertex_count : Z;
  cfg_vertices : list (Z * Z * Z);
  cfg_index_size : Z;
  cfg_index_count : Z;
  cfg_indices : list Z;
  cfg_name : list ascii;
  cfg_material_name : list ascii
}.

(** ** The engine around the subsystem

    Constants and types of headers that are not among the sources
    (defines.h, resource_types.h, math_types.h, kmemory.h) are parameters,
    and so is every collaborator function the subsystem calls.  A
    collaborator reads and changes the [World]; an argument passed by
    pointer that the callee may write comes back as part of the result. *)
Class Engine := {
  World : Type;
  shader : Type;
  geometry : Type;
  mat4 : Type;
  mat4_identity : mat4;

  INVALID_ID : Z;
  TEXTURE_NAME_MAX_LENGTH : nat;
  GEOMETRY_NAME_MAX_LENGTH : nat;
  MATERIAL_NAME_MAX_LENGTH : nat;
  TEXTURE_USE_MAP_DIFFUSE : Z;
  TEXTURE_FILTER_MODE_LINEAR : Z;
  TEXTURE_REPEAT_CLAMP_TO_EDGE : Z;

  do_shader_system_get_id : string -> World -> Z * World;
  do_shader_system_get_by_id : Z -> World -> option shader * World;
  do_shader_system_use_by_id : Z -> World -> bool * World;
  do_renderer_shader_bind_globals : shader -> World -> bool * World;
  do_shader_system_uniform_set : string -> mat4 -> World -> bool * World;
  do_shader_system_apply_global : World -> bool * World;
  do_shader_system_bind_instance : Z -> World -> bool * World;
  do_shader_system_apply_instance : bool -> World -> bool * World;
  do_renderer_draw_geometry :
    option geometry -> mat4 -> World -> unit * World;
  do_resource_system_load :
    string -> World -> option image_resource_data * World;
  do_resource_system_unload : image_resource_data -> World -> unit * World;
  do_kallocate : Z -> World -> ptr * World;
  do_kcopy_memory : ptr -> list Z -> Z -> World -> unit * World;
  do_kfree : ptr -> Z -> World -> unit * World;
  do_renderer_cubemap_create : list ptr -> texture -> World -> texture * World;
  do_renderer_cubemap_destroy : texture -> World -> texture * World;
  do_renderer_texture_map_acquire_resources :
    texture_map -> World -> (bool * texture_map) * World;
  do_renderer_texture_map_release_resources :
    texture_map -> World -> texture_map * World;
  do_renderer_shader_acquire_instance_resources :
    shader -> list texture_map -> Z -> World -> (bool * Z) * World;
  do_renderer_shader_release_instance_resources :
    shader -> Z -> World -> bool * World;
  do_geometry_system_acquire_from_config :
    geometry_config -> bool -> World -> option geometry * World;
  do_geometry_system_release : geometry -> World -> unit * World
}.

Section Skybox.

Context {E : Engine}.

(** ** The subsystem's state *)

(** [skybox_state] *)
Record skybox_state := {
  current_name : list ascii;          (* char[SKYBOX_NAME_MAX_LENGTH] *)
  is_loaded : bool;
  cubemap_texture : texture;
  cubemap_map : texture_map;
  cube_geometry : option geometry;    (* geometry*, None is null *)
  shader_id : Z;
  shader_instance_id : Z;
  render_frame_number : Z;
  base_path : list ascii              (* char[512] *)
}.

(** What [kzero_memory] leaves in a [texture], a [texture_map] and the
    whole [skybox_state]. *)
Definition zero_texture : texture :=
  {| tex_width := 0; tex_height := 0; tex_channel_count := 0;
     tex_generation := 0; tex_name := repeat NUL TEXTURE_NAME_MAX_LENGTH;
     tex_internal_data := 0 |}.

Definition zero_texture_map : texture_map :=
  {| map_texture := NullTexture; map_use := 0; map_filter_minify := 0;
     map_filter_magnify := 0; map_repeat_u := 0; map_repeat_v := 0;
     map_repeat_w := 0; map_internal_data := 0 |}.

Definition zero_state : skybox_state :=
  {| current_name := repeat NUL SKYBOX_NAME_MAX_LENGTH;
     is_loaded := false;
     cubemap_texture := zero_texture;
     cubemap_map := zero_texture_map;
     cube_geometry := None;
     shader_id := 0;
     shader_instance_id := 0;
     render_frame_number := 0;
     base_path := repeat NUL 512 |}.

Definition set_current_name v (st : skybox_state) :=
  {| current_name := v; is_loaded := is_loaded st;
     cubemap_texture := cubemap_texture st; cubemap_map := cubemap_map st;
     cube_geometry := cube_geometry st; shader_id := shader_id st;
     shader_instance_id := shader_instance_id st;
     render_frame_number := render_frame_number st;
     base_path := base_path st |}.

Definition set_is_loaded v (st : skybox_state) :=
  {| current_name := current_name st; is_loaded := v;
     cubemap_texture := cubemap_texture st; cubemap_map := cubemap_map st;
     cube_geometry := cube_geometry st; shader_id := shader_id st;
     shader_instance_id := shader_instance_id st;
     render_frame_number := render_frame_number st;
     base_path := base_path st |}.

Definition set_cubemap_texture v (st : skybox_state) :=
  {| current_name := current_name st; is_loaded := is_loaded st;
     cubemap_texture := v; cubemap_map := cubemap_map st;
     cube_geometry := cube_geometry st; shader_id := shader_id st;
     shader_instance_id := shader_instance_id st;
     render_frame_number := render_frame_number st;
     base_path := base_path st |}.

Definition set_cubemap_map v (st : skybox_state) :=
  {| current_name := current_name st; is_loaded := is_loaded st;
     cubemap_texture := cubemap_texture st; cubemap_map := v;
     cube_geometry := cube_geometry st; shader_id := shader_id st;
     shader_instance_id := shader_instance_id st;
     render_frame_number := render_frame_number st;
     base_path := base_path st |}.

Definition set_cube_geometry v (st : skybox_state) :=
  {| current_name := current_name st; is_loaded := is_loaded st;
     cubemap_texture := cubemap_texture st; cubemap_map := cubemap_map st;
     cube_geometry := v; shader_id := shader_id st;
     shader_instance_id := shader_instance_id st;
     render_frame_number := render_frame_number st;
     base_path := base_path st |}.

Definition set_shader_id v (st : skybox_state) :=
  {| current_name := current_name st; is_loaded := is_loaded st;
     cubemap_texture := cubemap_texture st; cubemap_map := cubemap_map st;
     cube_geometry := cube_geometry st; shader_id := v;
     shader_instance_id := shader_instance_id st;
     render_frame_number := render_frame_number st;
     base_path := base_path st |}.

Definition set_shader_instance_id v (st : skybox_state) :=
  {| current_name := current_name st; is_loaded := is_loaded st;
     cubemap_texture := cubemap_texture st; cubemap_map := cubemap_map st;
     cube_geometry := cube_geometry st; shader_id := shader_id st;
     shader_instance_id := v;
     render_frame_number := render_frame_number st;
     base_path := base_path st |}.

Definition set_render_frame_number v (st : skybox_state) :=
  {| current_name := current_name st; is_loaded := is_loaded st;
     cubemap_texture := cubemap_texture st; cubemap_map := cubemap_map st;
     cube_geometry := cube_geometry st; shader_id := shader_id st;
     shader_instance_id := shader_instance_id st;
     render_frame_number := v;
     base_path := base_path st |}.

Definition set_base_path v (st : skybox_state) :=
  {| current_name := current_name st; is_loaded := is_loaded st;
     cubemap_texture := cubemap_texture st; cubemap_map := cubemap_map st;
     cube_geometry := cube_geometry st; shader_id := shader_id st;
     shader_instance_id := shader_instance_id st;
     render_frame_number := render_frame_number st;
     base_path := v |}.

(** The process: the global [state_ptr] ([None] is the null pointer, its
    value before initialisation and after shutdown) and the engine around
    the subsystem. *)
Record machine := {
  state_ptr : option skybox_state;
  world : World
}.

(** ** Calls to collaborators, as they appear in a trace *)
Inductive event :=
| EvShaderGetId (name : string) (id : Z)
| EvShaderGetById (id : Z) (found : option shader)
| EvShaderUse (id : Z) (ok : bool)
| EvBindGlobals (s : shader) (ok : bool)
| EvUniformSet (name : string) (value : mat4) (ok : bool)
| EvApplyGlobal
| EvBindInstance (id : Z)
| EvApplyInstance (needs_update : bool) (ok : bool)
| EvDrawGeometry (g : option geometry) (model : mat4)
| EvResourceLoad (name : string) (found : option image_resource_data)
| EvResourceUnload (img : image_resource_data)
| EvAllocate (size : Z) (p : ptr)
| EvCopyMemory (dest : ptr) (size : Z)
| EvFree (p : ptr) (size : Z)
| EvCubemapCreate (pixels : list ptr) (t : texture) (created : texture)
| EvCubemapDestroy (t : texture)
| EvMapAcquire (map : texture_map) (ok : bool) (acquired : texture_map)
| EvMapRelease (map : texture_map)
| EvInstanceAcquire (s : shader) (ok : bool) (id : Z)
| EvInstanceRelease (s : shader) (id : Z)
| EvGeometryAcquire (config : geometry_config) (found : option geometry)
| EvGeometryRelease (g : geometry).

(** ** A state monad with a trace

    A computation takes the machine and gives its result, the machine it
    leaves, and the calls it made, oldest first. *)
Definition M (A : Type) : Type := machine -> A * machine * list event.

Definition ret {A} (a : A) : M A := fun m => (a, m, []).

Definition bind {A B} (c : M A) (k : A -> M B) : M B :=
  fun m =>
    let '(a, m1, t1) := c m in
    let '(b, m2, t2) := k a m1 in
    (b, m2, t1 ++ t2).

Notation "x <- c ;; k" := (bind c (fun x => k))
  (at level 61, c at next level, right associativity).
Notation "c ;;; k" := (bind c (fun _ => k))
  (at level 61, right associativity).

Definition result {A} (r : A * machine * list event) : A := fst (fst r).
Definition after {A} (r : A * machine * list event) : machine := snd (fst r).
Definition trace {A} (r : A * machine * list event) : list event := snd r.

(** [!state_ptr] *)
Definition state_ptr_is_null : M bool :=
  fun m => (match state_ptr m with None => true | Some _ => false end, m, []).

(** [state_ptr->f].  Every read in the code below is guarded by a test of
    [state_ptr], as in the source; a read through a null [state_ptr] is
    not modelled and yields the zero value. *)
Definition field {A} (f : skybox_state -> A) : M A :=
  fun m => (f (match state_ptr m with Some st => st | None => zero_state end),
            m, []).

(** [state_ptr->f = v], given as the update of the structure. *)
Definition store (g : skybox_state -> skybox_state) : M unit :=
  fun m => (tt, {| state_ptr := option_map g (state_ptr m);
                   world := world m |}, []).

(** [state_ptr = p] *)
Definition set_state_ptr (p : option skybox_state) : M unit :=
  fun m => (tt, {| state_ptr := p; world := world m |}, []).

(** A call into the engine, recorded with its answer. *)
Definition call {A} (f : World -> A * World) (ev : A -> event) : M A :=
  fun m =>
    let '(a, w) := f (world m) in
    (a, {| state_ptr := state_ptr m; world := w |}, [ev a]).

Definition shader_system_get_id (name : string) : M Z :=
  call (do_shader_system_get_id name) (EvShaderGetId name).

Definition shader_system_get_by_id (id : Z) : M (option shader) :=
  call (do_shader_system_get_by_id id) (EvShaderGetById id).

Definition shader_system_use_by_id (id : Z) : M bool :=
  call (do_shader_system_use_by_id id) (EvShaderUse id).

Definition renderer_shader_bind_globals (s : shader) : M bool :=
  call (do_renderer_shader_bind_globals s) (EvBindGlobals s).

Definition shader_system_uniform_set (name : string) (value : mat4) : M bool :=
  call (do_shader_system_uniform_set name value) (EvUniformSet name value).

Definition shader_system_apply_global : M bool :=
  call do_shader_system_apply_global (fun _ => EvApplyGlobal).

Definition shader_system_bind_instance (id : Z) : M bool :=
  call (do_shader_system_bind_instance id) (fun _ => EvBindInstance id).

Definition shader_system_apply_instance (needs_update : bool) : M bool :=
  call (do_shader_system_apply_instance needs_update)
       (EvApplyInstance needs_update).

(** [renderer_draw_geometry(render_data)], with the two fields of
    [render_data] that the subsystem sets. *)
Definition renderer_draw_geometry (g : option geometry) (model : mat4)
  : M unit :=
  call (do_renderer_draw_geometry g model) (fun _ => EvDrawGeometry g model).

Definition resource_system_load (name : string)
  : M (option image_resource_data) :=
  call (do_resource_system_load name) (EvResourceLoad name).

Definition resource_system_unload (img : image_resource_data) : M unit :=
  call (do_resource_system_unload img) (fun _ => EvResourceUnload img).

Definition kallocate (size : Z) : M ptr :=
  call (do_kallocate size) (EvAllocate size).

Definition kcopy_memory (dest : ptr) (source : list Z) (size : Z) : M unit :=
  call (do_kcopy_memory dest source size) (fun _ => EvCopyMemory dest size).

Definition kfree (p : ptr) (size : Z) : M unit :=
  call (do_kfree p size) (fun _ => EvFree p size).

(** [renderer_cubemap_create(face_pixels, &state_ptr->cubemap_texture)] *)
Definition renderer_cubemap_create (pixels : list ptr) : M unit :=
  t <- field cubemap_texture ;;
  t' <- call (do_renderer_cubemap_create pixels t)
             (EvCubemapCreate pixels t) ;;
  store (set_cubemap_texture t').

(** [renderer_cubemap_destroy(&state_ptr->cubemap_texture)] *)
Definition renderer_cubemap_destroy : M unit :=
  t <- field cubemap_texture ;;
  t' <- call (do_renderer_cubemap_destroy t) (fun _ => EvCubemapDestroy t) ;;
  store (set_cubemap_texture t').

(** [renderer_texture_map_acquire_resources(&state_ptr->cubemap_map)] *)
Definition renderer_texture_map_acquire_resources : M bool :=
  mp <- field cubemap_map ;;
  r <- call (do_renderer_texture_map_acquire_resources mp)
            (fun r => EvMapAcquire mp (fst r) (snd r)) ;;
  store (set_cubemap_map (snd r)) ;;;
  ret (fst r).

(** [renderer_texture_map_release_resources(&state_ptr->cubemap_map)] *)
Definition renderer_texture_map_release_resources : M unit :=
  mp <- field cubemap_map ;;
  mp' <- call (do_renderer_texture_map_release_resources mp)
              (fun _ => EvMapRelease mp) ;;
  store (set_cubemap_map mp').

(** [renderer_shader_acquire_instance_resources(s, maps,
    &state_ptr->shader_instance_id)] with [maps = { &state_ptr->cubemap_map }] *)
Definition renderer_shader_acquire_instance_resources (s : shader) : M bool :=
  mp <- field cubemap_map ;;
  old <- field shader_instance_id ;;
  r <- call (do_renderer_shader_acquire_instance_resources s [mp] old)
            (fun r => EvInstanceAcquire s (fst r) (snd r)) ;;
  store (set_shader_instance_id (snd r)) ;;;
  ret (fst r).

Definition renderer_shader_release_instance_resources (s : shader) (id : Z)
  : M bool :=
  call (do_renderer_shader_release_instance_resources s id)
       (fun _ => EvInstanceRelease s id).

Definition geometry_system_acquire_from_config (config : geometry_config)
  (auto_release : bool) : M (option geometry) :=
  call (do_geometry_system_acquire_from_config config auto_release)
       (EvGeometryAcquire config).

Definition geometry_system_release (g : geometry) : M unit :=
  call (do_geometry_system_release g) (fun _ => EvGeometryRelease g).

(** ** Private functions *)

(** The locals of [skybox_system_load] that [load_cubemap_faces] writes
    through its out-parameters: [face_pixels[6]], [width], [height] and
    [channels]. *)
Record face_locals := {
  face_pixels : list ptr;
  out_width : Z;
  out_height : Z;
  out_channels : Z
}.

Definition set_face_pixels (px : list ptr) (l : face_locals) : face_locals :=
  {| face_pixels := px; out_width := out_width l;
     out_height := out_height l; out_channels := out_channels l |}.

(** [a[i] = v] *)
Fixpoint array_set {A} (a : list A) (i : nat) (v : A) : list A :=
  match a, i with
  | [], _ => []
  | _ :: rest, O => v :: rest
  | x :: rest, S i' => x :: array_set rest i' v
  end.

(** The loop of [free_face_pixels] over the slots of the array; the result
    is the array it leaves. *)
Fixpoint free_face_pixels_loop (size : Z) (pixels : list ptr) : M (list ptr) :=
  match pixels with
  | [] => ret []
  | p :: rest =>
      (if nonnull p then kfree p size else ret tt) ;;;
      rest' <- free_face_pixels_loop size rest ;;
      ret (0 :: rest')
  end.

(** [free_face_pixels(face_pixels, width, height, channels)] *)
Definition free_face_pixels (pixels : list ptr) (width height channels : Z)
  : M (list ptr) :=
  let size := wrap32 (width * height * channels) in
  free_face_pixels_loop size pixels.

(** [free_face_pixels(out_face_pixels, *out_width, *out_height,
    *out_channels)] inside [load_cubemap_faces]. *)
Definition free_out_faces (out : face_locals) : M face_locals :=
  px <- free_face_pixels (face_pixels out) (out_width out) (out_height out)
                         (out_channels out) ;;
  ret (set_face_pixels px out).

(** The [for] loop of [load_cubemap_faces], from face [i] on, with [n]
    faces to go.  [resource_name] is the formatted path.  The source
    formats it into [char resource_name[512]] with a [string_format] that
    takes no size, so the model is the code only for names whose longest
    path fits that buffer ([fits_resource_name] below); statements about
    the path carry that hypothesis. *)
Fixpoint load_cubemap_faces_from (skybox_name : string) (n i : nat)
  (out : face_locals) : M (bool * face_locals) :=
  match n with
  | O => ret (true, out)
  | S n' =>
      let resource_name :=
        ("../skyboxes/" ++ skybox_name ++ "/" ++ face_name i)%string in
      r <- resource_system_load resource_name ;;
      match r with
      | None =>
          if (0 <? i)%nat then
            out' <- free_out_faces out ;;
            ret (false, out')
          else ret (false, out)
      | Some img =>
          let copy_pixel_data (out1 : face_locals) :=
            let size :=
              wrap32 (img_width img * img_height img * img_channel_count img) in
            p <- kallocate size ;;
            kcopy_memory p (img_pixels img) size ;;;
            resource_system_unload img ;;;
            load_cubemap_faces_from skybox_name n' (S i)
              (set_face_pixels (array_set (face_pixels out1) i p) out1)
          in
          if (i =? 0)%nat then
            copy_pixel_data
              {| face_pixels := face_pixels out;
                 out_width := img_width img;
                 out_height := img_height img;
                 out_channels := img_channel_count img |}
          else if negb (img_width img =? out_width out)
                  || negb (img_height img =? out_height out) then
            resource_system_unload img ;;;
            out' <- free_out_faces out ;;
            ret (false, out')
          else copy_pixel_data out
      end
  end.

(** [load_cubemap_faces(skybox_name, out_face_pixels, out_width,
    out_height, out_channels)].  The caller's [width], [height] and
    [channels] are uninitialised on entry and are not read before face 0
    has set them; they start at 0 here. *)
Definition load_cubemap_faces (skybox_name : string) (pixels : list ptr)
  : M (bool * face_locals) :=
  load_cubemap_faces_from skybox_name 6 0
    {| face_pixels := pixels; out_width := 0; out_height := 0;
       out_channels := 0 |}.

(** The 36 vertices of [create_skybox_cube], two triangles a face. *)
Definition skybox_cube_vertices : list (Z * Z * Z) :=
  [ (-1, -1, -1); ( 1, -1, -1); ( 1,  1, -1);
    ( 1,  1, -1); (-1,  1, -1); (-1, -1, -1);
    (-1, -1,  1); ( 1,  1,  1); ( 1, -1,  1);
    ( 1,  1,  1); (-1, -1,  1); (-1,  1,  1);
    (-1, -1, -1); (-1,  1, -1); (-1,  1,  1);
    (-1,  1,  1); (-1, -1,  1); (-1, -1, -1);
    ( 1, -1, -1); ( 1,  1,  1); ( 1,  1, -1);
    ( 1,  1,  1); ( 1, -1, -1); ( 1, -1,  1);
    (-1, -1, -1); ( 1, -1,  1); ( 1, -1, -1);
    ( 1, -1,  1); (-1, -1, -1); (-1, -1,  1);
    (-1,  1, -1); ( 1,  1, -1); ( 1,  1,  1);
    ( 1,  1,  1); (-1,  1,  1); (-1,  1, -1) ].

Definition skybox_cube_config : geometry_config :=
  {| cfg_vertex_size := 4 * 3;
     cfg_vertex_count := 36;
     cfg_vertices := skybox_cube_vertices;
     cfg_index_size := 0;
     cfg_index_count := 0;
     cfg_indices := [];
     cfg_name := string_ncopy_chars "skybox_cube" GEOMETRY_NAME_MAX_LENGTH;
     cfg_material_name := string_ncopy_chars "" MATERIAL_NAME_MAX_LENGTH |}.

(** [create_skybox_cube()] *)
Definition create_skybox_cube : M bool :=
  g <- geometry_system_acquire_from_config skybox_cube_config true ;;
  store (set_cube_geometry g) ;;;
  ret (match g with Some _ => true | None => false end).

(** ** Public functions *)

(** [skybox_system_config] *)
Record skybox_system_config := {
  skybox_base_path : option string
}.

(** [skybox_system_initialize(memory_requirement, state, config)].
    [state] tells whether the caller passed a block of memory (true) or a
    null pointer (false, the sizing query); the size written to
    [memory_requirement] is not part of the model. *)
Definition skybox_system_initialize (state : bool)
  (config : skybox_system_config) : M bool :=
  if negb state then ret true else
  set_state_ptr (Some zero_state) ;;;
  store (fun st =>
    set_base_path
      (string_ncopy (base_path st)
         (match skybox_base_path config with
          | Some path => path
          | None => "../assets/skyboxes"%string
          end) 512) st) ;;;
  id <- shader_system_get_id "Shader.Builtin.Skybox" ;;
  store (set_shader_id id) ;;;
  if id =? INVALID_ID then ret true else
  ok <- create_skybox_cube ;;
  if negb ok then ret false else
  ret true.

(** [skybox_system_unload()] *)
Definition skybox_system_unload : M unit :=
  null <- state_ptr_is_null ;;
  loaded <- field is_loaded ;;
  if negb null && loaded then
    sid <- field shader_id ;;
    s <- shader_system_get_by_id sid ;;
    inst <- field shader_instance_id ;;
    match s with
    | Some s' =>
        if negb (inst =? INVALID_ID) then
          renderer_shader_release_instance_resources s' inst ;;;
          store (set_shader_instance_id INVALID_ID)
        else ret tt
    | None => ret tt
    end ;;;
    renderer_texture_map_release_resources ;;;
    store (set_cubemap_map zero_texture_map) ;;;
    renderer_cubemap_destroy ;;;
    store (set_cubemap_texture zero_texture) ;;;
    store (fun st => set_current_name (clear_first (current_name st)) st) ;;;
    store (set_is_loaded false)
  else ret tt.

(** [skybox_system_shutdown(state)] *)
Definition skybox_system_shutdown : M unit :=
  null <- state_ptr_is_null ;;
  if null then ret tt else
  skybox_system_unload ;;;
  g <- field cube_geometry ;;
  match g with
  | Some g' => geometry_system_release g' ;;; store (set_cube_geometry None)
  | None => ret tt
  end ;;;
  set_state_ptr None.

(** [skybox_system_load(name)] *)
Definition skybox_system_load (name : string) : M bool :=
  null <- state_ptr_is_null ;;
  if null then ret false else
  sid <- field shader_id ;;
  if sid =? INVALID_ID then ret false else
  loaded <- field is_loaded ;;
  (if loaded then skybox_system_unload else ret tt) ;;;
  r <- load_cubemap_faces name (repeat 0 6) ;;
  if negb (fst r) then ret false else
  let locals := snd r in
  store (fun st =>
    set_cubemap_texture
      {| tex_width := out_width locals;
         tex_height := out_height locals;
         tex_channel_count := out_channels locals;
         tex_generation := INVALID_ID;
         tex_name := string_ncopy (tex_name (cubemap_texture st)) name
                       TEXTURE_NAME_MAX_LENGTH;
         tex_internal_data := tex_internal_data (cubemap_texture st) |} st) ;;;
  renderer_cubemap_create (face_pixels locals) ;;;
  free_face_pixels (face_pixels locals) (out_width locals) (out_height locals)
                   (out_channels locals) ;;;
  store (fun st =>
    set_cubemap_map
      {| map_texture := CubemapTextureField;
         map_use := TEXTURE_USE_MAP_DIFFUSE;
         map_filter_minify := TEXTURE_FILTER_MODE_LINEAR;
         map_filter_magnify := TEXTURE_FILTER_MODE_LINEAR;
         map_repeat_u := TEXTURE_REPEAT_CLAMP_TO_EDGE;
         map_repeat_v := TEXTURE_REPEAT_CLAMP_TO_EDGE;
         map_repeat_w := TEXTURE_REPEAT_CLAMP_TO_EDGE;
         map_internal_data := map_internal_data (cubemap_map st) |} st) ;;;
  acquired <- renderer_texture_map_acquire_resources ;;
  if negb acquired then
    renderer_cubemap_destroy ;;;
    ret false
  else
  sid' <- field shader_id ;;
  s <- shader_system_get_by_id sid' ;;
  match s with
  | None =>
      renderer_texture_map_release_resources ;;;
      renderer_cubemap_destroy ;;;
      ret false
  | Some s' =>
      bound <- renderer_shader_acquire_instance_resources s' ;;
      if negb bound then
        renderer_texture_map_release_resources ;;;
        renderer_cubemap_destroy ;;;
        ret false
      else
      store (fun st =>
        set_current_name
          (string_ncopy (current_name st) name SKYBOX_NAME_MAX_LENGTH) st) ;;;
      store (set_is_loaded true) ;;;
      store (set_render_frame_number U64_MAX) ;;;
      ret true
  end.

(** A [b8] as the byte it occupies. *)
Definition b8_byte (b : bool) : ascii :=
  if b then Ascii.ascii_of_nat 1 else NUL.

(** The memory a read of [state_ptr->current_name] as a C string can get
    to.  The array has no terminator of its own when the name had
    [SKYBOX_NAME_MAX_LENGTH] characters or more, and the read then goes on
    into the members that follow in [skybox_state]: the byte of
    [is_loaded], and behind it the padding in front of [cubemap_texture],
    cleared by [kzero_memory] at initialisation and written by no
    assignment. *)
Definition current_name_bytes (st : skybox_state) : list ascii :=
  current_name st ++ [b8_byte (is_loaded st); NUL].

(** [skybox_system_get_current_name()]: the C string the returned pointer
    designates. *)
Definition skybox_system_get_current_name (m : machine) : string :=
  match state_ptr m with
  | Some st => c_string (current_name_bytes st)
  | None => ""%string
  end.

(** [skybox_system_is_loaded()] *)
Definition skybox_system_is_loaded (m : machine) : bool :=
  match state_ptr m with
  | Some st => is_loaded st
  | None => false
  end.

(** [skybox_system_render(projection, view, render_frame_number)] *)
Definition skybox_system_render (projection view : mat4)
  (frame_number : Z) : M unit :=
  null <- state_ptr_is_null ;;
  loaded <- field is_loaded ;;
  g <- field cube_geometry ;;
  if null || negb loaded || match g with None => true | Some _ => false end
  then ret tt else
  sid <- field shader_id ;;
  used <- shader_system_use_by_id sid ;;
  if negb used then ret tt else
  s <- shader_system_get_by_id sid ;;
  match s with
  | None => ret tt
  | Some s' =>
  bound <- renderer_shader_bind_globals s' ;;
  if negb bound then ret tt else
  set_projection <- shader_system_uniform_set "projection" projection ;;
  if negb set_projection then ret tt else
  set_view <- shader_system_uniform_set "view" view ;;
  if negb set_view then ret tt else
  shader_system_apply_global ;;;
  inst <- field shader_instance_id ;;
  shader_system_bind_instance inst ;;;
  stored <- field render_frame_number ;;
  let needs_update := negb (stored =? frame_number) in
  applied <- shader_system_apply_instance needs_update ;;
  if negb applied then ret tt else
  store (set_render_frame_number frame_number) ;;;
  cube <- field cube_geometry ;;
  renderer_draw_geometry cube mat4_identity
  end.

(** ** Vocabulary for the statements *)

(** The same process with the engine around it in another condition:
    between two calls into the subsystem the rest of the engine runs. *)
Definition with_world (w : World) (m : machine) : machine :=
  {| state_ptr := state_ptr m; world := w |}.

(** Kinds of calls. *)
Definition is_draw (e : event) : bool :=
  match e with EvDrawGeometry _ _ => true | _ => false end.

Definition is_instance_release (e : event) : bool :=
  match e with EvInstanceRelease _ _ => true | _ => false end.

Definition is_instance_acquire (e : event) : bool :=
  match e with EvInstanceAcquire _ _ _ => true | _ => false end.

Definition is_cubemap_create (e : event) : bool :=
  match e with EvCubemapCreate _ _ _ => true | _ => false end.

(** A call that takes something from the engine on behalf of a skybox. *)
Definition is_acquisition (e : event) : bool :=
  match e with
  | EvResourceLoad _ _ | EvAllocate _ _ | EvCubemapCreate _ _ _
  | EvMapAcquire _ _ _ | EvInstanceAcquire _ _ _ => true
  | _ => false
  end.

(** A call that gives something back. *)
Definition is_release (e : event) : bool :=
  match e with
  | EvInstanceRelease _ _ | EvMapRelease _ | EvCubemapDestroy _
  | EvFree _ _ | EvResourceUnload _ | EvGeometryRelease _ => true
  | _ => false
  end.

(** The calls [load_cubemap_faces] and [free_face_pixels] make. *)
Definition is_face_event (e : event) : bool :=
  match e with
  | EvResourceLoad _ _ | EvResourceUnload _ | EvAllocate _ _
  | EvCopyMemory _ _ | EvFree _ _ => true
  | _ => false
  end.

(** A stage of [skybox_system_render] that reported failure. *)
Definition is_failed_stage (e : event) : bool :=
  match e with
  | EvShaderUse _ false | EvBindGlobals _ false | EvUniformSet _ _ false
  | EvApplyInstance _ false => true
  | _ => false
  end.

(** The dirty flags handed to [shader_system_apply_instance]. *)
Fixpoint instance_updates (t : list event) : list bool :=
  match t with
  | [] => []
  | EvApplyInstance needs_update _ :: rest => needs_update :: instance_updates rest
  | _ :: rest => instance_updates rest
  end.

(** The buffers obtained from [kallocate] (null answers left out) and the
    buffers handed to [kfree], in call order. *)
Fixpoint allocated (t : list event) : list ptr :=
  match t with
  | [] => []
  | EvAllocate _ p :: rest =>
      if nonnull p then p :: allocated rest else allocated rest
  | _ :: rest => allocated rest
  end.

Fixpoint freed (t : list event) : list ptr :=
  match t with
  | [] => []
  | EvFree p _ :: rest => p :: freed rest
  | _ :: rest => freed rest
  end.

(** Each allocation with the size asked for, and each free with the size
    stated, in call order. *)
Fixpoint allocation_sizes (t : list event) : list (ptr * Z) :=
  match t with
  | [] => []
  | EvAllocate size p :: rest => (p, size) :: allocation_sizes rest
  | _ :: rest => allocation_sizes rest
  end.

Fixpoint free_sizes (t : list event) : list (ptr * Z) :=
  match t with
  | [] => []
  | EvFree p size :: rest => (p, size) :: free_sizes rest
  | _ :: rest => free_sizes rest
  end.

(** The images the resource system delivered, in call order. *)
Fixpoint loaded_images (t : list event) : list image_resource_data :=
  match t with
  | [] => []
  | EvResourceLoad _ (Some img) :: rest => img :: loaded_images rest
  | _ :: rest => loaded_images rest
  end.

(** [img] has the width and height [w] and [h]. *)
Definition same_dimensions (w h : Z) (img : image_resource_data) : Prop :=
  img_width img = w /\ img_height img = h.

(** The teardown calls of [skybox_system_unload] for state [st], given what
    the shader lookup answered. *)
Definition instance_release_calls (st : skybox_state) (found : option shader)
  : list event :=
  match found with
  | Some s =>
      if negb (shader_instance_id st =? INVALID_ID)
      then [EvInstanceRelease s (shader_instance_id st)] else []
  | None => []
  end.

Definition teardown_calls (st : skybox_state) (found : option shader)
  : list event :=
  [EvShaderGetById (shader_id st) found]
  ++ instance_release_calls st found
  ++ [EvMapRelease (cubemap_map st); EvCubemapDestroy (cubemap_texture st)].

(** A call of the acquisition phase of [skybox_system_load] that comes
    after the faces are fetched. *)
Definition is_gpu_acquisition (e : event) : bool :=
  match e with
  | EvCubemapCreate _ _ _ | EvMapAcquire _ _ _ | EvInstanceAcquire _ _ _ =>
      true
  | _ => false
  end.

(** The calls [skybox_system_load] makes once the faces are fetched, by
    result: nothing when the faces failed; otherwise the cubemap is created
    and the face buffers freed, and then the texture map is refused, or the
    shader is not found, or the shader instance is refused, or all is
    acquired.  What is released on the failing paths is what was acquired:
    the texture as [renderer_cubemap_create] left it, the map as
    [renderer_texture_map_acquire_resources] left it. *)
Inductive load_tail : bool -> list event -> Prop :=
| tail_faces_failed : load_tail false []
| tail_map_refused pixels tex created frees mp mp' :
    forallb is_face_event frees = true ->
    load_tail false
      (EvCubemapCreate pixels tex created :: frees
       ++ [EvMapAcquire mp false mp'; EvCubemapDestroy created])
| tail_shader_missing pixels tex created frees mp mp' id :
    forallb is_face_event frees = true ->
    load_tail false
      (EvCubemapCreate pixels tex created :: frees
       ++ [EvMapAcquire mp true mp'; EvShaderGetById id None;
           EvMapRelease mp'; EvCubemapDestroy created])
| tail_instance_refused pixels tex created frees mp mp' id s inst :
    forallb is_face_event frees = true ->
    load_tail false
      (EvCubemapCreate pixels tex created :: frees
       ++ [EvMapAcquire mp true mp'; EvShaderGetById id (Some s);
           EvInstanceAcquire s false inst;
           EvMapRelease mp'; EvCubemapDestroy created])
| tail_acquired pixels tex created frees mp mp' id s inst :
    forallb is_face_event frees = true ->
    load_tail true
      (EvCubemapCreate pixels tex created :: frees
       ++ [EvMapAcquire mp true mp'; EvShaderGetById id (Some s);
           EvInstanceAcquire s true inst]).

(** The values [state_ptr] can take in a run of the process: null at
    start, then whatever the public functions leave, called in any order,
    with any arguments, the engine being in any condition at each call. *)
Inductive reachable : option skybox_state -> Prop :=
| reach_start : reachable None
| reach_initialize sp w state config :
    reachable sp ->
    reachable (state_ptr (after (skybox_system_initialize state config
                                   {| state_ptr := sp; world := w |})))
| reach_shutdown sp w :
    reachable sp ->
    reachable (state_ptr (after (skybox_system_shutdown
                                   {| state_ptr := sp; world := w |})))
| reach_load sp w name :
    reachable sp ->
    reachable (state_ptr (after (skybox_system_load name
                                   {| state_ptr := sp; world := w |})))
| reach_unload sp w :
    reachable sp ->
    reachable (state_ptr (after (skybox_system_unload
                                   {| state_ptr := sp; world := w |})))
| reach_render sp w projection view frame_number :
    reachable sp ->
    reachable (state_ptr (after (skybox_system_render projection view
                                   frame_number
                                   {| state_ptr := sp; world := w |}))).

Definition is_map_refused (e : event) : bool :=
  match e with EvMapAcquire _ false _ => true | _ => false end.

(** The subsystem cannot work: it was never given its state, or the
    skybox shader was not found when it was initialised. *)
Definition degraded (m : machine) : Prop :=
  match state_ptr m with
  | None => True
  | Some st => shader_id st = INVALID_ID
  end.

(** When no skybox is loaded the name reads as the empty string, and a
    skybox is only ever loaded with the skybox shader found. *)
Definition consistent (sp : option skybox_state) : Prop :=
  forall st, sp = Some st ->
    (is_loaded st = false -> c_string (current_name st) = ""%string)
    /\ (is_loaded st = true -> shader_id st <> INVALID_ID).

(** The valid shader instance handles are the ids other than the
    sentinel. *)
Definition valid_instance_id (id : Z) : Prop := id <> INVALID_ID.

(** The renderer's side of the contract: an instance acquisition that
    reports success has written a valid handle. *)
Definition renderer_ids_valid : Prop :=
  forall s maps old w id w',
    do_renderer_shader_acquire_instance_resources s maps old w
    = ((true, id), w') ->
    valid_instance_id id.

(** ** Reasoning about computations *)

(** [wp c Q m]: running [c] from [m] gives a result, a machine and a trace
    that satisfy [Q]. *)
Definition wp {A} (c : M A) (Q : A -> machine -> list event -> Prop)
  (m : machine) : Prop :=
  Q (result (c m)) (after (c m)) (trace (c m)).

End Skybox.


(** ** More vocabulary: what a trace asks of the resource system and hands
    to the renderer *)

Section SkyboxMore.

Context {E : Engine}.

(** The images handed back to the resource system, in call order. *)
Fixpoint unloaded_images (t : list event) : list image_resource_data :=
  match t with
  | [] => []
  | EvResourceUnload img :: rest => img :: unloaded_images rest
  | _ :: rest => unloaded_images rest
  end.

(** The resource names asked for, in call order. *)
Fixpoint requested_names (t : list event) : list string :=
  match t with
  | [] => []
  | EvResourceLoad name _ :: rest => name :: requested_names rest
  | _ :: rest => requested_names rest
  end.

(** The resource name of face [i] of a skybox. *)
Definition face_path (skybox_name : string) (i : nat) : string :=
  ("../skyboxes/" ++ skybox_name ++ "/" ++ face_name i)%string.

(** [load_cubemap_faces] formats each path into [char resource_name[512]]:
    the paths of the six faces fit it, terminator included. *)
Definition fits_resource_name (skybox_name : string) : bool :=
  forallb (fun i => (String.length (face_path skybox_name i) <? 512)%nat)
          (seq 0 6).

(** The arguments of the cubemap creations, and the texture maps handed to
    [renderer_texture_map_acquire_resources], in call order. *)
Fixpoint created_cubemaps (t : list event) : list (list ptr * texture) :=
  match t with
  | [] => []
  | EvCubemapCreate pixels tex _ :: rest =>
      (pixels, tex) :: created_cubemaps rest
  | _ :: rest => created_cubemaps rest
  end.

Fixpoint requested_maps (t : list event) : list texture_map :=
  match t with
  | [] => []
  | EvMapAcquire mp _ _ :: rest => mp :: requested_maps rest
  | _ :: rest => requested_maps rest
  end.

(** The sampler [skybox_system_load] sets up: bound to the subsystem's
    cubemap texture, linear filtering, clamp-to-edge on the three axes. *)
Definition is_cubemap_sampler (mp : texture_map) : Prop :=
  map_texture mp = CubemapTextureField
  /\ map_use mp = TEXTURE_USE_MAP_DIFFUSE
  /\ map_filter_minify mp = TEXTURE_FILTER_MODE_LINEAR
  /\ map_filter_magnify mp = TEXTURE_FILTER_MODE_LINEAR
  /\ map_repeat_u mp = TEXTURE_REPEAT_CLAMP_TO_EDGE
  /\ map_repeat_v mp = TEXTURE_REPEAT_CLAMP_TO_EDGE
  /\ map_repeat_w mp = TEXTURE_REPEAT_CLAMP_TO_EDGE.

(** The texture description [skybox_system_load] fills in from face 0 and
    the skybox name before the cubemap is created. *)
Definition describes_cubemap (img0 : image_resource_data) (name : string)
  (tex : texture) : Prop :=
  tex_width tex = img_width img0
  /\ tex_height tex = img_height img0
  /\ tex_channel_count tex = img_channel_count img0
  /\ tex_generation tex = INVALID_ID
  /\ firstn TEXTURE_NAME_MAX_LENGTH (tex_name tex)
     = string_ncopy_chars name TEXTURE_NAME_MAX_LENGTH.

(** The geometry releases of a trace. *)
Definition geometry_release_calls (g : option geometry) : list event :=
  match g with
  | Some g' => [EvGeometryRelease g']
  | None => []
  end.

(** The calls of a [skybox_system_render] that runs to its draw. *)
Definition draw_sequence (st : skybox_state) (s : shader)
  (projection view : mat4) (needs_update : bool) : list event :=
  [ EvShaderUse (shader_id st) true;
    EvShaderGetById (shader_id st) (Some s);
    EvBindGlobals s true;
    EvUniformSet "projection" projection true;
    EvUniformSet "view" view true;
    EvApplyGlobal;
    EvBindInstance (shader_instance_id st);
    EvApplyInstance needs_update true;
    EvDrawGeometry (cube_geometry st) mat4_identity ].

(** The last call of a trace. *)
Definition last_call (t : list event) : option event :=
  match rev t with
  | [] => None
  | e :: _ => Some e
  end.

(** What [skybox_system_initialize] sets up and the skyboxes then share:
    the cube geometry, the shader id and the base path. *)
Definition same_setup (st st' : skybox_state) : Prop :=
  cube_geometry st' = cube_geometry st
  /\ shader_id st' = shader_id st
  /\ base_path st' = base_path st.

(** [serves st st']: the subsystem gets from state [st] to state [st'] by
    load, unload and render calls, in any number and order, the engine
    being in any condition at each call. *)
Inductive serves : skybox_state -> skybox_state -> Prop :=
| serves_nothing st : serves st st
| serves_load st st1 st2 w name :
    serves st st1 ->
    state_ptr (after (skybox_system_load name
                        {| state_ptr := Some st1; world := w |})) = Some st2 ->
    serves st st2
| serves_unload st st1 st2 w :
    serves st st1 ->
    state_ptr (after (skybox_system_unload
                        {| state_ptr := Some st1; world := w |})) = Some st2 ->
    serves st st2
| serves_render st st1 st2 w projection view frame_number :
    serves st st1 ->
    state_ptr (after (skybox_system_render projection view frame_number
                        {| state_ptr := Some st1; world := w |})) = Some st2 ->
    serves st st2.

(** A call that is neither an acquisition nor a release. *)
Definition is_neutral (e : event) : bool :=
  negb (is_acquisition e) && negb (is_release e)
  && match e with EvGeometryAcquire _ _ => false | _ => true end.

End SkyboxMore.

(** ** The cube of [create_skybox_cube] as triangles *)
















(** ** Listing the available skyboxes

    [skybox_system_get_available] and [skybox_system_free_available_list]
    call two more collaborators, [filesystem_exists] (platform/filesystem.h)
    and [string_duplicate] (core/kstring.h), whose sources are not among
    the files; they are an interface as the others are.  [sizeof(char* )]
    depends on the target and is a parameter too. *)
Class Platform {E : Engine} := {
  sizeof_char_ptr : Z;
  do_filesystem_exists : string -> World -> bool * World;
  do_string_duplicate : string -> World -> ptr * World
}.

Section Listing.

Context {E : Engine} {P : Platform}.

(** A [char*] that a list of names holds: where it points and the
    characters found there ([0] is the null pointer). *)
Definition name_entry : Type := ptr * string.

(** A [char**]: where it points and the entries found there. *)
Definition name_list : Type := ptr * list name_entry.

Definition null_name_list : name_list := (0, []).

(** What [skybox_system_get_available] leaves in [*out_count] and
    [*out_names]. *)
Record listing := {
  out_count : Z;
  out_names : name_list
}.

(** The calls of the listing functions: those of [event], and the two
    collaborators of the platform. *)
Inductive listing_event :=
| EvEngine (e : event)
| EvFilesystemExists (path : string) (found : bool)
| EvStringDuplicate (source : string) (copy : ptr).

(** The state monad again, over the longer list of calls. *)
Definition L (A : Type) : Type :=
  machine -> A * machine * list listing_event.

Definition lret {A} (a : A) : L A := fun m => (a, m, []).

Definition lbind {A B} (c : L A) (k : A -> L B) : L B :=
  fun m =>
    let '(a, m1, t1) := c m in
    let '(b, m2, t2) := k a m1 in
    (b, m2, t1 ++ t2).

Notation "x <- c ;; k" := (lbind c (fun x => k))
  (at level 61, c at next level, right associativity).

Definition lift {A} (c : M A) : L A :=
  fun m => let '(a, m1, t) := c m in (a, m1, map EvEngine t).

Definition lcall {A} (f : World -> A * World) (ev : A -> listing_event)
  : L A :=
  fun m =>
    let '(a, w) := f (world m) in
    (a, {| state_ptr := state_ptr m; world := w |}, [ev a]).

Definition lresult {A} (r : A * machine * list listing_event) : A :=
  fst (fst r).
Definition lafter {A} (r : A * machine * list listing_event) : machine :=
  snd (fst r).
Definition ltrace {A} (r : A * machine * list listing_event)
  : list listing_event := snd r.

Definition filesystem_exists (path : string) : L bool :=
  lcall (do_filesystem_exists path) (EvFilesystemExists path).

Definition string_duplicate (source : string) : L ptr :=
  lcall (do_string_duplicate source) (EvStringDuplicate source).

(** [skybox_system_get_available(out_names, out_count)].  The two
    arguments tell whether the caller passed a pointer (true) or null
    (false); what the function writes through them comes back as the
    second component of the result, [None] when it wrote nothing.
    [string_format] builds the path to check from the stored base path.
    The source formats it into [char check_path[512]] with a
    [string_format] that takes no size, and reads the base path as a C
    string; so the model is the code only for a stored base path that has
    its terminator and leaves room for "/default/right.png"
    ([stored_path_fits] below), and statements about the path carry that
    hypothesis. *)
Definition skybox_system_get_available (out_names_given out_count_given : bool)
  : L (bool * option listing) :=
  null <- lift state_ptr_is_null ;;
  if null || negb out_names_given || negb out_count_given
  then lret (false, None) else
  base <- lift (field base_path) ;;
  let check_path := (c_string base ++ "/default/right.png")%string in
  found <- filesystem_exists check_path ;;
  if found then
    names <- lift (kallocate (wrap64 (sizeof_char_ptr * 1))) ;;
    copy <- string_duplicate "default" ;;
    lret (true, Some {| out_count := 1;
                        out_names := (names, [(copy, "default"%string)]) |})
  else
    lret (true, Some {| out_count := 0; out_names := null_name_list |}).


(** [names[i]]; an index past the entries reads as null (the C program
    would read whatever lies behind the array). *)
Definition name_at (entries : list name_entry) (i : nat) : name_entry :=
  nth i entries (0, ""%string).

(** [u32 len = string_length(names[i]) + 1] *)
Definition name_size (e : name_entry) : Z :=
  wrap32 (Z.of_nat (String.length (snd e)) + 1).

(** The loop of [skybox_system_free_available_list], from index [i] on for
    [n] more entries. *)
Fixpoint free_names_from (entries : list name_entry) (i n : nat) : M unit :=
  match n with
  | O => ret tt
  | S n' =>
      bind (if nonnull (fst (name_at entries i))
            then kfree (fst (name_at entries i)) (name_size (name_at entries i))
            else ret tt)
           (fun _ => free_names_from entries (S i) n')
  end.

(** [skybox_system_free_available_list(names, count)] *)
Definition skybox_system_free_available_list (names : name_list) (count : Z)
  : M unit :=
  if nonnull (fst names) then
    bind (free_names_from (snd names) 0 (Z.to_nat count))
         (fun _ => kfree (fst names) (wrap64 (sizeof_char_ptr * count)))
  else ret tt.

(** The paths asked of the filesystem, in call order. *)
Fixpoint checked_paths (t : list listing_event) : list string :=
  match t with
  | [] => []
  | EvFilesystemExists path _ :: rest => path :: checked_paths rest
  | _ :: rest => checked_paths rest
  end.

(** The pointers a listing call obtained, from [kallocate] and from
    [string_duplicate], in call order. *)
Fixpoint obtained (t : list listing_event) : list ptr :=
  match t with
  | [] => []
  | EvEngine (EvAllocate _ p) :: rest => p :: obtained rest
  | EvStringDuplicate _ copy :: rest => copy :: obtained rest
  | _ :: rest => obtained rest
  end.


(** Some [kallocate] of the trace answered null. *)
Definition allocation_failed (t : list listing_event) : bool :=
  existsb (fun e => match e with
                    | EvEngine (EvAllocate _ p) => negb (nonnull p)
                    | _ => false
                    end) t.

(** The non-null entries among [names[0]] .. [names[count - 1]]. *)
Definition live_names (names : name_list) (count : nat) : list name_entry :=
  filter (fun e => nonnull (fst e))
         (map (name_at (snd names)) (seq 0 count)).

(** The [kfree] of one name. *)
Definition free_name_call (e : name_entry) : event :=
  EvFree (fst e) (name_size e).

End Listing.
(** ** A concrete engine

    A small engine whose collaborators answer from a table of settings, used
    to run the subsystem on concrete inputs.  Shaders are named by their id,
    the allocator hands out increasing addresses, shader instances live in
    slots 5 and 6, and everything else succeeds or fails as the settings
    say. *)
Module Mock.

Record settings := {
  skybox_shader : Z;                 (* answer of shader_system_get_id *)
  shader_alive : bool;               (* does shader_system_get_by_id find it *)
  images : string -> option image_resource_data;
  use_ok : bool;
  bind_globals_ok : bool;
  uniform_ok : bool;
  apply_instance_ok : bool;
  map_ok : bool;
  instance_ok : bool;
  second_slot : bool;                (* which instance slot is free *)
  geometry_ok : bool;
  next_ptr : Z
}.

Definition bump (size : Z) (w : settings) : settings :=
  {| skybox_shader := skybox_shader w; shader_alive := shader_alive w;
     images := images w; use_ok := use_ok w;
     bind_globals_ok := bind_globals_ok w; uniform_ok := uniform_ok w;
     apply_instance_ok := apply_instance_ok w; map_ok := map_ok w;
     instance_ok := instance_ok w; second_slot := second_slot w;
     geometry_ok := geometry_ok w;
     next_ptr := next_ptr w + Z.max size 1 |}.

Definition engine : Engine :=
  {| World := settings;
     shader := Z;
     geometry := unit;
     mat4 := unit;
     mat4_identity := tt;
     INVALID_ID := 4294967295;
     TEXTURE_NAME_MAX_LENGTH := 512;
     GEOMETRY_NAME_MAX_LENGTH := 256;
     MATERIAL_NAME_MAX_LENGTH := 256;
     TEXTURE_USE_MAP_DIFFUSE := 1;
     TEXTURE_FILTER_MODE_LINEAR := 1;
     TEXTURE_REPEAT_CLAMP_TO_EDGE := 3;
     do_shader_system_get_id := fun _ w => (skybox_shader w, w);
     do_shader_system_get_by_id :=
       fun id w => (if shader_alive w then Some id else None, w);
     do_shader_system_use_by_id := fun _ w => (use_ok w, w);
     do_renderer_shader_bind_globals := fun _ w => (bind_globals_ok w, w);
     do_shader_system_uniform_set := fun _ _ w => (uniform_ok w, w);
     do_shader_system_apply_global := fun w => (true, w);
     do_shader_system_bind_instance := fun _ w => (true, w);
     do_shader_system_apply_instance := fun _ w => (apply_instance_ok w, w);
     do_renderer_draw_geometry := fun _ _ w => (tt, w);
     do_resource_system_load := fun name w => (images w name, w);
     do_resource_system_unload := fun _ w => (tt, w);
     do_kallocate := fun size w => (next_ptr w, bump size w);
     do_kcopy_memory := fun _ _ _ w => (tt, w);
     do_kfree := fun _ _ w => (tt, w);
     do_renderer_cubemap_create := fun _ t w => (t, w);
     do_renderer_cubemap_destroy := fun t w => (t, w);
     do_renderer_texture_map_acquire_resources :=
       fun mp w => ((map_ok w, mp), w);
     do_renderer_texture_map_release_resources := fun mp w => (mp, w);
     do_renderer_shader_acquire_instance_resources :=
       fun _ _ old w =>
         ((instance_ok w,
           if instance_ok w then (if second_slot w then 6 else 5)
           else old), w);
     do_renderer_shader_release_instance_resources := fun _ _ w => (true, w);
     do_geometry_system_acquire_from_config :=
       fun _ _ w => (if geometry_ok w then Some tt else None, w);
     do_geometry_system_release := fun _ w => (tt, w) |}.

(** An image of [w] by [h] pixels with [c] channels. *)
Definition image (w h c : Z) : image_resource_data :=
  {| img_channel_count := c; img_width := w; img_height := h;
     img_pixels := repeat 255 (Z.to_nat (w * h * c)) |}.

(** The six faces of the skybox "default", each 2 by 2 with 4 channels;
    no other image exists. *)
Definition default_faces (name : string) : option image_resource_data :=
  if existsb (fun face => String.eqb name ("../skyboxes/default/" ++ face))
             face_names
  then Some (image 2 2 4) else None.

(** An engine in which everything works. *)
Definition healthy (imgs : string -> option image_resource_data) : settings :=
  {| skybox_shader := 1; shader_alive := true; images := imgs;
     use_ok := true; bind_globals_ok := true; uniform_ok := true;
     apply_instance_ok := true; map_ok := true; instance_ok := true;
     second_slot := false; geometry_ok := true; next_ptr := 4096 |}.

(** The process before [skybox_system_initialize]. *)
Definition boot (w : settings) : @machine engine :=
  @Build_machine engine None w.

(** The same process with the engine around it in another condition. *)
Definition in_world (w : settings) (m : @machine engine) : @machine engine :=
  @Build_machine engine (state_ptr m) w.

Definition default_config : skybox_system_config :=
  {| skybox_base_path := None |}.

(** Initialised, nothing loaded. *)
Definition initialized (w : settings) : @machine engine :=
  after (skybox_system_initialize true default_config (boot w)).

(** Initialised, skybox "default" loaded. *)
Definition loaded_default : @machine engine :=
  after (skybox_system_load "default" (initialized (healthy default_faces))).

(** The state of a machine that has one. *)
Definition state_of (m : @machine engine) : @skybox_state engine :=
  match state_ptr m with
  | Some st => st
  | None => zero_state
  end.

(** The faces of "default" again, but "left" has 3 channels where the
    others have 4. *)
Definition mixed_channel_faces (name : string) : option image_resource_data :=
  if String.eqb name "../skyboxes/default/left" then Some (image 2 2 3)
  else default_faces name.

(** Every image asked for exists, 2 by 2 with 4 channels. *)
Definition any_faces (name : string) : option image_resource_data :=
  Some (image 2 2 4).

(** No image exists. *)
Definition no_faces (name : string) : option image_resource_data := None.

(** A name of 65 characters. *)
Definition long_name : string :=
  string_of_list_ascii (repeat "a"%char 65).

(** The healthy engine after the shader system dropped its shaders. *)
Definition shader_gone : settings :=
  {| skybox_shader := 1; shader_alive := false; images := default_faces;
     use_ok := true; bind_globals_ok := true; uniform_ok := true;
     apply_instance_ok := true; map_ok := true; instance_ok := true;
     second_slot := false; geometry_ok := true; next_ptr := 8192 |}.

(** An engine without the skybox shader. *)
Definition shader_missing : settings :=
  {| skybox_shader := 4294967295; shader_alive := false;
     images := default_faces;
     use_ok := true; bind_globals_ok := true; uniform_ok := true;
     apply_instance_ok := true; map_ok := true; instance_ok := true;
     second_slot := false; geometry_ok := true; next_ptr := 4096 |}.

(** An engine whose renderer refuses texture-map resources. *)
Definition map_refused : settings :=
  {| skybox_shader := 1; shader_alive := true; images := default_faces;
     use_ok := true; bind_globals_ok := true; uniform_ok := true;
     apply_instance_ok := true; map_ok := false; instance_ok := true;
     second_slot := false; geometry_ok := true; next_ptr := 4096 |}.

(** An engine whose uniforms cannot be set. *)
Definition uniforms_refused : settings :=
  {| skybox_shader := 1; shader_alive := true; images := default_faces;
     use_ok := true; bind_globals_ok := true; uniform_ok := false;
     apply_instance_ok := true; map_ok := true; instance_ok := true;
     second_slot := false; geometry_ok := true; next_ptr := 8192 |}.

End Mock.

(** ** The platform of the concrete engine

    The filesystem holds the first face of the skybox "default" when the
    settings have its image, pointers are 8 bytes, and [string_duplicate]
    takes its memory from the same allocator. *)
Module MockPlatform.

Definition platform : @Platform Mock.engine :=
  {| sizeof_char_ptr := 8;
     do_filesystem_exists :=
       fun path (w : @World Mock.engine) =>
         (String.eqb path "../assets/skyboxes/default/right.png"
          && match Mock.images w "../skyboxes/default/right" with
             | Some _ => true
             | None => false
             end, w);
     do_string_duplicate :=
       fun source (w : @World Mock.engine) =>
         (Mock.next_ptr w,
          Mock.bump (Z.of_nat (String.length source) + 1) w) |}.

End MockPlatform.

(** ** More conditions of the concrete engine *)
Module Scenario.

(** An engine whose geometry system refuses the cube. *)
Definition no_geometry : Mock.settings :=
  {| Mock.skybox_shader := 1; Mock.shader_alive := true;
     Mock.images := Mock.default_faces;
     Mock.use_ok := true; Mock.bind_globals_ok := true;
     Mock.uniform_ok := true; Mock.apply_instance_ok := true;
     Mock.map_ok := true; Mock.instance_ok := true;
     Mock.second_slot := false; Mock.geometry_ok := false;
     Mock.next_ptr := 4096 |}.


(** The concrete engine with another renderer: its instance acquisition
    reports success and writes the sentinel. *)
Definition careless_renderer : Engine :=
  {| World := Mock.settings;
     shader := Z;
     geometry := unit;
     mat4 := unit;
     mat4_identity := tt;
     INVALID_ID := 4294967295;
     TEXTURE_NAME_MAX_LENGTH := 512;
     GEOMETRY_NAME_MAX_LENGTH := 256;
     MATERIAL_NAME_MAX_LENGTH := 256;
     TEXTURE_USE_MAP_DIFFUSE := 1;
     TEXTURE_FILTER_MODE_LINEAR := 1;
     TEXTURE_REPEAT_CLAMP_TO_EDGE := 3;
     do_shader_system_get_id := fun _ w => (Mock.skybox_shader w, w);
     do_shader_system_get_by_id :=
       fun id w => (if Mock.shader_alive w then Some id else None, w);
     do_shader_system_use_by_id := fun _ w => (Mock.use_ok w, w);
     do_renderer_shader_bind_globals :=
       fun _ w => (Mock.bind_globals_ok w, w);
     do_shader_system_uniform_set := fun _ _ w => (Mock.uniform_ok w, w);
     do_shader_system_apply_global := fun w => (true, w);
     do_shader_system_bind_instance := fun _ w => (true, w);
     do_shader_system_apply_instance :=
       fun _ w => (Mock.apply_instance_ok w, w);
     do_renderer_draw_geometry := fun _ _ w => (tt, w);
     do_resource_system_load := fun name w => (Mock.images w name, w);
     do_resource_system_unload := fun _ w => (tt, w);
     do_kallocate := fun size w => (Mock.next_ptr w, Mock.bump size w);
     do_kcopy_memory := fun _ _ _ w => (tt, w);
     do_kfree := fun _ _ w => (tt, w);
     do_renderer_cubemap_create := fun _ t w => (t, w);
     do_renderer_cubemap_destroy := fun t w => (t, w);
     do_renderer_texture_map_acquire_resources :=
       fun mp w => ((Mock.map_ok w, mp), w);
     do_renderer_texture_map_release_resources := fun mp w => (mp, w);
     do_renderer_shader_acquire_instance_resources :=
       fun _ _ _ w => ((true, 4294967295), w);
     do_renderer_shader_release_instance_resources := fun _ _ w => (true, w);
     do_geometry_system_acquire_from_config :=
       fun _ _ w => (if Mock.geometry_ok w then Some tt else None, w);
     do_geometry_system_release := fun _ w => (tt, w) |}.

(** With that renderer: initialised in a healthy engine, "default"
    loaded. *)
Definition careless_loaded : @machine careless_renderer :=
  after (skybox_system_load "default"
           (after (skybox_system_initialize true Mock.default_config
                     (@Build_machine careless_renderer None
                        (Mock.healthy Mock.default_faces))))).

Definition careless_state : @skybox_state careless_renderer :=
  match state_ptr careless_loaded with
  | Some st => st
  | None => zero_state
  end.

End Scenario.

(** * Properties *)

Section SkyboxProofs.

Context {E : Engine}.

(** ** Rules for [wp] *)

Lemma wp_ret {A} (a : A) Q m : Q a m [] -> wp (ret a) Q m.
Proof. exact (fun H => H). Qed.

Lemma wp_bind {A B} (c : M A) (k : A -> M B) Q m :
  wp c (fun a m1 t1 => wp (k a) (fun b m2 t2 => Q b m2 (t1 ++ t2)) m1) m ->
  wp (bind c k) Q m.
Proof.
  unfold wp, bind, result, after, trace.
  destruct (c m) as [[a m1] t1]; simpl.
  destruct (k a m1) as [[b m2] t2]; simpl. exact (fun H => H).
Qed.

Lemma wp_mono {A} (c : M A) (Q Q' : A -> machine -> list event -> Prop) m :
  wp c Q m -> (forall a m' t, Q a m' t -> Q' a m' t) -> wp c Q' m.
Proof. unfold wp; auto. Qed.

Lemma wp_field {A} (f : skybox_state -> A) Q sp w :
  Q (f (match sp with Some st => st | None => zero_state end))
    (Build_machine sp w) [] ->
  wp (field f) Q (Build_machine sp w).
Proof. exact (fun H => H). Qed.

Lemma wp_store g Q sp w :
  Q tt (Build_machine (option_map g sp) w) [] ->
  wp (store g) Q (Build_machine sp w).
Proof. exact (fun H => H). Qed.

Lemma wp_set_state_ptr p Q sp w :
  Q tt (Build_machine p w) [] -> wp (set_state_ptr p) Q (Build_machine sp w).
Proof. exact (fun H => H). Qed.

Lemma wp_null Q sp w :
  Q (match sp with None => true | Some _ => false end) (Build_machine sp w) [] ->
  wp state_ptr_is_null Q (Build_machine sp w).
Proof. exact (fun H => H). Qed.

Lemma wp_call {A} (f : World -> A * World) ev Q sp w :
  (forall a w', f w = (a, w') -> Q a (Build_machine sp w') [ev a]) ->
  wp (call f ev) Q (Build_machine sp w).
Proof.
  unfold wp, call, result, after, trace; simpl.
  destruct (f w) as [a w'] eqn:Hf; simpl. intros H; apply H; reflexivity.
Qed.

Ltac simpl_state :=
  cbn [option_map fst snd negb andb orb
       current_name is_loaded cubemap_texture cubemap_map cube_geometry
       shader_id shader_instance_id render_frame_number base_path
       set_current_name set_is_loaded set_cubemap_texture set_cubemap_map
       set_cube_geometry set_shader_id set_shader_instance_id
       set_render_frame_number set_base_path zero_state
       state_ptr world face_pixels out_width out_height out_channels
       set_face_pixels] in *.

Ltac wp_prim :=
  lazymatch goal with
  | |- wp (bind _ _) _ _ => apply wp_bind
  | |- wp (ret _) _ _ => apply wp_ret
  | |- wp (field _) _ _ => apply wp_field
  | |- wp (store _) _ _ => apply wp_store
  | |- wp (set_state_ptr _) _ _ => apply wp_set_state_ptr
  | |- wp state_ptr_is_null _ _ => apply wp_null
  | |- wp (call _ _) _ _ => apply wp_call; intros ? ? ?
  | |- wp (shader_system_get_id _) _ _ => unfold shader_system_get_id
  | |- wp (shader_system_get_by_id _) _ _ => unfold shader_system_get_by_id
  | |- wp (shader_system_use_by_id _) _ _ => unfold shader_system_use_by_id
  | |- wp (renderer_shader_bind_globals _) _ _ =>
      unfold renderer_shader_bind_globals
  | |- wp (shader_system_uniform_set _ _) _ _ =>
      unfold shader_system_uniform_set
  | |- wp shader_system_apply_global _ _ => unfold shader_system_apply_global
  | |- wp (shader_system_bind_instance _) _ _ =>
      unfold shader_system_bind_instance
  | |- wp (shader_system_apply_instance _) _ _ =>
      unfold shader_system_apply_instance
  | |- wp (renderer_draw_geometry _ _) _ _ => unfold renderer_draw_geometry
  | |- wp (resource_system_load _) _ _ => unfold resource_system_load
  | |- wp (resource_system_unload _) _ _ => unfold resource_system_unload
  | |- wp (kallocate _) _ _ => unfold kallocate
  | |- wp (kcopy_memory _ _ _) _ _ => unfold kcopy_memory
  | |- wp (kfree _ _) _ _ => unfold kfree
  | |- wp (renderer_cubemap_create _) _ _ => unfold renderer_cubemap_create
  | |- wp renderer_cubemap_destroy _ _ => unfold renderer_cubemap_destroy
  | |- wp renderer_texture_map_acquire_resources _ _ =>
      unfold renderer_texture_map_acquire_resources
  | |- wp renderer_texture_map_release_resources _ _ =>
      unfold renderer_texture_map_release_resources
  | |- wp (renderer_shader_acquire_instance_resources _) _ _ =>
      unfold renderer_shader_acquire_instance_resources
  | |- wp (renderer_shader_release_instance_resources _ _) _ _ =>
      unfold renderer_shader_release_instance_resources
  | |- wp (geometry_system_acquire_from_config _ _) _ _ =>
      unfold geometry_system_acquire_from_config
  | |- wp (geometry_system_release _) _ _ => unfold geometry_system_release
  | |- wp create_skybox_cube _ _ => unfold create_skybox_cube
  end.

Ltac wp_branch :=
  lazymatch goal with
  | |- wp (if ?b then _ else _) _ _ => destruct b eqn:?
  | |- wp (match ?x with _ => _ end) _ _ => destruct x eqn:?
  end.

Ltac wp_go := repeat (first [wp_prim | wp_branch]; simpl_state).

(** ** The loops *)

(** [free_face_pixels] frees exactly the non-null slots, in order, leaves
    the array all null, and does not touch the subsystem's state. *)
Lemma free_face_pixels_loop_spec size pixels sp w :
  wp (free_face_pixels_loop size pixels)
     (fun r m' t =>
        (exists w', m' = Build_machine sp w')
        /\ r = repeat 0 (List.length pixels)
        /\ t = map (fun p => EvFree p size) (filter nonnull pixels))
     (Build_machine sp w).
Proof.
  revert w.
  induction pixels as [|p rest IH]; intros w; cbn [free_face_pixels_loop].
  - apply wp_ret. eauto.
  - apply wp_bind. cbn [filter]. destruct (nonnull p).
    + unfold kfree. apply wp_call. intros [] w1 _. apply wp_bind.
      eapply wp_mono; [apply IH|]. intros r m' t ([w' ->] & -> & ->).
      apply wp_ret. cbn. rewrite app_nil_r. eauto.
    + apply wp_ret. apply wp_bind.
      eapply wp_mono; [apply IH|]. intros r m' t ([w' ->] & -> & ->).
      apply wp_ret. cbn. rewrite app_nil_r. eauto.
Qed.

(** Bookkeeping on traces. *)
Lemma freed_app t1 t2 : freed (t1 ++ t2) = freed t1 ++ freed t2.
Proof.
  induction t1 as [|e t1 IH]; [reflexivity|].
  destruct e; cbn [app freed]; rewrite IH; reflexivity.
Qed.

Lemma allocated_app t1 t2 :
  allocated (t1 ++ t2) = allocated t1 ++ allocated t2.
Proof.
  induction t1 as [|e t1 IH]; [reflexivity|].
  destruct e; cbn [app allocated]; rewrite IH; try reflexivity.
  destruct (nonnull p); reflexivity.
Qed.

Lemma loaded_images_app t1 t2 :
  loaded_images (t1 ++ t2) = loaded_images t1 ++ loaded_images t2.
Proof.
  induction t1 as [|e t1 IH]; [reflexivity|].
  destruct e; cbn [app loaded_images]; rewrite IH; try reflexivity.
  destruct found; reflexivity.
Qed.

Lemma frees_freed size l : freed (map (fun p => EvFree p size) l) = l.
Proof. induction l as [|p l IH]; cbn; [|rewrite IH]; reflexivity. Qed.

Lemma frees_allocated size l :
  allocated (map (fun p => EvFree p size) l) = [].
Proof. induction l as [|p l IH]; cbn; auto. Qed.

Lemma frees_loaded_images size l :
  loaded_images (map (fun p => EvFree p size) l) = [].
Proof. induction l as [|p l IH]; cbn; auto. Qed.

Lemma frees_face_events size l :
  forallb is_face_event (map (fun p => EvFree p size) l) = true.
Proof. induction l as [|p l IH]; cbn; auto. Qed.

Lemma filter_nonnull_zeros n : filter nonnull (repeat 0 n) = [].
Proof. induction n; cbn; auto. Qed.

Lemma array_set_app {A} (pre : list A) x rest v :
  array_set (pre ++ x :: rest) (List.length pre) v = pre ++ v :: rest.
Proof. induction pre as [|y pre IH]; cbn; [|rewrite IH]; reflexivity. Qed.

(** [free_face_pixels] as [load_cubemap_faces] calls it. *)
Lemma free_out_faces_spec out sp w :
  wp (free_out_faces out)
     (fun r m' t =>
        (exists w', m' = Build_machine sp w')
        /\ forallb is_face_event t = true
        /\ freed t = filter nonnull (face_pixels out)
        /\ allocated t = [] /\ loaded_images t = [])
     (Build_machine sp w).
Proof.
  unfold free_out_faces, free_face_pixels. apply wp_bind.
  eapply wp_mono; [apply free_face_pixels_loop_spec|].
  intros r m' t ([w' ->] & -> & ->). apply wp_ret.
  rewrite app_nil_r, frees_freed, frees_allocated, frees_loaded_images,
    frees_face_events. eauto 6.
Qed.

(** The loop of [load_cubemap_faces] past face 0.  It never touches the
    subsystem's state.  When it fails, every buffer the call holds -- those
    of the faces before [i] and those it allocated itself -- has been
    freed; when it succeeds nothing has been freed, every image it got has
    the width and height of face 0, and [n] images were fetched. *)
Lemma load_cubemap_faces_from_spec skybox_name n :
  forall i out pre sp w,
    List.length pre = S i ->
    face_pixels out = pre ++ repeat 0 n ->
    wp (load_cubemap_faces_from skybox_name n (S i) out)
       (fun r m' t =>
          (exists w', m' = Build_machine sp w')
          /\ forallb is_face_event t = true
          /\ (fst r = false ->
                freed t = filter nonnull pre ++ allocated t)
          /\ (fst r = true ->
                freed t = []
                /\ Forall (same_dimensions (out_width out) (out_height out))
                          (loaded_images t)
                /\ List.length (loaded_images t) = n
                /\ out_width (snd r) = out_width out
                /\ out_height (snd r) = out_height out
                /\ out_channels (snd r) = out_channels out
                /\ exists ps, face_pixels (snd r) = pre ++ ps
                              /\ List.length ps = n
                              /\ filter nonnull ps = allocated t))
       (Build_machine sp w).
Proof.
  induction n as [|n IH]; intros i out pre sp w Hlen Hpx;
    cbn [load_cubemap_faces_from].
  - apply wp_ret. cbn [fst snd]. split; [eauto|]. split; [reflexivity|].
    split; [discriminate|]. intros _. cbn. repeat split; auto.
    exists []. rewrite Hpx. auto.
  - wp_go.
    + cbn [Nat.eqb] in *. discriminate.
    + (* a face of another width or height *)
      eapply wp_mono; [apply free_out_faces_spec|].
      intros r m' t ([w1 ->] & Hev & Hfr & Hal & Him). wp_go.
      cbn [app loaded_images allocated freed forallb is_face_event fst].
      rewrite !app_nil_r, Hev, Hfr, Hal, Hpx, filter_app,
        filter_nonnull_zeros, !app_nil_r.
      repeat split; eauto; discriminate.
    + (* a face that matches: copy its pixels and go on *)
      rewrite Hpx.
      eapply wp_mono.
      { apply (IH (S i) _ (pre ++ [a0])).
        - rewrite length_app, Hlen. cbn. lia.
        - cbn [face_pixels set_face_pixels]. rewrite <- Hlen. cbn [repeat].
          rewrite array_set_app, <- app_assoc. reflexivity. }
      intros r m' t ([w1 ->] & Hev & Hfail & Hok). simpl_state.
      cbn [app loaded_images allocated freed forallb is_face_event fst].
      rewrite Hev. split; [eauto|]. split; [reflexivity|].
      apply orb_false_iff in Heqb0. destruct Heqb0 as [Hw Hh].
      apply negb_false_iff, Z.eqb_eq in Hw, Hh.
      split.
      * intros Hr. rewrite (Hfail Hr), filter_app. cbn [filter].
        destruct (nonnull a0); cbn; rewrite <- app_assoc; reflexivity.
      * intros Hr. destruct (Hok Hr) as (Hf & Hd & Hn & Hw' & Hh' & Hc' & ps & Hps & Hl & Hfl).
        repeat split; auto.
        -- constructor; [split; assumption|exact Hd].
        -- cbn. rewrite Hn. reflexivity.
        -- exists (a0 :: ps). rewrite Hps, <- app_assoc. cbn [app filter List.length].
           repeat split; auto.
           destruct (nonnull a0); rewrite Hfl; reflexivity.
    + (* a face that is missing *)
      cbn [Nat.ltb Nat.leb] in *.
      eapply wp_mono; [apply free_out_faces_spec|].
      intros r m' t ([w1 ->] & Hev & Hfr & Hal & Him). wp_go.
      cbn [app loaded_images allocated freed forallb is_face_event fst].
      rewrite !app_nil_r, Hev, Hfr, Hal, Hpx, filter_app,
        filter_nonnull_zeros, !app_nil_r.
      repeat split; eauto; discriminate.
    + cbn [Nat.ltb Nat.leb] in *. discriminate.
Qed.

(** The loop from face 0, on an array of null pointers.  On failure
    every buffer it allocated is freed again; on success face 0 gives the
    width, height and channel count it reports, and the other images have
    that width and height. *)
Lemma load_cubemap_faces_first_spec skybox_name n w0 h0 c0 sp w :
  wp (load_cubemap_faces_from skybox_name (S n) 0
        {| face_pixels := repeat 0 (S n); out_width := w0;
           out_height := h0; out_channels := c0 |})
     (fun r m' t =>
        (exists w', m' = Build_machine sp w')
        /\ forallb is_face_event t = true
        /\ (fst r = false -> freed t = allocated t)
        /\ (fst r = true ->
              freed t = []
              /\ filter nonnull (face_pixels (snd r)) = allocated t
              /\ exists img0 others,
                   loaded_images t = img0 :: others
                   /\ List.length others = n
                   /\ Forall (same_dimensions (img_width img0)
                                              (img_height img0)) others
                   /\ out_width (snd r) = img_width img0
                   /\ out_height (snd r) = img_height img0
                   /\ out_channels (snd r) = img_channel_count img0))
     (Build_machine sp w).
Proof.
  cbn [load_cubemap_faces_from].
  wp_go.
  - (* face 0 is there *)
    cbn [repeat array_set].
    eapply wp_mono.
    { apply (load_cubemap_faces_from_spec skybox_name n 0 _ [a0]);
        reflexivity. }
    intros r m' t ([w1 ->] & Hev & Hfail & Hok). simpl_state.
    cbn [app loaded_images allocated freed forallb is_face_event fst].
    rewrite Hev. split; [eauto|]. split; [reflexivity|]. split.
    + intros Hr. rewrite (Hfail Hr). cbn [filter].
      destruct (nonnull a0); reflexivity.
    + intros Hr.
      destruct (Hok Hr)
        as (Hf & Hd & Hn & Hw' & Hh' & Hc' & ps & Hps & Hl & Hfl).
      split; [exact Hf|]. split.
      * rewrite Hps. cbn [app filter].
        destruct (nonnull a0); rewrite Hfl; reflexivity.
      * eauto 10.
  - cbn [Nat.eqb] in *. discriminate.
  - cbn [Nat.eqb] in *. discriminate.
  - cbn [Nat.ltb Nat.leb] in *. discriminate.
  - (* face 0 is missing *)
    split; [eauto|]. split; [reflexivity|]. split; [reflexivity|discriminate].
Qed.

(** [load_cubemap_faces] as [skybox_system_load] calls it. *)
Lemma load_cubemap_faces_spec skybox_name sp w :
  wp (load_cubemap_faces skybox_name (repeat 0 6))
     (fun r m' t =>
        (exists w', m' = Build_machine sp w')
        /\ forallb is_face_event t = true
        /\ (fst r = false -> freed t = allocated t)
        /\ (fst r = true ->
              freed t = []
              /\ filter nonnull (face_pixels (snd r)) = allocated t
              /\ exists img0 others,
                   loaded_images t = img0 :: others
                   /\ List.length others = 5%nat
                   /\ Forall (same_dimensions (img_width img0)
                                              (img_height img0)) others
                   /\ out_width (snd r) = img_width img0
                   /\ out_height (snd r) = img_height img0
                   /\ out_channels (snd r) = img_channel_count img0))
     (Build_machine sp w).
Proof. exact (load_cubemap_faces_first_spec skybox_name 5 0 0 0 sp w). Qed.

(** ** Unload *)

Lemma unload_noop m :
  skybox_system_is_loaded m = false ->
  skybox_system_unload m = (tt, m, []).
Proof.
  destruct m as [[st|] w]; cbn [skybox_system_is_loaded state_ptr];
    intros Hl; unfold skybox_system_unload, bind, state_ptr_is_null, field, ret;
    cbn [state_ptr negb andb]; [rewrite Hl|]; reflexivity.
Qed.

(** What [skybox_system_unload] does to a loaded skybox: the teardown
    calls, in order, and the state it leaves. *)
Lemma unload_spec st w :
  is_loaded st = true ->
  wp skybox_system_unload
     (fun _ m' t =>
        exists st' w',
          m' = Build_machine (Some st') w'
          /\ t = teardown_calls st
                  (fst (do_shader_system_get_by_id (shader_id st) w))
          /\ is_loaded st' = false
          /\ current_name st' = clear_first (current_name st)
          /\ cubemap_texture st' = zero_texture
          /\ cubemap_map st' = zero_texture_map
          /\ cube_geometry st' = cube_geometry st
          /\ shader_id st' = shader_id st
          /\ render_frame_number st' = render_frame_number st
          /\ base_path st' = base_path st
          /\ shader_instance_id st'
             = match fst (do_shader_system_get_by_id (shader_id st) w) with
               | Some _ => INVALID_ID
               | None => shader_instance_id st
               end)
     (Build_machine (Some st) w).
Proof.
  intros Hl. unfold skybox_system_unload. wp_go;
    try (rewrite Hl in *; discriminate).
  all: match goal with
       | H : do_shader_system_get_by_id _ _ = _ |- _ => rewrite H
       end; cbn [fst].
  all: unfold teardown_calls, instance_release_calls.
  all: repeat match goal with H : negb _ = _ |- _ => rewrite H end.
  all: do 2 eexists; split; [reflexivity|]; split; [reflexivity|].
  all: simpl_state; repeat split; try reflexivity.
  match goal with
  | H : negb (_ =? _) = false |- _ =>
      apply negb_false_iff, Z.eqb_eq in H; exact H
  end.
Qed.

Lemma teardown_calls_quiet st found :
  forallb (fun e => negb (is_acquisition e)) (teardown_calls st found) = true.
Proof.
  unfold teardown_calls, instance_release_calls.
  destruct found; [destruct (negb _)|]; reflexivity.
Qed.

(** ** Load *)

Ltac wp_sub :=
  lazymatch goal with
  | |- wp skybox_system_unload _ (Build_machine (Some _) _) =>
      eapply wp_mono; [apply unload_spec; assumption|];
      let st' := fresh "st_un" in
      let Hun := fresh "Hun" in
      intros _ ? ? (st' & ? & -> & -> & Hun)
  | |- wp (load_cubemap_faces _ _) _ _ =>
      eapply wp_mono; [apply load_cubemap_faces_spec|];
      let Hfaces := fresh "Hfaces" in
      intros [? ?] ? ? ([? ->] & Hfaces)
  | |- wp (free_face_pixels _ _ _ _) _ _ =>
      unfold free_face_pixels;
      eapply wp_mono; [apply free_face_pixels_loop_spec|];
      intros ? ? ? ([? ->] & -> & ->)
  end.

Ltac wp_run := repeat (first [wp_prim | wp_branch | wp_sub]; simpl_state).

Lemma face_events_quiet t :
  forallb is_face_event t = true ->
  forallb (fun e => negb (is_gpu_acquisition e)) t = true.
Proof.
  induction t as [|e t IH]; [reflexivity|]. cbn [forallb].
  intros H. apply andb_true_iff in H. destruct H as [He Ht].
  rewrite (IH Ht). destruct e; try discriminate; reflexivity.
Qed.

Lemma teardown_calls_no_gpu st found :
  forallb (fun e => negb (is_gpu_acquisition e)) (teardown_calls st found)
  = true.
Proof.
  unfold teardown_calls, instance_release_calls.
  destruct found; [destruct (negb _)|]; reflexivity.
Qed.

Ltac norm_bools :=
  repeat match goal with
         | H : negb ?x = true |- _ => apply negb_true_iff in H
         | H : negb ?x = false |- _ => apply negb_false_iff in H
         end;
  repeat match goal with
         | H : fst ?x = _ |- context [fst ?x] => rewrite H
         end.

Ltac split_trace :=
  cbn [app];
  lazymatch goal with
  | |- exists before tail, ?a ++ ?b ++ ?c = _ /\ _ =>
      exists (a ++ b), c; split; [apply app_assoc|]
  | |- exists before tail, ?a ++ ?c = _ /\ _ =>
      exists a, c; split; [reflexivity|]
  | |- exists before tail, ?a = _ /\ _ =>
      exists a, []; split; [symmetry; apply app_nil_r|]
  end.

(** The trace of [skybox_system_load]: calls that are not GPU
    acquisitions (the teardown of the previous skybox, the fetching of the
    faces), then the acquisition phase. *)
Lemma load_trace_shape name sp w :
  wp (skybox_system_load name)
     (fun r m' t =>
        exists before tail,
          t = before ++ tail
          /\ forallb (fun e => negb (is_gpu_acquisition e)) before = true
          /\ load_tail r tail)
     (Build_machine sp w).
Proof.
  unfold skybox_system_load. destruct sp as [st|]; wp_run.
  all: try match goal with
           | H : forallb is_face_event _ = true /\ _ |- _ =>
               destruct H as [?Hev _]
           end.
  all: norm_bools; split_trace.
  all: (split;
        [ rewrite ?forallb_app, ?teardown_calls_no_gpu;
          cbn [andb forallb];
          try reflexivity; apply face_events_quiet; assumption
        | first [ exact tail_faces_failed
                | constructor; apply frees_face_events ] ]).
Qed.

Lemma load_null name w :
  skybox_system_load name (Build_machine None w)
  = (false, Build_machine None w, []).
Proof. reflexivity. Qed.

(** The state [skybox_system_load] leaves, by result. *)
Lemma load_state name st w :
  wp (skybox_system_load name)
     (fun r m' t =>
        exists st',
          state_ptr m' = Some st'
          /\ shader_id st' = shader_id st
          /\ cube_geometry st' = cube_geometry st
          /\ (r = true ->
                shader_id st <> INVALID_ID
                /\ is_loaded st' = true
                /\ render_frame_number st' = U64_MAX
                /\ (exists old,
                      current_name st'
                      = string_ncopy old name SKYBOX_NAME_MAX_LENGTH)
                /\ exists s maps old w0 w1,
                     do_renderer_shader_acquire_instance_resources
                       s maps old w0
                     = ((true, shader_instance_id st'), w1))
          /\ (r = false ->
                (shader_id st = INVALID_ID /\ st' = st /\ t = []
                 /\ world m' = w)
                \/ (shader_id st <> INVALID_ID
                    /\ is_loaded st' = false
                    /\ current_name st'
                       = if is_loaded st then clear_first (current_name st)
                         else current_name st)))
     (Build_machine (Some st) w).
Proof.
  unfold skybox_system_load. wp_run.
  all: repeat match goal with
         | H : _ /\ _ |- _ => destruct H
         | H : (_ =? _) = true |- _ => apply Z.eqb_eq in H
         | H : (_ =? _) = false |- _ => apply Z.eqb_neq in H
         end.
  all: eexists; split; [reflexivity|]; simpl_state.
  all: repeat match goal with
         | |- _ /\ _ => split
         | |- _ = true -> _ => intros ?
         | |- _ = false -> _ => intros ?
         end; try discriminate; try congruence; eauto 8.
  all: try (right; repeat split; congruence).
  all: match goal with
       | H : do_renderer_shader_acquire_instance_resources _ _ _ _ = (?a, _),
         Hb : negb (fst ?a) = false |- _ =>
           apply negb_false_iff in Hb; destruct a as [ok id];
           cbn [fst snd] in *; subst ok; eauto 8
       end.
Qed.

(** ** What holds in every reachable state *)

Lemma c_string_clear_first buf : c_string (clear_first buf) = ""%string.
Proof. destruct buf; reflexivity. Qed.

(** A read stops at the first NUL, whatever lies behind. *)
Lemma c_string_chars_app_nul l rest :
  c_string_chars (l ++ NUL :: rest) = c_string_chars l.
Proof.
  induction l as [|c l IH]; cbn [app c_string_chars]; [reflexivity|].
  destruct (is_nul c); [reflexivity|]. rewrite IH. reflexivity.
Qed.

(** While nothing is loaded the byte behind the name array is 0, so the
    name read is the C string of the array. *)
Lemma current_name_unloaded st :
  is_loaded st = false ->
  c_string (current_name_bytes st) = c_string (current_name st).
Proof.
  intros Hl. unfold current_name_bytes, c_string. rewrite Hl.
  cbn [b8_byte]. rewrite c_string_chars_app_nul. reflexivity.
Qed.

(** ** Initialise, shut down, render *)

(** [skybox_system_initialize] on a block of memory: the state is zeroed
    but for the base path, the shader id and the cube geometry. *)
Lemma initialize_spec config sp w :
  wp (skybox_system_initialize true config)
     (fun r m' t =>
        exists st',
          state_ptr m' = Some st'
          /\ is_loaded st' = false
          /\ current_name st' = repeat NUL SKYBOX_NAME_MAX_LENGTH
          /\ shader_instance_id st' = 0
          /\ render_frame_number st' = 0
          /\ shader_id st'
             = fst (do_shader_system_get_id "Shader.Builtin.Skybox" w)
          /\ (shader_id st' = INVALID_ID ->
                r = true /\ cube_geometry st' = None
                /\ t = [EvShaderGetId "Shader.Builtin.Skybox" INVALID_ID])
          /\ (r = false -> cube_geometry st' = None))
     (Build_machine sp w).
Proof.
  unfold skybox_system_initialize. cbn [negb]. wp_run.
  all: match goal with
       | H : do_shader_system_get_id _ _ = _ |- _ => rewrite H
       end; cbn [fst].
  all: repeat match goal with
         | H : (_ =? _) = true |- _ => apply Z.eqb_eq in H
         | H : (_ =? _) = false |- _ => apply Z.eqb_neq in H
         end.
  all: eexists; split; [reflexivity|]; simpl_state.
  all: repeat split; try reflexivity; try congruence.
  all: try (intros; congruence).
  all: intros; subst; try reflexivity; try discriminate.
  destruct a0; [discriminate|reflexivity].
Qed.

Lemma initialize_sizing_query config m :
  skybox_system_initialize false config m = (true, m, []).
Proof. reflexivity. Qed.

Lemma shutdown_state m : state_ptr (after (skybox_system_shutdown m)) = None.
Proof.
  destruct m as [[st|] w]; [|reflexivity].
  apply (wp_mono skybox_system_shutdown
           (fun _ m' _ => state_ptr m' = None)
           (fun _ m' _ => state_ptr m' = None)); [|auto].
  unfold skybox_system_shutdown. wp_go.
  destruct (is_loaded st) eqn:Hl.
  - eapply wp_mono; [apply unload_spec; assumption|].
    intros _ m' t (st' & w' & -> & _). wp_go; reflexivity.
  - pose proof (unload_noop (Build_machine (Some st) w) Hl) as Hn.
    unfold wp at 1. rewrite Hn. cbn [result after trace fst snd].
    wp_go; reflexivity.
Qed.

(** [skybox_system_render] on a loaded skybox with its cube: the dirty
    flag of the one instance apply, if the call gets that far, is whether
    the stored frame number differs from the argument; the frame number is
    stored and the cube drawn exactly when no stage failed; otherwise the
    state is left as it was. *)
Lemma render_spec projection view n st g w :
  is_loaded st = true ->
  cube_geometry st = Some g ->
  wp (skybox_system_render projection view n)
     (fun _ m' t =>
        exists st',
          state_ptr m' = Some st'
          /\ (instance_updates t = []
              \/ instance_updates t
                 = [negb (render_frame_number st =? n)])
          /\ (existsb is_draw t = true ->
                st' = set_render_frame_number n st
                /\ instance_updates t
                   = [negb (render_frame_number st =? n)]
                /\ existsb is_failed_stage t = false)
          /\ (existsb is_draw t = false -> st' = st)
          /\ (existsb is_failed_stage t = true -> existsb is_draw t = false))
     (Build_machine (Some st) w).
Proof.
  intros Hl Hg. unfold skybox_system_render. wp_go.
  all: try (rewrite Hl, Hg in *; discriminate).
  all: norm_bools; subst.
  all: eexists; split; [reflexivity|].
  all: cbn [app instance_updates existsb is_draw is_failed_stage orb].
  all: repeat split; auto; try discriminate.
Qed.

(** [skybox_system_render] without a loaded skybox or without the cube
    does nothing at all. *)
Lemma render_noop projection view n m :
  skybox_system_is_loaded m = false
  \/ (forall st, state_ptr m = Some st -> cube_geometry st = None) ->
  skybox_system_render projection view n m = (tt, m, []).
Proof.
  destruct m as [[st|] w]; cbn [skybox_system_is_loaded state_ptr];
    [|reflexivity].
  intros H. unfold skybox_system_render, bind, state_ptr_is_null, field, ret.
  cbn [state_ptr]. destruct H as [H|H].
  - rewrite H. reflexivity.
  - rewrite (H st eq_refl). destruct (is_loaded st); reflexivity.
Qed.

(** [skybox_system_render] in any state: it changes nothing but the
    stored frame number, and that only when it draws. *)
Lemma render_any projection view n st w :
  let r := skybox_system_render projection view n (Build_machine (Some st) w) in
  (instance_updates (trace r) = []
   \/ instance_updates (trace r) = [negb (render_frame_number st =? n)])
  /\ (existsb is_draw (trace r) = true ->
        state_ptr (after r) = Some (set_render_frame_number n st)
        /\ instance_updates (trace r) = [negb (render_frame_number st =? n)]
        /\ existsb is_failed_stage (trace r) = false
        /\ is_loaded st = true)
  /\ (existsb is_draw (trace r) = false -> state_ptr (after r) = Some st).
Proof.
  intros r. subst r.
  destruct (is_loaded st) eqn:Hl; [destruct (cube_geometry st) as [g|] eqn:Hg|].
  - destruct (render_spec projection view n st g w Hl Hg)
      as (st' & Hst & Hup & Hdraw & Hno & _).
    rewrite Hst. split; [exact Hup|]. split.
    + intros Hd. destruct (Hdraw Hd) as (-> & ? & ?). auto.
    + intros Hd. rewrite (Hno Hd). reflexivity.
  - rewrite render_noop
      by (right; cbn [state_ptr]; intros st0 [= <-]; exact Hg).
    cbn. split; [auto|]. split; [discriminate|reflexivity].
  - rewrite render_noop by (left; exact Hl).
    cbn. split; [auto|]. split; [discriminate|reflexivity].
Qed.

Lemma reachable_consistent sp : reachable sp -> consistent sp.
Proof.
  induction 1 as [|sp w state config _ IH|sp w _ IH|sp w name _ IH
                  |sp w _ IH|sp w projection view n _ IH].
  - intros st [=].
  - destruct state; [|exact IH].
    destruct (initialize_spec config sp w)
      as (st' & Hst & Hl & Hname & _).
    intros st Heq. rewrite Hst in Heq. injection Heq as <-.
    rewrite Hl, Hname. split; [reflexivity|discriminate].
  - rewrite shutdown_state. intros st [=].
  - destruct sp as [st|]; [|exact IH].
    destruct (load_state name st w) as (st' & Hst & Hid & _ & Hok & Hfail).
    destruct (IH st eq_refl) as [Hname Hshader].
    intros st0 Heq. rewrite Hst in Heq. injection Heq as <-.
    destruct (result (skybox_system_load name (Build_machine (Some st) w))).
    + destruct (Hok eq_refl) as (Hne & Hl & _). rewrite Hl, Hid.
      split; [discriminate|auto].
    + destruct (Hfail eq_refl) as [(_ & -> & _)|(_ & Hl & Hn)]; [auto|].
      rewrite Hl, Hn. split; [|discriminate]. intros _.
      destruct (is_loaded st); [apply c_string_clear_first|auto].
  - destruct sp as [st|]; [|exact IH].
    destruct (is_loaded st) eqn:Hl.
    + destruct (unload_spec st w Hl)
        as (st' & w' & Hm & _ & Hl' & Hn & _).
      rewrite Hm. intros st0 [= <-]. rewrite Hl', Hn.
      split; [intros _; apply c_string_clear_first|discriminate].
    + rewrite unload_noop by exact Hl. exact IH.
  - destruct sp as [st|]; [|exact IH].
    destruct (render_any projection view n st w) as (_ & Hd & Hn).
    destruct (IH st eq_refl) as [Hname Hshader].
    destruct (existsb is_draw _).
    + destruct (Hd eq_refl) as (-> & _). intros st0 [= <-]. split; assumption.
    + rewrite (Hn eq_refl). exact IH.
Qed.

(** ** The claims *)

(** Reading back a name that fits the buffer. *)
Lemma c_string_chars_terminated src rest :
  forallb (fun c => negb (is_nul c)) src = true ->
  c_string_chars (src ++ NUL :: rest) = src.
Proof.
  induction src as [|c src IH]; cbn [forallb app c_string_chars].
  - reflexivity.
  - intros H. apply andb_true_iff in H. destruct H as [Hc Hs].
    apply negb_true_iff in Hc. rewrite Hc, (IH Hs). reflexivity.
Qed.

Lemma c_string_chars_no_nul src :
  forallb (fun c => negb (is_nul c)) src = true ->
  c_string_chars src = src.
Proof.
  induction src as [|c src IH]; cbn [forallb c_string_chars].
  - reflexivity.
  - intros H. apply andb_true_iff in H. destruct H as [Hc Hs].
    apply negb_true_iff in Hc. rewrite Hc, (IH Hs). reflexivity.
Qed.

Lemma length_list_ascii_of_string s :
  List.length (list_ascii_of_string s) = String.length s.
Proof. induction s as [|c s IH]; cbn; [|rewrite IH]; reflexivity. Qed.

Lemma c_string_string_ncopy_app old name n behind :
  is_c_string name ->
  (String.length name < n)%nat ->
  c_string (string_ncopy old name n ++ behind) = name.
Proof.
  intros Hc Hlen. unfold c_string, string_ncopy, string_ncopy_chars.
  rewrite (c_string_chars_no_nul _ Hc), length_list_ascii_of_string.
  rewrite firstn_all2 by (rewrite length_list_ascii_of_string; lia).
  destruct (n - String.length name)%nat as [|k] eqn:Hk; [lia|].
  cbn [repeat]. rewrite <- !app_assoc. cbn [app].
  rewrite (c_string_chars_terminated _ _ Hc).
  apply string_of_list_ascii_of_string.
Qed.

Lemma c_string_string_ncopy old name n :
  is_c_string name ->
  (String.length name < n)%nat ->
  c_string (string_ncopy old name n) = name.
Proof.
  intros Hc Hlen.
  rewrite <- (app_nil_r (string_ncopy old name n)).
  apply c_string_string_ncopy_app; assumption.
Qed.

(** [skybox_system_unload] as an equation, for a loaded skybox. *)
Lemma unload_loaded_eq st w :
  is_loaded st = true ->
  exists st' w',
    skybox_system_unload (Build_machine (Some st) w)
    = (tt, Build_machine (Some st') w',
       teardown_calls st (fst (do_shader_system_get_by_id (shader_id st) w)))
    /\ is_loaded st' = false
    /\ current_name st' = clear_first (current_name st)
    /\ shader_id st' = shader_id st.
Proof.
  intros Hl. destruct (unload_spec st w Hl)
    as (st' & w' & Hm & Ht & Hl' & Hn & _ & _ & _ & Hid & _).
  exists st', w'. unfold after, trace in Hm, Ht.
  destruct (skybox_system_unload _) as [[[] m'] t]. cbn [fst snd] in Hm, Ht.
  subst. auto.
Qed.

(** C5 (amended).  For every name that fits the name buffer (fewer than
    [SKYBOX_NAME_MAX_LENGTH] = 64 characters): after a successful
    [skybox_system_load name], [skybox_system_is_loaded] is true and
    [skybox_system_get_current_name] is exactly [name]; after a following
    [skybox_system_unload], whatever the engine did in between,
    [skybox_system_is_loaded] is false and the name is the empty string. *)
Theorem load_then_unload_names (m : machine) (name : string) :
  is_c_string name ->
  (String.length name < SKYBOX_NAME_MAX_LENGTH)%nat ->
  result (skybox_system_load name m) = true ->
  let m1 := after (skybox_system_load name m) in
  skybox_system_is_loaded m1 = true
  /\ skybox_system_get_current_name m1 = name
  /\ forall w',
       let m2 := after (skybox_system_unload (with_world w' m1)) in
       skybox_system_is_loaded m2 = false
       /\ skybox_system_get_current_name m2 = ""%string.
Proof.
  intros Hc Hlen Hok m1. subst m1. destruct m as [[st|] w]; [|discriminate].
  destruct (load_state name st w) as (st' & Hst & _ & _ & Ht & _).
  destruct (Ht Hok) as (_ & Hl & _ & (old & Hn) & _).
  unfold skybox_system_is_loaded, skybox_system_get_current_name, with_world.
  rewrite Hst, Hl. split; [reflexivity|]. split.
  - unfold current_name_bytes. rewrite Hn.
    apply c_string_string_ncopy_app; assumption.
  - intros w'. destruct (unload_loaded_eq st' w' Hl)
      as (st2 & w2 & Heq & Hl2 & Hn2 & _).
    rewrite Heq. cbn [after fst snd state_ptr].
    rewrite Hl2, (current_name_unloaded st2 Hl2), Hn2.
    split; [reflexivity|apply c_string_clear_first].
Qed.

(** C6 (amended).  [skybox_system_unload] on a loaded skybox looks the
    skybox shader up, releases the shader instance if the shader was found
    and the instance id is not [INVALID_ID] (and skips that release
    otherwise), then releases the texture-map resources, then destroys the
    cubemap texture, then clears the name and marks the state unloaded.  A
    following unload, and every unload when nothing is loaded, makes no
    call and changes nothing. *)
Theorem unload_order_and_idempotence (m : machine) (st : skybox_state) :
  state_ptr m = Some st ->
  is_loaded st = true ->
  let r := skybox_system_unload m in
  trace r
  = teardown_calls st
      (fst (do_shader_system_get_by_id (shader_id st) (world m)))
  /\ skybox_system_is_loaded (after r) = false
  /\ skybox_system_get_current_name (after r) = ""%string
  /\ (forall w',
        skybox_system_unload (with_world w' (after r))
        = (tt, with_world w' (after r), []))
  /\ (forall m0,
        skybox_system_is_loaded m0 = false ->
        skybox_system_unload m0 = (tt, m0, [])).
Proof.
  intros Hst Hl r. subst r. destruct m as [sp w]. cbn [state_ptr world] in *.
  subst sp. destruct (unload_loaded_eq st w Hl)
    as (st' & w' & Heq & Hl' & Hn & _).
  rewrite Heq. cbn [after trace fst snd].
  unfold skybox_system_is_loaded at 1, skybox_system_get_current_name.
  cbn [state_ptr]. rewrite Hl', (current_name_unloaded st' Hl'), Hn.
  split; [reflexivity|]. split; [reflexivity|].
  split; [apply c_string_clear_first|]. split.
  - intros w2. apply unload_noop. exact Hl'.
  - exact unload_noop.
Qed.

(** A load over a loaded skybox is the unload followed by the load. *)
Lemma load_over_loaded name st w :
  is_loaded st = true ->
  shader_id st <> INVALID_ID ->
  let u := skybox_system_unload (Build_machine (Some st) w) in
  let l := skybox_system_load name (after u) in
  skybox_system_load name (Build_machine (Some st) w)
  = (result l, after l, trace u ++ trace l).
Proof.
  intros Hl Hid u l. subst u l.
  destruct (unload_loaded_eq st w Hl) as (st' & w' & Heq & Hl' & _ & Hid').
  rewrite Heq. cbn [after trace fst snd].
  apply Z.eqb_neq in Hid.
  unfold skybox_system_load.
  match goal with
  | |- context [bind (load_cubemap_faces name (repeat 0 6)) ?k] =>
      set (rest := bind (load_cubemap_faces name (repeat 0 6)) k)
  end.
  unfold bind, state_ptr_is_null, field, ret. cbn [state_ptr].
  rewrite Hid', Hid. cbv beta iota. cbn [state_ptr].
  rewrite Hl, Hl', Heq.
  unfold result, after, trace.
  destruct (rest _) as [[r m2] t2]. cbn [fst snd app]. reflexivity.
Qed.

(** C3.  A failed load leaves no skybox loaded.  In every state in which
    the name is empty while nothing is loaded and a skybox is only loaded
    with the skybox shader found (so in every state the subsystem can
    reach), and for every name: if [skybox_system_load] returns false then
    afterwards [skybox_system_is_loaded] is false and
    [skybox_system_get_current_name] is the empty string.  When a skybox
    was loaded before the call, the failed load has torn it down: its
    calls are the teardown calls of that skybox followed by the calls of a
    load from the unloaded state. *)
Theorem load_failure_leaves_unloaded (m : machine) (name : string) :
  consistent (state_ptr m) ->
  result (skybox_system_load name m) = false ->
  let r := skybox_system_load name m in
  skybox_system_is_loaded (after r) = false
  /\ skybox_system_get_current_name (after r) = ""%string
  /\ (skybox_system_is_loaded m = true ->
      exists st,
        state_ptr m = Some st
        /\ trace r
           = teardown_calls st
               (fst (do_shader_system_get_by_id (shader_id st) (world m)))
             ++ trace (skybox_system_load name
                         (after (skybox_system_unload m)))).
Proof.
  intros Hcons Hfail r. subst r.
  destruct m as [[st|] w]; [|repeat split; discriminate].
  destruct (Hcons st eq_refl) as [Hname Hshader].
  destruct (load_state name st w) as (st' & Hst & _ & _ & _ & Hf).
  unfold skybox_system_is_loaded, skybox_system_get_current_name.
  rewrite Hst. cbn [state_ptr world].
  destruct (Hf Hfail) as [(Hid & -> & _)|(Hid & Hl & Hn)].
  - destruct (is_loaded st) eqn:Hl; [destruct (Hshader eq_refl Hid)|].
    split; [reflexivity|]. split; [|discriminate].
    rewrite (current_name_unloaded st Hl). auto.
  - rewrite Hl, (current_name_unloaded st' Hl), Hn.
    split; [reflexivity|]. split.
    + destruct (is_loaded st) eqn:Hl0; [apply c_string_clear_first|auto].
    + intros Hl0. exists st. split; [reflexivity|].
      rewrite (load_over_loaded name st w Hl0 Hid).
      destruct (unload_loaded_eq st w Hl0) as (st2 & w2 & Heq & _).
      rewrite Heq. reflexivity.
Qed.

(** C2 (amended).  When [skybox_system_load] is called while a skybox is
    loaded, it first runs [skybox_system_unload] to the end and only then
    starts on the new skybox: its trace is the teardown of the old skybox
    followed by the trace of a load from the unloaded state.  The teardown
    releases the old texture-map resources and destroys the old cubemap
    texture, and releases the old shader instance when the shader lookup
    finds the skybox shader and the instance id is not [INVALID_ID]; it
    contains no acquisition. *)
Theorem load_tears_down_before_acquiring (m : machine) (st : skybox_state)
  (name : string) :
  reachable (state_ptr m) ->
  state_ptr m = Some st ->
  is_loaded st = true ->
  let u := skybox_system_unload m in
  let l := skybox_system_load name (after u) in
  skybox_system_load name m = (result l, after l, trace u ++ trace l)
  /\ trace u
     = teardown_calls st
         (fst (do_shader_system_get_by_id (shader_id st) (world m)))
  /\ forallb (fun e => negb (is_acquisition e)) (trace u) = true
  /\ skybox_system_is_loaded (after u) = false.
Proof.
  intros Hreach Hst Hl u l. subst u l.
  destruct m as [sp w]. cbn [state_ptr world] in *. subst sp.
  destruct (reachable_consistent _ Hreach st eq_refl) as [_ Hshader].
  split; [apply load_over_loaded; auto|].
  destruct (unload_loaded_eq st w Hl) as (st' & w' & Heq & Hl' & _).
  rewrite Heq. cbn [trace after fst snd skybox_system_is_loaded state_ptr].
  split; [reflexivity|]. split; [apply teardown_calls_quiet|exact Hl'].
Qed.

(** Lists of calls. *)
Lemma forallb_In {A} (p : A -> bool) l x :
  forallb p l = true -> In x l -> p x = true.
Proof. intros H. apply (proj1 (forallb_forall p l) H). Qed.

Lemma existsb_none {A} (p q : A -> bool) l :
  (forall x, p x = true -> q x = true) ->
  forallb (fun x => negb (q x)) l = true ->
  existsb p l = false.
Proof.
  intros Hpq. induction l as [|x l IH]; [reflexivity|].
  cbn [forallb existsb]. intros H. apply andb_true_iff in H.
  destruct H as [Hx Hl]. rewrite (IH Hl), orb_false_r.
  destruct (p x) eqn:Hp; [|reflexivity].
  rewrite (Hpq x Hp) in Hx. discriminate.
Qed.

Lemma map_refused_in t :
  existsb is_map_refused t = true ->
  exists mp mp', In (EvMapAcquire mp false mp') t.
Proof.
  intros H. apply existsb_exists in H. destruct H as (e & Hin & He).
  destruct e; try discriminate. destruct ok; [discriminate|]. eauto.
Qed.

Lemma face_events_not (p : event -> bool) t :
  (forall e, p e = true -> is_face_event e = false) ->
  forallb is_face_event t = true -> existsb p t = false.
Proof.
  intros Hp. induction t as [|e t IH]; [reflexivity|].
  cbn [forallb existsb]. intros H. apply andb_true_iff in H.
  destruct H as [He Ht]. rewrite (IH Ht), orb_false_r.
  destruct (p e) eqn:Hpe; [|reflexivity].
  rewrite (Hp e Hpe) in He. discriminate.
Qed.

(** A GPU acquisition in the trace of a load is in its acquisition phase,
    after the cubemap creation and the freeing of the face buffers. *)
Lemma gpu_call_position e before pixels tex created frees l :
  forallb (fun e => negb (is_gpu_acquisition e)) before = true ->
  forallb is_face_event frees = true ->
  is_gpu_acquisition e = true ->
  is_cubemap_create e = false ->
  In e (before ++ EvCubemapCreate pixels tex created :: frees ++ l) ->
  In e l.
Proof.
  intros Hb Hf Hg Hc Hin.
  apply in_app_or in Hin. destruct Hin as [Hin|Hin].
  { apply (forallb_In _ _ _ Hb) in Hin. rewrite Hg in Hin. discriminate. }
  cbn [In] in Hin. destruct Hin as [<-|Hin]; [discriminate|].
  apply in_app_or in Hin. destruct Hin as [Hin|Hin]; [|exact Hin].
  apply (forallb_In _ _ _ Hf) in Hin.
  destruct e; discriminate.
Qed.

(** The one cubemap creation of a load. *)
Lemma create_position pixels0 tex0 created0 before pixels tex created frees
  l :
  forallb (fun e => negb (is_gpu_acquisition e)) before = true ->
  forallb is_face_event frees = true ->
  existsb is_cubemap_create l = false ->
  In (EvCubemapCreate pixels0 tex0 created0)
     (before ++ EvCubemapCreate pixels tex created :: frees ++ l) ->
  created0 = created.
Proof.
  intros Hb Hf Hl Hin.
  apply in_app_or in Hin. destruct Hin as [Hin|Hin].
  { apply (forallb_In _ _ _ Hb) in Hin. discriminate. }
  cbn [In] in Hin. destruct Hin as [[= _ _ <-]|Hin]; [reflexivity|].
  apply in_app_or in Hin. destruct Hin as [Hin|Hin].
  - apply (forallb_In _ _ _ Hf) in Hin. discriminate.
  - assert (existsb is_cubemap_create l = true).
    { apply existsb_exists. eexists. split; [exact Hin|reflexivity]. }
    congruence.
Qed.

Lemma quiet_no_create before :
  forallb (fun e => negb (is_gpu_acquisition e)) before = true ->
  existsb is_cubemap_create before = false.
Proof. apply existsb_none. intros []; (discriminate || reflexivity). Qed.

Lemma frees_no_create frees :
  forallb is_face_event frees = true ->
  existsb is_cubemap_create frees = false.
Proof. apply face_events_not. intros []; (discriminate || reflexivity). Qed.

Ltac in_cases H :=
  cbn [In] in H;
  repeat match type of H with
         | _ \/ _ => destruct H as [H|H]
         | False => destruct H
         end;
  try discriminate H.

Ltac trace_eq := repeat (rewrite <- ?app_assoc; cbn [app]); reflexivity.

(** C4.  In [skybox_system_load]: when the texture-map acquisition is
    refused, the load returns false and its last call destroys the cubemap
    texture it has just created, as [renderer_cubemap_create] left it;
    when the shader-instance acquisition is refused, the load returns
    false and its last calls release the texture map, as the acquisition
    left it, and destroy that same cubemap texture.  The load creates the
    cubemap once, and between the creation and the texture-map acquisition
    it only frees the face buffers.  On every failing path each cubemap
    texture created is the one destroyed by the last call, and each
    texture map whose acquisition was granted is the one released just
    before: no GPU texture is left behind. *)
Theorem load_releases_on_acquisition_failure (m : machine) (name : string) :
  let r := skybox_system_load name m in
  (forall mp mp',
     In (EvMapAcquire mp false mp') (trace r) ->
     result r = false
     /\ exists before pixels tex created frees,
          trace r
          = before ++ EvCubemapCreate pixels tex created :: frees
            ++ [EvMapAcquire mp false mp'; EvCubemapDestroy created]
          /\ existsb is_cubemap_create before = false
          /\ forallb is_face_event frees = true)
  /\ (forall s inst,
        In (EvInstanceAcquire s false inst) (trace r) ->
        result r = false
        /\ exists before pixels tex created frees mp mp' id,
             trace r
             = before ++ EvCubemapCreate pixels tex created :: frees
               ++ [EvMapAcquire mp true mp'; EvShaderGetById id (Some s);
                   EvInstanceAcquire s false inst;
                   EvMapRelease mp'; EvCubemapDestroy created]
             /\ existsb is_cubemap_create before = false
             /\ forallb is_face_event frees = true)
  /\ (result r = false ->
        (forall pixels tex created,
           In (EvCubemapCreate pixels tex created) (trace r) ->
           exists before, trace r = before ++ [EvCubemapDestroy created])
        /\ (forall mp mp',
              In (EvMapAcquire mp true mp') (trace r) ->
              exists before created,
                trace r
                = before ++ [EvMapRelease mp'; EvCubemapDestroy created])).
Proof.
  intros r. subst r. destruct m as [sp w].
  pose proof (load_trace_shape name sp w) as H. unfold wp in H.
  set (res := result _) in *. set (t := trace _) in *. clearbody res t.
  destruct H as (before & tail & -> & Hq & Htail).
  pose proof (quiet_no_create _ Hq) as Hbc.
  destruct Htail as [|pixels tex created frees mp0 mp0' Hf
                     |pixels tex created frees mp0 mp0' id Hf
                     |pixels tex created frees mp0 mp0' id s0 inst0 Hf
                     |pixels tex created frees mp0 mp0' id s0 inst0 Hf].
  - (* the faces failed *)
    rewrite app_nil_r. split; [|split; [|intros _; split]].
    + intros mp mp' Hin. apply (forallb_In _ _ _ Hq) in Hin. discriminate.
    + intros s inst Hin. apply (forallb_In _ _ _ Hq) in Hin. discriminate.
    + intros p0 t0 c0 Hin. apply (forallb_In _ _ _ Hq) in Hin. discriminate.
    + intros mp mp' Hin. apply (forallb_In _ _ _ Hq) in Hin. discriminate.
  - (* the texture map was refused *)
    split; [|split; [|intros _; split]].
    + intros mp mp' Hin. apply gpu_call_position in Hin; auto.
      in_cases Hin. injection Hin as <- <-.
      split; [reflexivity|].
      exists before, pixels, tex, created, frees. auto.
    + intros s inst Hin. apply gpu_call_position in Hin; auto.
      in_cases Hin.
    + intros p0 t0 c0 Hin. apply create_position in Hin; auto. subst c0.
      exists (before ++ EvCubemapCreate pixels tex created :: frees
              ++ [EvMapAcquire mp0 false mp0']). trace_eq.
    + intros mp mp' Hin. apply gpu_call_position in Hin; auto.
      in_cases Hin.
  - (* the shader was not found *)
    split; [|split; [|intros _; split]].
    + intros mp mp' Hin. apply gpu_call_position in Hin; auto.
      in_cases Hin.
    + intros s inst Hin. apply gpu_call_position in Hin; auto.
      in_cases Hin.
    + intros p0 t0 c0 Hin. apply create_position in Hin; auto. subst c0.
      exists (before ++ EvCubemapCreate pixels tex created :: frees
              ++ [EvMapAcquire mp0 true mp0'; EvShaderGetById id None;
                  EvMapRelease mp0']). trace_eq.
    + intros mp mp' Hin. apply gpu_call_position in Hin; auto.
      in_cases Hin. injection Hin as <- <-.
      exists (before ++ EvCubemapCreate pixels tex created :: frees
              ++ [EvMapAcquire mp0 true mp0'; EvShaderGetById id None]),
        created. trace_eq.
  - (* the shader instance was refused *)
    split; [|split; [|intros _; split]].
    + intros mp mp' Hin. apply gpu_call_position in Hin; auto.
      in_cases Hin.
    + intros s inst Hin. apply gpu_call_position in Hin; auto.
      in_cases Hin. injection Hin as <- <-.
      split; [reflexivity|].
      exists before, pixels, tex, created, frees, mp0, mp0', id. auto.
    + intros p0 t0 c0 Hin. apply create_position in Hin; auto. subst c0.
      exists (before ++ EvCubemapCreate pixels tex created :: frees
              ++ [EvMapAcquire mp0 true mp0'; EvShaderGetById id (Some s0);
                  EvInstanceAcquire s0 false inst0; EvMapRelease mp0']).
      trace_eq.
    + intros mp mp' Hin. apply gpu_call_position in Hin; auto.
      in_cases Hin. injection Hin as <- <-.
      exists (before ++ EvCubemapCreate pixels tex created :: frees
              ++ [EvMapAcquire mp0 true mp0'; EvShaderGetById id (Some s0);
                  EvInstanceAcquire s0 false inst0]),
        created. trace_eq.
  - (* everything was acquired *)
    split; [|split; [|discriminate]].
    + intros mp mp' Hin. apply gpu_call_position in Hin; auto.
      in_cases Hin.
    + intros s inst Hin. apply gpu_call_position in Hin; auto.
      in_cases Hin.
Qed.



(** C8.  [skybox_system_render] makes no call and changes nothing when no
    skybox is loaded or the cube geometry is absent.  When a stage (shader
    activation, global bind, uniform set, instance apply) reports failure,
    no draw call is issued and the subsystem's state, [is_loaded]
    included, is what it was. *)
Theorem render_noop_and_aborts (m : machine) (projection view : mat4)
  (n : Z) :
  let r := skybox_system_render projection view n m in
  (skybox_system_is_loaded m = false
   \/ (forall st, state_ptr m = Some st -> cube_geometry st = None) ->
   r = (tt, m, []))
  /\ (existsb is_failed_stage (trace r) = true ->
      existsb is_draw (trace r) = false
      /\ state_ptr (after r) = state_ptr m).
Proof.
  intros r. subst r. split; [apply render_noop|].
  destruct m as [[st|] w]; [|discriminate].
  intros Hfail. cbn [state_ptr].
  destruct (render_any projection view n st w) as (_ & Hd & Hn).
  destruct (existsb is_draw _) eqn:Hdraw.
  - destruct (Hd eq_refl) as (_ & _ & Hnf & _). congruence.
  - split; [reflexivity|apply Hn; reflexivity].
Qed.

(** C10.  When the subsystem has no state ([state_ptr] is null) or the
    skybox shader was not found at initialisation:
    [skybox_system_load] returns false, [skybox_system_render] and
    [skybox_system_unload] return, all three without a call to the engine
    and without a change; [skybox_system_is_loaded] is false and
    [skybox_system_get_current_name] is the empty string.  And
    [skybox_system_initialize] returns true when the shader is missing,
    having made no call but the shader lookup, and leaves the subsystem in
    that condition. *)
Theorem degraded_entry_points (m : machine) :
  reachable (state_ptr m) ->
  degraded m ->
  (forall name, skybox_system_load name m = (false, m, []))
  /\ skybox_system_is_loaded m = false
  /\ skybox_system_get_current_name m = ""%string
  /\ (forall projection view n,
        skybox_system_render projection view n m = (tt, m, []))
  /\ skybox_system_unload m = (tt, m, [])
  /\ (forall m0 config,
        fst (do_shader_system_get_id "Shader.Builtin.Skybox" (world m0))
        = INVALID_ID ->
        let r := skybox_system_initialize true config m0 in
        result r = true
        /\ trace r = [EvShaderGetId "Shader.Builtin.Skybox" INVALID_ID]
        /\ degraded (after r)).
Proof.
  intros Hreach Hdeg.
  assert (Hl : skybox_system_is_loaded m = false).
  { destruct m as [[st|] w]; [|reflexivity].
    cbn [skybox_system_is_loaded state_ptr]. unfold degraded in Hdeg.
    cbn [state_ptr] in Hdeg.
    destruct (reachable_consistent _ Hreach st eq_refl) as [_ Hshader].
    destruct (is_loaded st); [destruct (Hshader eq_refl Hdeg)|reflexivity]. }
  split; [|split; [exact Hl|split; [|split; [|split]]]].
  - intros name. destruct m as [[st|] w]; [|reflexivity].
    unfold degraded in Hdeg. cbn [state_ptr] in Hdeg.
    apply Z.eqb_eq in Hdeg.
    unfold skybox_system_load, bind, state_ptr_is_null, field, ret.
    cbn [state_ptr]. rewrite Hdeg. reflexivity.
  - destruct m as [[st|] w]; [|reflexivity].
    cbn [skybox_system_is_loaded skybox_system_get_current_name state_ptr]
      in *.
    rewrite (current_name_unloaded st Hl).
    apply (reachable_consistent _ Hreach st eq_refl). exact Hl.
  - intros projection view n. apply render_noop. left. exact Hl.
  - apply unload_noop. exact Hl.
  - intros [sp w] config Hmiss r. subst r. cbn [world] in Hmiss.
    destruct (initialize_spec config sp w)
      as (st' & Hst & _ & _ & _ & _ & Hid & Hmissing & _).
    rewrite Hmiss in Hid. destruct (Hmissing Hid) as (Hr & _ & Ht).
    split; [exact Hr|]. split; [exact Ht|].
    unfold degraded. rewrite Hst. exact Hid.
Qed.

(** ** Face buffers and face dimensions *)

Lemma teardown_calls_no_faces st found :
  freed (teardown_calls st found) = []
  /\ allocated (teardown_calls st found) = []
  /\ loaded_images (teardown_calls st found) = []
  /\ existsb is_cubemap_create (teardown_calls st found) = false.
Proof.
  unfold teardown_calls, instance_release_calls.
  destruct found; [destruct (negb _)|]; repeat split; reflexivity.
Qed.

(** What [skybox_system_load] checks of the faces.  Every buffer it gets
    from [kallocate] it hands to [kfree], on every path.  It creates the
    cubemap only after six images were fetched of which the last five have
    the width and the height of the first; the channel counts are not
    compared. *)
Lemma load_face_contract name sp w :
  wp (skybox_system_load name)
     (fun r m' t =>
        freed t = allocated t
        /\ (r = true -> existsb is_cubemap_create t = true)
        /\ (existsb is_cubemap_create t = true ->
            exists img0 others,
              loaded_images t = img0 :: others
              /\ List.length others = 5%nat
              /\ Forall (same_dimensions (img_width img0) (img_height img0))
                        others))
     (Build_machine sp w).
Proof.
  unfold skybox_system_load. destruct sp as [st|]; wp_run.
  all: norm_bools; subst.
  all: try match goal with
           | H : forallb is_face_event _ = true /\ _ |- _ =>
               destruct H as (Hev & Hfail & Hok)
           end.
  all: try (specialize (Hfail eq_refl)).
  all: try (specialize (Hok eq_refl);
            destruct Hok as (Hfr & Hal & img0 & others & Him & Hlen & Hdim & _)).
  all: try (pose proof (frees_no_create _ Hev) as Hnc).
  all: cbn [app].
  all: repeat rewrite ?freed_app, ?allocated_app, ?loaded_images_app,
         ?existsb_app.
  all: cbn [freed allocated loaded_images existsb is_cubemap_create app].
  all: repeat rewrite ?freed_app, ?allocated_app, ?loaded_images_app,
         ?existsb_app.
  all: cbn [freed allocated loaded_images existsb is_cubemap_create app].
  all: repeat match goal with
         | |- context [teardown_calls ?s ?f] =>
             let H := fresh in
             pose proof (teardown_calls_no_faces s f) as H;
             destruct H as (-> & -> & -> & ->)
         end.
  all: rewrite ?frees_freed, ?frees_allocated, ?frees_loaded_images.
  all: cbn [app orb].
  all: try rewrite Hnc.
  all: rewrite ?app_nil_r.
  all: split; [first [congruence | rewrite Hfr, Hal; reflexivity]|].
  all: split; [intros; try discriminate; try reflexivity;
               rewrite ?orb_true_r; reflexivity|].
  all: intros Hcreate; try discriminate.
  all: rewrite Him; eauto.
Qed.

(** The same, about a run: all buffers are freed, a successful load has
    created the cubemap, and the cubemap is created only from six faces of
    one width and one height. *)
Corollary load_checks_width_and_height (m : machine) (name : string) :
  let r := skybox_system_load name m in
  freed (trace r) = allocated (trace r)
  /\ (result r = true -> existsb is_cubemap_create (trace r) = true)
  /\ (existsb is_cubemap_create (trace r) = true ->
      exists img0 others,
        loaded_images (trace r) = img0 :: others
        /\ List.length others = 5%nat
        /\ Forall (same_dimensions (img_width img0) (img_height img0))
                  others).
Proof. destruct m as [sp w]. exact (load_face_contract name sp w). Qed.

(** [skybox_system_initialize] leaves the instance id zeroed: with a
    sentinel other than 0, a valid id although nothing is loaded. *)
Lemma initialize_leaves_valid_instance_id (m : machine)
  (config : skybox_system_config) :
  INVALID_ID <> 0 ->
  let m' := after (skybox_system_initialize true config m) in
  skybox_system_is_loaded m' = false
  /\ exists st,
       state_ptr m' = Some st
       /\ shader_instance_id st = 0
       /\ valid_instance_id (shader_instance_id st).
Proof.
  intros Hinv m'. subst m'. destruct m as [sp w].
  destruct (initialize_spec config sp w) as (st' & Hst & Hl & _ & Hi & _).
  unfold skybox_system_is_loaded. rewrite Hst. split; [exact Hl|].
  exists st'. split; [reflexivity|]. split; [exact Hi|].
  unfold valid_instance_id. rewrite Hi. auto.
Qed.

Lemma teardown_calls_no_instance_acquire st found e :
  In e (teardown_calls st found) -> is_instance_acquire e = false.
Proof.
  unfold teardown_calls, instance_release_calls.
  destruct found; [destruct (negb _)|]; cbn [app In];
    intros H; repeat destruct H as [<-|H]; try reflexivity; destruct H.
Qed.

Lemma face_events_no_instance_acquire t e :
  forallb is_face_event t = true -> In e t -> is_instance_acquire e = false.
Proof.
  intros Hev Hin. apply (forallb_In _ _ _ Hev) in Hin.
  destruct e; try discriminate; reflexivity.
Qed.

Lemma frees_no_instance_acquire size l e :
  In e (map (fun p => EvFree p size) l) -> is_instance_acquire e = false.
Proof.
  intros Hin. apply in_map_iff in Hin. destruct Hin as (p & <- & _).
  reflexivity.
Qed.

Ltac in_trace H :=
  repeat match type of H with
         | In _ (_ ++ _) => apply in_app_or in H; destruct H as [H|H]
         | In _ (_ :: _) => destruct H as [H|H]
         | In _ [] => destruct H
         end.

(** The instance id [skybox_system_load] leaves: what the renderer wrote
    at the instance acquisition, if the load got that far; and the id it
    found, if nothing was loaded and it did not get that far. *)
Lemma load_instance_id name st w :
  wp (skybox_system_load name)
     (fun r m' t =>
        exists st',
          state_ptr m' = Some st'
          /\ (forall s ok inst,
                In (EvInstanceAcquire s ok inst) t ->
                shader_instance_id st' = inst)
          /\ (is_loaded st = false ->
              existsb is_instance_acquire t = false ->
              shader_instance_id st' = shader_instance_id st))
     (Build_machine (Some st) w).
Proof.
  unfold skybox_system_load. wp_run.
  all: try match goal with
           | H : forallb is_face_event _ = true /\ _ |- _ =>
               destruct H as [Hev _]
           end.
  all: eexists; split; [reflexivity|]; simpl_state.
  all: split;
    [ intros ? ? ? Hin; in_trace Hin;
      try discriminate Hin;
      try (apply teardown_calls_no_instance_acquire in Hin;
           discriminate Hin);
      try (apply (face_events_no_instance_acquire _ _ Hev) in Hin;
           discriminate Hin);
      try (apply frees_no_instance_acquire in Hin; discriminate Hin);
      try (injection Hin as _ _ <-; reflexivity)
    | intros Hl Hno; try congruence;
      try reflexivity;
      exfalso; rewrite ?existsb_app in Hno;
      cbn [existsb is_instance_acquire] in Hno;
      repeat rewrite ?orb_true_r, ?orb_true_l in Hno; discriminate Hno ].
Qed.

(** C9 (amended).  Provided the renderer writes a valid handle whenever an
    instance acquisition succeeds: in every reachable state, if
    [is_loaded] is true then the shader instance id is a valid
    (non-sentinel) handle.  Conversely, [skybox_system_unload] of a loaded
    skybox leaves [INVALID_ID] whenever its shader lookup finds the shader
    (and the id it found when the lookup fails);
    [skybox_system_load] writes the id only through the instance
    acquisition, so from an unloaded state a load that does not get that
    far leaves the id as it was; [skybox_system_initialize] leaves the
    id 0 with nothing loaded; and while nothing is loaded
    [skybox_system_unload] and [skybox_system_render] change nothing. *)
Theorem loaded_instance_id_is_valid :
  renderer_ids_valid ->
  (forall sp st,
     reachable sp -> sp = Some st -> is_loaded st = true ->
     valid_instance_id (shader_instance_id st))
  /\ (forall st w,
        is_loaded st = true ->
        exists st',
          state_ptr (after (skybox_system_unload
                              {| state_ptr := Some st; world := w |}))
          = Some st'
          /\ is_loaded st' = false
          /\ shader_instance_id st'
             = match fst (do_shader_system_get_by_id (shader_id st) w) with
               | Some _ => INVALID_ID
               | None => shader_instance_id st
               end)
  /\ (forall st w name,
        let r := skybox_system_load name
                   {| state_ptr := Some st; world := w |} in
        exists st',
          state_ptr (after r) = Some st'
          /\ (forall s ok inst,
                In (EvInstanceAcquire s ok inst) (trace r) ->
                shader_instance_id st' = inst)
          /\ (is_loaded st = false ->
              existsb is_instance_acquire (trace r) = false ->
              shader_instance_id st' = shader_instance_id st))
  /\ (forall m config,
        exists st',
          state_ptr (after (skybox_system_initialize true config m))
          = Some st'
          /\ is_loaded st' = false
          /\ shader_instance_id st' = 0)
  /\ (forall m,
        skybox_system_is_loaded m = false ->
        skybox_system_unload m = (tt, m, [])
        /\ forall projection view n,
             skybox_system_render projection view n m = (tt, m, [])).
Proof.
  intros Hvalid. split; [|split; [|split; [|split]]].
  - intros sp st Hreach. revert st.
    induction Hreach as [|sp w state config _ IH|sp w _ IH|sp w name _ IH
                         |sp w _ IH|sp w projection view n _ IH];
      intros st0 Heq Hl0.
    + discriminate.
    + destruct state; [|exact (IH st0 Heq Hl0)].
      destruct (initialize_spec config sp w) as (st' & Hst & Hl & _).
      rewrite Hst in Heq. injection Heq as <-. congruence.
    + rewrite shutdown_state in Heq. discriminate.
    + destruct sp as [st|]; [|discriminate].
      destruct (load_state name st w) as (st' & Hst & _ & _ & Hok & Hfail).
      rewrite Hst in Heq. injection Heq as <-.
      destruct (result (skybox_system_load name (Build_machine (Some st) w))).
      * destruct (Hok eq_refl)
          as (_ & _ & _ & _ & s & maps & old & w0 & w1 & Hacq).
        exact (Hvalid _ _ _ _ _ _ Hacq).
      * destruct (Hfail eq_refl) as [(_ & -> & _)|(_ & Hl & _)].
        -- exact (IH st eq_refl Hl0).
        -- congruence.
    + destruct sp as [st|]; [|discriminate].
      destruct (is_loaded st) eqn:Hl.
      * destruct (unload_spec st w Hl) as (st' & w' & Hm & _ & Hl' & _).
        rewrite Hm in Heq. injection Heq as <-. congruence.
      * rewrite unload_noop in Heq by exact Hl.
        injection Heq as <-. congruence.
    + destruct sp as [st|]; [|discriminate].
      destruct (render_any projection view n st w) as (_ & Hd & Hn).
      destruct (existsb is_draw _).
      * destruct (Hd eq_refl) as (Hst & _ & _ & Hl). rewrite Hst in Heq.
        injection Heq as <-. exact (IH st eq_refl Hl).
      * rewrite (Hn eq_refl) in Heq. injection Heq as <-.
        exact (IH st eq_refl Hl0).
  - intros st w Hl.
    destruct (unload_spec st w Hl)
      as (st' & w' & Hm & _ & Hl' & _ & _ & _ & _ & _ & _ & _ & Hid).
    exists st'. rewrite Hm. auto.
  - intros st w name. exact (load_instance_id name st w).
  - intros [sp w] config.
    destruct (initialize_spec config sp w) as (st' & Hst & Hl & _ & Hi & _).
    exists st'. auto.
  - intros m Hl. split; [exact (unload_noop m Hl)|].
    intros projection view n. apply render_noop. left. exact Hl.
Qed.

(** * Further properties of the subsystem *)

(** ** More bookkeeping on traces *)

Lemma unloaded_images_app t1 t2 :
  unloaded_images (t1 ++ t2) = unloaded_images t1 ++ unloaded_images t2.
Proof.
  induction t1 as [|e t1 IH]; [reflexivity|].
  destruct e; cbn [app unloaded_images]; rewrite IH; reflexivity.
Qed.

Lemma requested_names_app t1 t2 :
  requested_names (t1 ++ t2) = requested_names t1 ++ requested_names t2.
Proof.
  induction t1 as [|e t1 IH]; [reflexivity|].
  destruct e; cbn [app requested_names]; rewrite IH; reflexivity.
Qed.

Lemma created_cubemaps_app t1 t2 :
  created_cubemaps (t1 ++ t2) = created_cubemaps t1 ++ created_cubemaps t2.
Proof.
  induction t1 as [|e t1 IH]; [reflexivity|].
  destruct e; cbn [app created_cubemaps]; rewrite IH; reflexivity.
Qed.

Lemma requested_maps_app t1 t2 :
  requested_maps (t1 ++ t2) = requested_maps t1 ++ requested_maps t2.
Proof.
  induction t1 as [|e t1 IH]; [reflexivity|].
  destruct e; cbn [app requested_maps]; rewrite IH; reflexivity.
Qed.

Lemma frees_io size l :
  unloaded_images (map (fun p => EvFree p size) l) = []
  /\ requested_names (map (fun p => EvFree p size) l) = [].
Proof. induction l as [|p l [IH1 IH2]]; cbn; auto. Qed.

Lemma face_events_no_gpu_calls t :
  forallb is_face_event t = true ->
  created_cubemaps t = [] /\ requested_maps t = [].
Proof.
  induction t as [|e t IH]; [auto|]. cbn [forallb].
  intros H. apply andb_true_iff in H. destruct H as [He Ht].
  destruct (IH Ht) as [IH1 IH2].
  destruct e; try discriminate; cbn; auto.
Qed.

Lemma teardown_calls_no_io st found :
  created_cubemaps (teardown_calls st found) = []
  /\ requested_maps (teardown_calls st found) = []
  /\ requested_names (teardown_calls st found) = []
  /\ unloaded_images (teardown_calls st found) = [].
Proof.
  unfold teardown_calls, instance_release_calls.
  destruct found; [destruct (negb _)|]; repeat split; reflexivity.
Qed.

(** ** [free_face_pixels] *)

(** X1.  [free_face_pixels] hands every non-null slot of the array to
    [kfree], once, in slot order and with the one size
    [width * height * channels] (as a 32-bit product); it leaves every slot
    null and the subsystem's state alone.  So a second call on the array
    it leaves frees nothing. *)
Theorem free_face_pixels_frees_once (pixels : list ptr)
  (width height channels : Z) (m : machine) :
  let r := free_face_pixels pixels width height channels m in
  trace r
  = map (fun p => EvFree p (wrap32 (width * height * channels)))
        (filter nonnull pixels)
  /\ result r = repeat 0 (List.length pixels)
  /\ state_ptr (after r) = state_ptr m
  /\ forall width' height' channels' w',
       trace (free_face_pixels (result r) width' height' channels'
                (with_world w' (after r))) = [].
Proof.
  intros r. subst r. destruct m as [sp w]. unfold free_face_pixels.
  destruct (free_face_pixels_loop_spec
              (wrap32 (width * height * channels)) pixels sp w)
    as ([w1 Hm] & Hr & Ht).
  rewrite Ht, Hr, Hm. cbn [state_ptr].
  split; [reflexivity|]. split; [reflexivity|]. split; [reflexivity|].
  intros width' height' channels' w'. unfold with_world. cbn [state_ptr].
  destruct (free_face_pixels_loop_spec
              (wrap32 (width' * height' * channels'))
              (repeat 0 (List.length pixels)) sp w')
    as (_ & _ & Ht').
  rewrite Ht', filter_nonnull_zeros. reflexivity.
Qed.

(** ** [load_cubemap_faces] *)

Lemma free_out_faces_io out sp w :
  wp (free_out_faces out)
     (fun r m' t =>
        (exists w', m' = Build_machine sp w')
        /\ unloaded_images t = [] /\ requested_names t = []
        /\ loaded_images t = [])
     (Build_machine sp w).
Proof.
  unfold free_out_faces, free_face_pixels. apply wp_bind.
  eapply wp_mono; [apply free_face_pixels_loop_spec|].
  intros r m' t ([w' ->] & -> & ->). apply wp_ret.
  rewrite app_nil_r, frees_loaded_images.
  destruct (frees_io
              (wrap32 (out_width out * out_height out * out_channels out))
              (filter nonnull (face_pixels out))) as [-> ->].
  eauto.
Qed.

(** The loop of [load_cubemap_faces] from any face on: what it asks of the
    resource system.  It asks for the faces in order and stops at the
    first failure; whatever it was given it hands back. *)
Lemma load_cubemap_faces_from_io skybox_name n :
  forall i out sp w,
    wp (load_cubemap_faces_from skybox_name n i out)
       (fun r m' t =>
          (exists w', m' = Build_machine sp w')
          /\ unloaded_images t = loaded_images t
          /\ exists k,
               (k <= n)%nat
               /\ requested_names t = map (face_path skybox_name) (seq i k)
               /\ (fst r = true ->
                   k = n /\ List.length (loaded_images t) = n)
               /\ (fst r = false ->
                   (1 <= k)%nat
                   /\ (List.length (loaded_images t) <= k)%nat
                   /\ (k <= S (List.length (loaded_images t)))%nat))
       (Build_machine sp w).
Proof.
  induction n as [|n IH]; intros i out sp w; cbn [load_cubemap_faces_from].
  - apply wp_ret. split; [eauto|]. split; [reflexivity|].
    exists 0%nat. cbn. repeat split; auto; discriminate.
  - fold (face_path skybox_name i).
    wp_go.
    all: try (eapply wp_mono; [apply free_out_faces_io|];
              intros r m' t ([w1 ->] & Hun & Hreq & Hld); wp_go).
    all: try (eapply wp_mono; [apply (IH (S i))|];
              intros r m' t ([w1 ->] & Hbal & k & Hk & Hreq & Hok & Hfail)).
    all: cbn [app unloaded_images loaded_images requested_names fst].
    all: rewrite ?unloaded_images_app, ?loaded_images_app,
           ?requested_names_app.
    all: cbn [app unloaded_images loaded_images requested_names fst].
    all: try rewrite Hun, Hreq, Hld.
    all: try rewrite Hbal.
    all: split; [eauto|]; split; [reflexivity|].
    all: try (exists (S k); cbn [seq map List.length]; rewrite Hreq;
              split; [lia|]; split; [reflexivity|];
              split; intros Hr;
              [destruct (Hok Hr); split; congruence
              |destruct (Hfail Hr) as (? & ? & ?); repeat split; lia]).
    all: exists 1%nat; cbn [seq map List.length app].
    all: repeat split; intros; try discriminate; try reflexivity; lia.
Qed.

(** X2.  [load_cubemap_faces], called as [skybox_system_load] calls it (on
    an array of null pointers), never touches the subsystem's state and
    makes no call but resource loads and unloads, allocations, copies and
    frees.  When it fails, it has freed every buffer it allocated, in
    allocation order; when it succeeds it has freed nothing, and the
    non-null slots of the array it hands over are exactly the buffers it
    allocated. *)
Theorem load_cubemap_faces_buffers (skybox_name : string) (m : machine) :
  let r := load_cubemap_faces skybox_name (repeat 0 6) m in
  state_ptr (after r) = state_ptr m
  /\ forallb is_face_event (trace r) = true
  /\ (fst (result r) = false -> freed (trace r) = allocated (trace r))
  /\ (fst (result r) = true ->
      freed (trace r) = []
      /\ filter nonnull (face_pixels (snd (result r))) = allocated (trace r)).
Proof.
  intros r. subst r. destruct m as [sp w].
  destruct (load_cubemap_faces_spec skybox_name sp w)
    as ([w' Hm] & Hev & Hfail & Hok).
  rewrite Hm. split; [reflexivity|]. split; [exact Hev|].
  split; [exact Hfail|]. intros Hr. destruct (Hok Hr) as (? & ? & _). auto.
Qed.

(** X3.  [load_cubemap_faces] hands every image the resource system gave
    it back to the resource system, once and in the order received, on
    every path (success, missing face, face of another size). *)
Theorem load_cubemap_faces_returns_images (skybox_name : string)
  (pixels : list ptr) (m : machine) :
  let r := load_cubemap_faces skybox_name pixels m in
  unloaded_images (trace r) = loaded_images (trace r).
Proof.
  intros r. subst r. destruct m as [sp w]. unfold load_cubemap_faces.
  destruct (load_cubemap_faces_from_io skybox_name 6 0
              {| face_pixels := pixels; out_width := 0; out_height := 0;
                 out_channels := 0 |} sp w) as (_ & H & _).
  exact H.
Qed.

(** X4.  For a skybox name whose face paths fit the 512-byte buffer they
    are formatted into: [load_cubemap_faces] asks for the faces of the
    skybox under the names "../skyboxes/<name>/<face>", in the order
    right, left, top, bottom, front, back, and stops asking at the first
    face that is missing or of another size: it made [k] requests, for the
    first [k] faces, where [k] is 6 on success and on failure the number
    of images received, or one more when the last request found nothing.
    The names do not depend on the subsystem's state (the configured base
    path is not used). *)
Theorem load_cubemap_faces_request_order (skybox_name : string)
  (pixels : list ptr) (m : machine) :
  is_c_string skybox_name ->
  fits_resource_name skybox_name = true ->
  let r := load_cubemap_faces skybox_name pixels m in
  let received := List.length (loaded_images (trace r)) in
  exists k,
    (1 <= k <= 6)%nat
    /\ requested_names (trace r) = map (face_path skybox_name) (seq 0 k)
    /\ (fst (result r) = true ->
        k = 6%nat /\ received = 6%nat
        /\ requested_names (trace r)
           = [ "../skyboxes/" ++ skybox_name ++ "/right";
               "../skyboxes/" ++ skybox_name ++ "/left";
               "../skyboxes/" ++ skybox_name ++ "/top";
               "../skyboxes/" ++ skybox_name ++ "/bottom";
               "../skyboxes/" ++ skybox_name ++ "/front";
               "../skyboxes/" ++ skybox_name ++ "/back" ]%string)
    /\ (fst (result r) = false -> (received <= k <= S received)%nat).
Proof.
  intros _ _ r received. subst r received. destruct m as [sp w].
  unfold load_cubemap_faces.
  destruct (load_cubemap_faces_from_io skybox_name 6 0
              {| face_pixels := pixels; out_width := 0; out_height := 0;
                 out_channels := 0 |} sp w)
    as (_ & _ & k & Hk & Hreq & Hok & Hfail).
  exists k.
  destruct (fst (result _)) eqn:Hr.
  - destruct (Hok eq_refl) as [-> Hlen].
    split; [lia|]. split; [exact Hreq|]. split; [|discriminate].
    intros _. split; [reflexivity|]. split; [exact Hlen|].
    rewrite Hreq. reflexivity.
  - destruct (Hfail eq_refl) as (H1 & H2 & H3).
    split; [lia|]. split; [exact Hreq|]. split; [discriminate|].
    intros _. lia.
Qed.

(** ** [skybox_system_load] *)

(** [string_ncopy] writes exactly [length] characters. *)
Lemma string_ncopy_chars_length source n :
  List.length (string_ncopy_chars source n) = n.
Proof.
  unfold string_ncopy_chars.
  rewrite length_app, length_firstn, repeat_length. lia.
Qed.

Lemma firstn_string_ncopy dest source n :
  firstn n (string_ncopy dest source n) = string_ncopy_chars source n.
Proof.
  unfold string_ncopy.
  rewrite firstn_app, string_ncopy_chars_length, Nat.sub_diag.
  cbn [firstn]. rewrite app_nil_r.
  apply firstn_all2. rewrite string_ncopy_chars_length. lia.
Qed.

(** What [skybox_system_load] hands to the renderer. *)
Lemma load_handover name sp w :
  wp (skybox_system_load name)
     (fun r m' t =>
        Forall is_cubemap_sampler (requested_maps t)
        /\ ((created_cubemaps t = [] /\ r = false)
            \/ exists pixels tex img0 others,
                 created_cubemaps t = [(pixels, tex)]
                 /\ loaded_images t = img0 :: others
                 /\ describes_cubemap img0 name tex
                 /\ filter nonnull pixels = allocated t))
     (Build_machine sp w).
Proof.
  unfold skybox_system_load. destruct sp as [st|]; wp_run.
  all: norm_bools; subst.
  all: try match goal with
           | H : forallb is_face_event _ = true /\ _ |- _ =>
               destruct H as (Hev & Hfail & Hok)
           end.
  all: try (specialize (Hok eq_refl);
            destruct Hok
              as (Hfr & Hal & img0 & others & Him & Hlen & Hdim
                  & Hw & Hh & Hc)).
  all: try (destruct (face_events_no_gpu_calls _ Hev) as [Hcc Hrm]).
  all: cbn [app].
  all: repeat rewrite ?created_cubemaps_app, ?requested_maps_app,
         ?allocated_app, ?loaded_images_app.
  all: cbn [created_cubemaps requested_maps allocated loaded_images app].
  all: repeat rewrite ?created_cubemaps_app, ?requested_maps_app,
         ?allocated_app, ?loaded_images_app.
  all: cbn [created_cubemaps requested_maps allocated loaded_images app].
  all: repeat match goal with
         | |- context [teardown_calls ?s ?f] =>
             let H := fresh in
             let H' := fresh in
             pose proof (teardown_calls_no_faces s f) as H;
             pose proof (teardown_calls_no_io s f) as H';
             destruct H as (_ & -> & -> & _);
             destruct H' as (-> & -> & _ & _)
         end.
  all: try rewrite Hcc, Hrm.
  all: rewrite ?frees_allocated, ?frees_loaded_images.
  all: repeat match goal with
         | |- context [created_cubemaps (map ?f ?l)] =>
             rewrite (proj1 (face_events_no_gpu_calls (map f l)
                               (frees_face_events _ l)))
         | |- context [requested_maps (map ?f ?l)] =>
             rewrite (proj2 (face_events_no_gpu_calls (map f l)
                               (frees_face_events _ l)))
         end.
  all: cbn [app]; rewrite ?app_nil_r.
  all: split;
    [ repeat constructor
    | first
        [ left; split; reflexivity
        | right; do 4 eexists; split; [reflexivity|];
          split; [exact Him|]; split; [|exact Hal];
          unfold describes_cubemap;
          cbn [tex_width tex_height tex_channel_count tex_generation
               tex_name];
          repeat split; try assumption; try reflexivity;
          apply firstn_string_ncopy ] ].
Qed.

(** X5.  What [skybox_system_load] hands to the renderer.  It creates at
    most one cubemap, and one on every successful load; the texture
    description it hands over has the width, height and channel count of
    face 0, the generation [INVALID_ID] and the skybox name in its name
    field, and the buffers it hands over are the ones the call allocated.
    Every texture map it asks resources for is bound to the subsystem's
    cubemap texture, with linear filtering and clamp-to-edge on the three
    axes. *)
Theorem load_hands_over_face_zero_description (m : machine) (name : string) :
  let r := skybox_system_load name m in
  Forall is_cubemap_sampler (requested_maps (trace r))
  /\ (List.length (created_cubemaps (trace r)) <= 1)%nat
  /\ (result r = true -> List.length (created_cubemaps (trace r)) = 1%nat)
  /\ forall pixels tex,
       In (pixels, tex) (created_cubemaps (trace r)) ->
       exists img0 others,
         loaded_images (trace r) = img0 :: others
         /\ describes_cubemap img0 name tex
         /\ filter nonnull pixels = allocated (trace r).
Proof.
  intros r. subst r. destruct m as [sp w].
  destruct (load_handover name sp w) as [Hmaps Hcreate].
  split; [exact Hmaps|].
  destruct Hcreate as [[Hnone Hr]|(pixels & tex & img0 & others & Hone & Him
                                    & Hdesc & Hal)].
  - rewrite Hnone, Hr. cbn. split; [lia|]. split; [discriminate|].
    intros ? ? [].
  - rewrite Hone. cbn. split; [lia|]. split; [reflexivity|].
    intros pixels' tex' [[= <- <-]|[]]. eauto.
Qed.

(** X6.  In every reachable state, what [skybox_system_load] returns is
    what [skybox_system_is_loaded] answers afterwards. *)
Theorem load_result_is_loaded (m : machine) (name : string) :
  reachable (state_ptr m) ->
  skybox_system_is_loaded (after (skybox_system_load name m))
  = result (skybox_system_load name m).
Proof.
  intros Hreach. destruct m as [[st|] w]; [|reflexivity].
  destruct (reachable_consistent _ Hreach st eq_refl) as [_ Hshader].
  destruct (load_state name st w) as (st' & Hst & _ & _ & Hok & Hfail).
  unfold skybox_system_is_loaded. rewrite Hst.
  destruct (result _).
  - destruct (Hok eq_refl) as (_ & Hl & _). exact Hl.
  - destruct (Hfail eq_refl) as [(Hid & -> & _)|(_ & Hl & _)]; [|exact Hl].
    destruct (is_loaded st); [destruct (Hshader eq_refl Hid)|reflexivity].
Qed.

(** X7.  A successful load stores the frame number [(u64)-1], so the first
    render after it asks for an instance update for every frame number but
    [(u64)-1] itself: the flag it hands to [shader_system_apply_instance],
    if it gets that far, is true when the frame number is not [(u64)-1],
    and false when it is. *)
Theorem first_render_after_load_updates (m : machine) (name : string) :
  result (skybox_system_load name m) = true ->
  forall w' projection view n,
    let r := skybox_system_render projection view n
               (with_world w' (after (skybox_system_load name m))) in
    (n <> U64_MAX ->
     instance_updates (trace r) = [] \/ instance_updates (trace r) = [true])
    /\ (n = U64_MAX ->
        instance_updates (trace r) = []
        \/ instance_updates (trace r) = [false])
    /\ (existsb is_draw (trace r) = true ->
        instance_updates (trace r) = [negb (U64_MAX =? n)]).
Proof.
  intros Hok w' projection view n r. subst r.
  destruct m as [[st|] w]; [|discriminate].
  destruct (load_state name st w) as (st' & Hst & _ & _ & Ht & _).
  destruct (Ht Hok) as (_ & _ & Hframe & _).
  unfold with_world. rewrite Hst.
  destruct (render_any projection view n st' w') as (Hup & Hd & _).
  rewrite Hframe in Hup, Hd.
  split; [|split].
  - intros Hn. apply Z.eqb_neq in Hn. rewrite Z.eqb_sym in Hn.
    rewrite Hn in Hup. exact Hup.
  - intros ->. rewrite Z.eqb_refl in Hup. exact Hup.
  - intros Hdraw. destruct (Hd Hdraw) as (_ & H & _). exact H.
Qed.

(** ** What load, unload and render leave alone *)

Lemma load_keeps_setup name st w :
  wp (skybox_system_load name)
     (fun _ m' _ => exists st', state_ptr m' = Some st' /\ same_setup st st')
     (Build_machine (Some st) w).
Proof.
  unfold skybox_system_load, same_setup. wp_run.
  all: repeat match goal with H : _ /\ _ |- _ => destruct H end.
  all: eexists; split; [reflexivity|]; simpl_state; auto.
Qed.

Lemma unload_keeps_setup st w :
  exists st',
    state_ptr (after (skybox_system_unload (Build_machine (Some st) w)))
    = Some st'
    /\ same_setup st st'.
Proof.
  destruct (is_loaded st) eqn:Hl.
  - destruct (unload_spec st w Hl)
      as (st' & w' & Hm & _ & _ & _ & _ & _ & Hg & Hid & _ & Hb & _).
    rewrite Hm. exists st'. unfold same_setup. auto.
  - rewrite unload_noop by exact Hl. exists st. unfold same_setup. auto.
Qed.

Lemma render_keeps_setup projection view n st w :
  exists st',
    state_ptr (after (skybox_system_render projection view n
                        (Build_machine (Some st) w))) = Some st'
    /\ same_setup st st'.
Proof.
  destruct (render_any projection view n st w) as (_ & Hd & Hn).
  destruct (existsb is_draw _).
  - destruct (Hd eq_refl) as (-> & _). eexists; split; [reflexivity|].
    unfold same_setup. auto.
  - rewrite (Hn eq_refl). exists st. unfold same_setup. auto.
Qed.

(** The cube geometry is the part of the setup a render depends on. *)
Lemma serves_keeps_cube st st' :
  serves st st' -> cube_geometry st' = cube_geometry st.
Proof.
  induction 1 as [st|st st1 st2 w name _ IH Hst
                  |st st1 st2 w _ IH Hst
                  |st st1 st2 w projection view n _ IH Hst];
    [reflexivity| | |].
  - destruct (load_keeps_setup name st1 w) as (st3 & Hst3 & Hg & _).
    rewrite Hst3 in Hst. injection Hst as <-. congruence.
  - destruct (unload_keeps_setup st1 w) as (st3 & Hst3 & Hg & _).
    rewrite Hst3 in Hst. injection Hst as <-. congruence.
  - destruct (render_keeps_setup projection view n st1 w)
      as (st3 & Hst3 & Hg & _).
    rewrite Hst3 in Hst. injection Hst as <-. congruence.
Qed.

(** X8.  Load, unload and render calls, in any number and order and
    whether they succeed or fail, never change the cube geometry, the
    shader id or the base path: these stay as [skybox_system_initialize]
    left them. *)
Theorem serving_keeps_setup (st st' : skybox_state) :
  serves st st' -> same_setup st st'.
Proof.
  induction 1 as [st|st st1 st2 w name _ IH Hst
                  |st st1 st2 w _ IH Hst
                  |st st1 st2 w projection view n _ IH Hst].
  - unfold same_setup. auto.
  - destruct (load_keeps_setup name st1 w) as (st3 & Hst3 & Hs).
    rewrite Hst3 in Hst. injection Hst as <-.
    unfold same_setup in *. intuition congruence.
  - destruct (unload_keeps_setup st1 w) as (st3 & Hst3 & Hs).
    rewrite Hst3 in Hst. injection Hst as <-.
    unfold same_setup in *. intuition congruence.
  - destruct (render_keeps_setup projection view n st1 w)
      as (st3 & Hst3 & Hs).
    rewrite Hst3 in Hst. injection Hst as <-.
    unfold same_setup in *. intuition congruence.
Qed.

(** X9.  When the cube geometry is absent (the geometry system refused it
    at initialisation), no later render call makes any call or changes
    anything, whatever was loaded and unloaded in between. *)
Theorem no_geometry_never_draws (st st' : skybox_state) :
  serves st st' ->
  cube_geometry st = None ->
  forall w projection view n,
    skybox_system_render projection view n
      {| state_ptr := Some st'; world := w |}
    = (tt, {| state_ptr := Some st'; world := w |}, []).
Proof.
  intros Hserves Hnone w projection view n.
  pose proof (serves_keeps_cube _ _ Hserves) as Hg.
  apply render_noop. right. cbn [state_ptr]. intros st0 [= <-]. congruence.
Qed.

(** X10.  [skybox_system_load] frees every face buffer it allocated, on
    every path, failing or not: the buffers handed to [kfree] are the
    buffers obtained from [kallocate], in the same order.  A successful load
    has created the cubemap, and the cubemap is only created once six
    images were received of which the last five have the width and the
    height of the first. *)
Theorem load_frees_what_it_allocates (m : machine) (name : string) :
  let r := skybox_system_load name m in
  freed (trace r) = allocated (trace r)
  /\ (result r = true -> existsb is_cubemap_create (trace r) = true)
  /\ (existsb is_cubemap_create (trace r) = true ->
      exists img0 others,
        loaded_images (trace r) = img0 :: others
        /\ List.length others = 5%nat
        /\ Forall (same_dimensions (img_width img0) (img_height img0))
                  others).
Proof. destruct m as [sp w]. exact (load_face_contract name sp w). Qed.

(** ** [skybox_system_shutdown] *)

Lemma unload_loaded_full st w :
  is_loaded st = true ->
  exists st' w',
    skybox_system_unload (Build_machine (Some st) w)
    = (tt, Build_machine (Some st') w',
       teardown_calls st (fst (do_shader_system_get_by_id (shader_id st) w)))
    /\ cube_geometry st' = cube_geometry st.
Proof.
  intros Hl. destruct (unload_spec st w Hl)
    as (st' & w' & Hm & Ht & _ & _ & _ & _ & Hg & _).
  exists st', w'. unfold after, trace in Hm, Ht.
  destruct (skybox_system_unload _) as [[[] m'] t]. cbn [fst snd] in Hm, Ht.
  subst. auto.
Qed.

Lemma shutdown_spec st w :
  wp skybox_system_shutdown
     (fun _ m' t =>
        state_ptr m' = None
        /\ t = trace (skybox_system_unload (Build_machine (Some st) w))
               ++ geometry_release_calls (cube_geometry st))
     (Build_machine (Some st) w).
Proof.
  unfold skybox_system_shutdown. wp_go.
  destruct (is_loaded st) eqn:Hl.
  - destruct (unload_loaded_full st w Hl) as (st' & w' & Heq & Hg).
    unfold wp at 1. rewrite Heq. cbn [result after trace fst snd].
    wp_go.
    all: split; [reflexivity|].
    all: rewrite <- Hg;
      cbn [geometry_release_calls app]; rewrite ?app_nil_r; reflexivity.
  - pose proof (unload_noop (Build_machine (Some st) w) Hl) as Hn.
    unfold wp at 1. rewrite Hn. cbn [result after trace fst snd].
    wp_go.
    all: split; [reflexivity|].
    all: cbn [geometry_release_calls app]; rewrite ?app_nil_r; reflexivity.
Qed.

(** X11.  [skybox_system_shutdown] on an initialised subsystem unloads the
    skybox exactly as [skybox_system_unload] does, then releases the cube
    geometry if there is one, and leaves the state pointer null; on a
    subsystem without state it makes no call.  So a second shutdown makes
    no call, and after a shutdown nothing is loaded and the name is
    empty. *)
Theorem shutdown_unloads_then_releases_cube (m : machine) :
  let r := skybox_system_shutdown m in
  state_ptr (after r) = None
  /\ trace r
     = match state_ptr m with
       | Some st =>
           trace (skybox_system_unload m)
           ++ geometry_release_calls (cube_geometry st)
       | None => []
       end
  /\ skybox_system_is_loaded (after r) = false
  /\ skybox_system_get_current_name (after r) = ""%string
  /\ forall w',
       skybox_system_shutdown (with_world w' (after r))
       = (tt, with_world w' (after r), []).
Proof.
  intros r. subst r.
  assert (Hnull : state_ptr (after (skybox_system_shutdown m)) = None)
    by apply shutdown_state.
  split; [exact Hnull|]. split.
  - destruct m as [[st|] w]; [|reflexivity].
    cbn [state_ptr]. apply (shutdown_spec st w).
  - unfold skybox_system_is_loaded, skybox_system_get_current_name,
      with_world.
    rewrite Hnull. repeat split.
Qed.

(** ** [skybox_system_initialize] *)

Lemma initialize_full config sp w :
  wp (skybox_system_initialize true config)
     (fun r m' t =>
        let id := fst (do_shader_system_get_id "Shader.Builtin.Skybox" w) in
        exists st',
          state_ptr m' = Some st'
          /\ shader_id st' = id
          /\ is_loaded st' = false
          /\ base_path st'
             = string_ncopy (repeat NUL 512)
                 (match skybox_base_path config with
                  | Some path => path
                  | None => "../assets/skyboxes"%string
                  end) 512
          /\ ((id = INVALID_ID /\ r = true /\ cube_geometry st' = None
               /\ t = [EvShaderGetId "Shader.Builtin.Skybox" id])
              \/ (id <> INVALID_ID
                  /\ t = [EvShaderGetId "Shader.Builtin.Skybox" id;
                          EvGeometryAcquire skybox_cube_config
                            (cube_geometry st')]
                  /\ r = match cube_geometry st' with
                         | Some _ => true
                         | None => false
                         end)))
     (Build_machine sp w).
Proof.
  unfold skybox_system_initialize. cbn [negb]. wp_run.
  all: match goal with
       | H : do_shader_system_get_id _ _ = _ |- _ => rewrite H
       end; cbn [fst].
  all: repeat match goal with
         | H : (_ =? _) = true |- _ => apply Z.eqb_eq in H
         | H : (_ =? _) = false |- _ => apply Z.eqb_neq in H
         end.
  all: eexists; split; [reflexivity|]; simpl_state.
  all: split; [reflexivity|]; split; [reflexivity|];
       split; [reflexivity|].
  all: first [ left; repeat split; auto; congruence
             | right; split; [assumption|]; split; [reflexivity|];
               match goal with
               | |- _ = match ?g with _ => _ end => destruct g
               end; try reflexivity; discriminate ].
Qed.

(** X12.  [skybox_system_initialize] on a block of memory asks the shader
    system for "Shader.Builtin.Skybox" and stores the answer.  If the
    shader is missing it returns true and makes no other call; otherwise
    it asks the geometry system for the 36-vertex cube and returns whether
    it got it.  In every case the state pointer is set afterwards (also
    when false is returned) and no skybox is loaded; false is returned
    exactly when the shader was found and the cube was refused. *)
Theorem initialize_outcome (m : machine) (config : skybox_system_config) :
  let r := skybox_system_initialize true config m in
  let id := fst (do_shader_system_get_id "Shader.Builtin.Skybox" (world m)) in
  exists st',
    state_ptr (after r) = Some st'
    /\ shader_id st' = id
    /\ is_loaded st' = false
    /\ (id = INVALID_ID ->
        result r = true /\ cube_geometry st' = None
        /\ trace r = [EvShaderGetId "Shader.Builtin.Skybox" id])
    /\ (id <> INVALID_ID ->
        trace r = [EvShaderGetId "Shader.Builtin.Skybox" id;
                   EvGeometryAcquire skybox_cube_config (cube_geometry st')])
    /\ (result r = false <-> id <> INVALID_ID /\ cube_geometry st' = None).
Proof.
  intros r id. subst r id. destruct m as [sp w]. cbn [world].
  destruct (initialize_full config sp w)
    as (st' & Hst & Hid & Hl & _ & Hcase).
  exists st'. split; [exact Hst|]. split; [exact Hid|]. split; [exact Hl|].
  destruct Hcase as [(Hmiss & Hr & Hg & Ht)|(Hfound & Ht & Hr)].
  - split; [auto|]. split; [congruence|].
    rewrite Hr. split; [discriminate|]. intros [H _]. congruence.
  - split; [congruence|]. split; [auto|].
    rewrite Hr. destruct (cube_geometry st').
    + split; [discriminate|]. intros [_ H]. discriminate.
    + split; auto.
Qed.

(** X13.  [skybox_system_initialize] never releases anything: called on a
    subsystem that has a skybox loaded it makes no release call, and
    afterwards no skybox is loaded, so the resources of that skybox are
    never given back. *)
Theorem initialize_releases_nothing (m : machine)
  (config : skybox_system_config) (state : bool) :
  let r := skybox_system_initialize state config m in
  existsb is_release (trace r) = false
  /\ (state = true -> skybox_system_is_loaded (after r) = false).
Proof.
  intros r. subst r. destruct state.
  - destruct m as [sp w].
    destruct (initialize_full config sp w)
      as (st' & Hst & _ & Hl & _ & Hcase).
    unfold skybox_system_is_loaded. rewrite Hst.
    split; [|intros _; exact Hl].
    destruct Hcase as [(_ & _ & _ & ->)|(_ & -> & _)]; reflexivity.
  - split; [reflexivity|discriminate].
Qed.

(** X14.  The base path given in the configuration is stored and reads
    back as given when it has fewer than 512 characters; without one the
    stored path reads "../assets/skyboxes". *)
Theorem initialize_stores_base_path (m : machine)
  (config : skybox_system_config) :
  match skybox_base_path config with
  | Some path => is_c_string path /\ (String.length path < 512)%nat
  | None => True
  end ->
  exists st',
    state_ptr (after (skybox_system_initialize true config m)) = Some st'
    /\ c_string (base_path st')
       = match skybox_base_path config with
         | Some path => path
         | None => "../assets/skyboxes"%string
         end.
Proof.
  intros Hpath. destruct m as [sp w].
  destruct (initialize_full config sp w) as (st' & Hst & _ & _ & Hb & _).
  exists st'. split; [exact Hst|]. rewrite Hb.
  destruct (skybox_base_path config) as [path|].
  - destruct Hpath. apply c_string_string_ncopy; assumption.
  - apply c_string_string_ncopy; [reflexivity|cbn; lia].
Qed.

(** ** [skybox_system_render] *)

Lemma render_shape projection view n sp w :
  wp (skybox_system_render projection view n)
     (fun _ m' t =>
        forallb is_neutral t = true
        /\ (existsb is_draw t = true ->
            exists st s,
              sp = Some st
              /\ t = draw_sequence st s projection view
                       (negb (render_frame_number st =? n))
              /\ state_ptr m' = Some (set_render_frame_number n st))
        /\ (forall e,
              In e t -> is_failed_stage e = true -> last_call t = Some e)
        /\ (List.length t <= 9)%nat)
     (Build_machine sp w).
Proof.
  unfold skybox_system_render. destruct sp as [st|]; wp_go.
  all: norm_bools; subst.
  all: cbn [app].
  all: split; [reflexivity|].
  all: split;
    [ cbn [existsb is_draw orb];
      first [ intros Hd; discriminate Hd
            | intros _; do 2 eexists; split; [reflexivity|];
              split; reflexivity ] |].
  all: split; [|cbn [List.length]; lia].
  all: intros e Hin Hf; cbn [In] in Hin.
  all: repeat match goal with
         | H : _ \/ _ |- _ => destruct H as [<-|H]
         | H : False |- _ => destruct H
         end.
  all: try discriminate Hf.
  all: reflexivity.
Qed.


(** X16.  [skybox_system_render] acquires nothing and releases nothing,
    whatever the state and the engine's answers; and a stage that reports
    failure is the last call of the render: nothing is called after it. *)
Theorem render_acquires_and_releases_nothing (m : machine)
  (projection view : mat4) (n : Z) :
  let r := skybox_system_render projection view n m in
  forallb is_neutral (trace r) = true
  /\ forall e,
       In e (trace r) -> is_failed_stage e = true ->
       last_call (trace r) = Some e.
Proof.
  intros r. subst r. destruct m as [sp w].
  destruct (render_shape projection view n sp w) as (Hn & _ & Hlast & _).
  split; [exact Hn|exact Hlast].
Qed.

(** ** [create_skybox_cube] *)

End SkyboxProofs.

(** * The listing of available skyboxes *)

Section ListingProofs.

Context {E : Engine} {P : Platform}.

(** The loop of [skybox_system_free_available_list]. *)
Lemma free_names_from_spec entries n :
  forall i sp w,
    exists w',
      free_names_from entries i n (Build_machine sp w)
      = (tt, Build_machine sp w',
         map free_name_call
             (filter (fun e => nonnull (fst e))
                     (map (name_at entries) (seq i n)))).
Proof.
  induction n as [|n IH]; intros i sp w; cbn [free_names_from seq map filter].
  - exists w. reflexivity.
  - unfold bind.
    destruct (nonnull (fst (name_at entries i))) eqn:Hnn.
    + unfold kfree at 1, call at 1. cbn [world state_ptr].
      destruct (do_kfree _ _ w) as [[] w1].
      destruct (IH (S i) sp w1) as [w2 ->].
      exists w2. reflexivity.
    + unfold ret at 1.
      destruct (IH (S i) sp w) as [w2 ->].
      exists w2. reflexivity.
Qed.

Lemma free_available_list_spec names count sp w :
  exists w',
    skybox_system_free_available_list names count (Build_machine sp w)
    = (tt, Build_machine sp w',
       if nonnull (fst names)
       then map free_name_call (live_names names (Z.to_nat count))
            ++ [EvFree (fst names) (wrap64 (sizeof_char_ptr * count))]
       else []).
Proof.
  unfold skybox_system_free_available_list, live_names.
  destruct (nonnull (fst names)).
  - unfold bind.
    destruct (free_names_from_spec (snd names) (Z.to_nat count) 0 sp w)
      as [w1 ->].
    unfold kfree, call. cbn [world state_ptr].
    destruct (do_kfree _ _ w1) as [[] w2].
    exists w2. reflexivity.
  - exists w. reflexivity.
Qed.

Lemma freed_free_names l :
  freed (map free_name_call l) = map fst l.
Proof. induction l as [|e l IH]; cbn; [|rewrite IH]; reflexivity. Qed.

Lemma free_sizes_free_names l :
  free_sizes (map free_name_call l) = map (fun e => (fst e, name_size e)) l.
Proof. induction l as [|e l IH]; cbn; [|rewrite IH]; reflexivity. Qed.

Lemma free_sizes_app t1 t2 :
  free_sizes (t1 ++ t2) = free_sizes t1 ++ free_sizes t2.
Proof.
  induction t1 as [|e t1 IH]; [reflexivity|].
  destruct e; cbn [app free_sizes]; rewrite IH; reflexivity.
Qed.

(** X18.  [skybox_system_free_available_list] on a null list makes no
    call.  On a list that is not null it frees the non-null names among
    the first [count], once each and in order, each with the size "its
    length plus one", and then the list itself with the size
    [sizeof(char* ) * count]; it makes no other call and never touches the
    subsystem's state (it runs whether or not the subsystem is
    initialised). *)
Theorem free_available_list_frees_names_then_list (names : name_list)
  (count : Z) (m : machine) :
  let r := skybox_system_free_available_list names count m in
  state_ptr (after r) = state_ptr m
  /\ forallb (fun e => match e with EvFree _ _ => true | _ => false end)
             (trace r) = true
  /\ free_sizes (trace r)
     = (if nonnull (fst names)
        then map (fun e => (fst e, name_size e))
                 (live_names names (Z.to_nat count))
             ++ [(fst names, wrap64 (sizeof_char_ptr * count))]
        else [])
  /\ List.length (trace r)
     = (if nonnull (fst names)
        then S (List.length (live_names names (Z.to_nat count)))
        else 0%nat).
Proof.
  intros r. subst r. destruct m as [sp w].
  destruct (free_available_list_spec names count sp w) as [w' ->].
  unfold after, trace. cbn [fst snd state_ptr].
  split; [reflexivity|].
  destruct (nonnull (fst names)).
  - split.
    + rewrite forallb_app. cbn [forallb]. rewrite andb_true_r.
      apply forallb_forall. intros e He. apply in_map_iff in He.
      destruct He as (x & <- & _). reflexivity.
    + split.
      * rewrite free_sizes_app, free_sizes_free_names. reflexivity.
      * rewrite length_app, length_map. cbn [List.length]. lia.
  - repeat split.
Qed.

(** What [skybox_system_get_available] does once past its guard. *)
Lemma get_available_run st w :
  skybox_system_get_available true true (Build_machine (Some st) w)
  = let check_path := (c_string (base_path st) ++ "/default/right.png")%string in
    let '(found, w1) := do_filesystem_exists check_path w in
    if found then
      let '(names, w2) := do_kallocate (wrap64 (sizeof_char_ptr * 1)) w1 in
      let '(copy, w3) := do_string_duplicate "default" w2 in
      ((true, Some {| out_count := 1;
                      out_names := (names, [(copy, "default"%string)]) |}),
       Build_machine (Some st) w3,
       [ EvFilesystemExists check_path true;
         EvEngine (EvAllocate (wrap64 (sizeof_char_ptr * 1)) names);
         EvStringDuplicate "default" copy ])
    else
      ((true, Some {| out_count := 0; out_names := null_name_list |}),
       Build_machine (Some st) w1,
       [ EvFilesystemExists check_path false ]).
Proof.
  unfold skybox_system_get_available, lbind, lift, state_ptr_is_null, field,
    filesystem_exists, string_duplicate, lcall, kallocate, call, lret.
  cbn [state_ptr world orb negb map app].
  destruct (do_filesystem_exists _ w) as [[|] w1]; cbn [state_ptr world].
  - destruct (do_kallocate _ w1) as [names w2]. cbn [state_ptr world map app].
    destruct (do_string_duplicate _ w2) as [copy w3]. reflexivity.
  - reflexivity.
Qed.

Lemma get_available_guard out_names_given out_count_given m :
  state_ptr m = None \/ out_names_given = false \/ out_count_given = false ->
  skybox_system_get_available out_names_given out_count_given m
  = ((false, None), m, []).
Proof.
  destruct m as [sp w]. cbn [state_ptr].
  unfold skybox_system_get_available, lbind, lift, state_ptr_is_null, lret.
  cbn [state_ptr map app].
  intros [->|[-> | ->]]; [reflexivity| |].
  - destruct sp; reflexivity.
  - destruct sp, out_names_given; reflexivity.
Qed.


(** X20.  Round trip: what [skybox_system_get_available] obtained,
    [skybox_system_free_available_list] gives back.  Called with the list
    and the count that a successful [skybox_system_get_available] wrote,
    and provided [kallocate] did not answer null, it frees every non-null
    pointer obtained, once, in the reverse order (the copy of the name
    first, the list last); the list is freed with the size it was
    allocated with and the copy of "default" with 8. *)
Theorem available_list_round_trip (m : machine) (lst : listing)
  (w' : World) :
  let r := skybox_system_get_available true true m in
  let r' := skybox_system_free_available_list (out_names lst) (out_count lst)
              (with_world w' (lafter r)) in
  lresult r = (true, Some lst) ->
  allocation_failed (ltrace r) = false ->
  freed (trace r') = rev (filter nonnull (obtained (ltrace r)))
  /\ state_ptr (after r') = state_ptr m
  /\ (forall size p,
        In (EvEngine (EvAllocate size p)) (ltrace r) ->
        In (p, size) (free_sizes (trace r')))
  /\ (forall source p,
        In (EvStringDuplicate source p) (ltrace r) -> nonnull p = true ->
        In (p, 8) (free_sizes (trace r'))).
Proof.
  intros r r'. subst r r'.
  destruct m as [[st|] w];
    [|rewrite get_available_guard by (cbn [state_ptr]; auto); discriminate].
  rewrite get_available_run. cbv zeta.
  destruct (do_filesystem_exists _ w) as [[|] w1].
  - destruct (do_kallocate _ w1) as [names w2].
    destruct (do_string_duplicate _ w2) as [copy w3].
    unfold lafter, lresult, ltrace, with_world. cbn [fst snd state_ptr].
    intros [= <-] Hal.
    unfold allocation_failed in Hal. cbn [existsb orb] in Hal.
    rewrite orb_false_r in Hal. apply negb_false_iff in Hal.
    cbn [out_names out_count].
    destruct (free_available_list_spec (names, [(copy, "default"%string)]) 1
                (Some st) w') as [w4 ->].
    unfold after, trace. cbn [fst snd state_ptr]. rewrite Hal.
    unfold live_names. change (Z.to_nat 1) with 1%nat.
    cbn [seq map snd name_at nth filter fst obtained].
    rewrite ?Hal.
    destruct (nonnull copy) eqn:Hc;
      cbn [map app freed free_sizes free_name_call fst rev filter].
    + rewrite ?Hc. cbn [rev app].
      split; [reflexivity|]. split; [reflexivity|]. split.
      * intros size p [H|[H|[H|[]]]]; try discriminate H.
        injection H as <- <-. right. left. reflexivity.
      * intros source p [H|[H|[H|[]]]] _; try discriminate H.
        injection H as <- <-. left. reflexivity.
    + rewrite ?Hc. cbn [rev app].
      split; [reflexivity|]. split; [reflexivity|]. split.
      * intros size p [H|[H|[H|[]]]]; try discriminate H.
        injection H as <- <-. left. reflexivity.
      * intros source p [H|[H|[H|[]]]] Hp; try discriminate H.
        injection H as <- <-. congruence.
  - unfold lafter, lresult, ltrace, with_world. cbn [fst snd state_ptr].
    intros [= <-] _. cbn [out_names out_count].
    destruct (free_available_list_spec null_name_list 0 (Some st) w')
      as [w4 ->].
    unfold after, trace. cbn.
    split; [reflexivity|]. split; [reflexivity|]. split.
    + intros size p [H|[]]. discriminate H.
    + intros source p [H|[]]. discriminate H.
Qed.

End ListingProofs.

(** * Concrete runs *)

#[local] Existing Instance Mock.engine.

(** C1, at the failing input.  The six faces of "default" are 2 by 2, and
    "left" has 3 channels where "right" (face 0) has 4.  The load does not
    fail: it creates the cubemap and ends loaded.  The buffer of "left" was
    allocated with 12 bytes and is freed as 16, the size of face 0. *)
Theorem load_accepts_mixed_channel_counts :
  let r := skybox_system_load "default"
             (Mock.initialized (Mock.healthy Mock.mixed_channel_faces)) in
  map img_channel_count (loaded_images (trace r)) = [4; 3; 4; 4; 4; 4]
  /\ map img_width (loaded_images (trace r)) = [2; 2; 2; 2; 2; 2]
  /\ map img_height (loaded_images (trace r)) = [2; 2; 2; 2; 2; 2]
  /\ result r = true
  /\ skybox_system_is_loaded (after r) = true
  /\ existsb is_cubemap_create (trace r) = true
  /\ allocation_sizes (trace r)
     = [(4096, 16); (4112, 12); (4124, 16); (4140, 16); (4156, 16);
        (4172, 16)]
  /\ free_sizes (trace r)
     = [(4096, 16); (4112, 16); (4124, 16); (4140, 16); (4156, 16);
        (4172, 16)].
Proof. vm_compute. repeat split; reflexivity. Qed.

(** The concrete machines below are reachable. *)
Lemma initialized_reachable (w : Mock.settings) :
  reachable (state_ptr (Mock.initialized w)).
Proof.
  exact (@reach_initialize Mock.engine None w true Mock.default_config
           (@reach_start Mock.engine)).
Qed.

Lemma loaded_default_reachable : reachable (state_ptr Mock.loaded_default).
Proof.
  exact (@reach_load Mock.engine
           (state_ptr (Mock.initialized (Mock.healthy Mock.default_faces)))
           (world (Mock.initialized (Mock.healthy Mock.default_faces)))
           "default"
           (initialized_reachable (Mock.healthy Mock.default_faces))).
Qed.

(** C2, counterexample.  The skybox "default" is loaded, with shader
    instance 5; the shader system no longer finds the skybox shader.  A
    load then fetches faces and acquires GPU resources for the new skybox
    without the old shader instance ever being released. *)
Lemma load_over_loaded_keeps_old_instance :
  let m := Mock.in_world Mock.shader_gone Mock.loaded_default in
  let r := skybox_system_load "default" m in
  reachable (state_ptr m)
  /\ skybox_system_is_loaded m = true
  /\ shader_instance_id (Mock.state_of m) = 5
  /\ existsb is_acquisition (trace r) = true
  /\ existsb is_instance_release (trace r) = false.
Proof.
  split; [exact loaded_default_reachable|].
  vm_compute. repeat split; reflexivity.
Qed.

(** C5, counterexample.  A name of 65 characters: the load succeeds and
    keeps 64 characters of it, without a terminator.  The name read back
    is not that name: the read runs through the 64 characters into the
    byte of [is_loaded], which is 1, and stops at the padding behind it. *)
Lemma load_truncates_long_name :
  let r := skybox_system_load Mock.long_name
             (Mock.initialized (Mock.healthy Mock.any_faces)) in
  is_c_string Mock.long_name
  /\ String.length Mock.long_name = 65%nat
  /\ result r = true
  /\ skybox_system_is_loaded (after r) = true
  /\ skybox_system_get_current_name (after r) <> Mock.long_name
  /\ skybox_system_get_current_name (after r)
     = string_of_list_ascii
         (repeat "a"%char 64 ++ [Ascii.ascii_of_nat 1]).
Proof.
  cbv zeta. split; [reflexivity|]. split; [reflexivity|].
  split; [vm_compute; reflexivity|].
  split; [vm_compute; reflexivity|]. split.
  - intros H. vm_compute in H. discriminate.
  - vm_compute. reflexivity.
Qed.

(** C6, counterexample.  The skybox "default" is loaded, with the valid
    shader instance 5; the shader system no longer finds the skybox
    shader.  The unload releases the texture-map resources and destroys the
    cubemap, and marks the state unloaded, but never releases the shader
    instance. *)
Lemma unload_skips_instance_release :
  let m := Mock.in_world Mock.shader_gone Mock.loaded_default in
  let r := skybox_system_unload m in
  reachable (state_ptr m)
  /\ skybox_system_is_loaded m = true
  /\ @valid_instance_id Mock.engine (shader_instance_id (Mock.state_of m))
  /\ existsb is_instance_release (trace r) = false
  /\ map is_release (trace r) = [false; true; true]
  /\ skybox_system_is_loaded (after r) = false.
Proof.
  split; [exact loaded_default_reachable|].
  split; [vm_compute; reflexivity|].
  split; [vm_compute; discriminate|].
  vm_compute. repeat split; reflexivity.
Qed.


(** C9, counterexample.  Two reachable states in which the shader
    instance id is valid although no skybox is loaded: right after
    initialisation (the id is 0), and after "default" was loaded and then
    unloaded while the shader system no longer found the skybox shader
    (the id is still 5).  And a reachable state in which a skybox is
    loaded and the id is the sentinel: the renderer reported a successful
    instance acquisition and wrote [INVALID_ID]. *)
Lemma valid_instance_id_while_unloaded :
  let m1 := Mock.initialized (Mock.healthy Mock.default_faces) in
  let m2 := after (skybox_system_unload
                     (Mock.in_world Mock.shader_gone Mock.loaded_default)) in
  (reachable (state_ptr m1)
   /\ skybox_system_is_loaded m1 = false
   /\ shader_instance_id (Mock.state_of m1) = 0
   /\ valid_instance_id (shader_instance_id (Mock.state_of m1)))
  /\ (reachable (state_ptr m2)
      /\ skybox_system_is_loaded m2 = false
      /\ shader_instance_id (Mock.state_of m2) = 5
      /\ valid_instance_id (shader_instance_id (Mock.state_of m2)))
  /\ (@reachable Scenario.careless_renderer
        (state_ptr Scenario.careless_loaded)
      /\ state_ptr Scenario.careless_loaded = Some Scenario.careless_state
      /\ is_loaded Scenario.careless_state = true
      /\ shader_instance_id Scenario.careless_state
         = @INVALID_ID Scenario.careless_renderer
      /\ ~ @valid_instance_id Scenario.careless_renderer
            (shader_instance_id Scenario.careless_state)).
Proof.
  split; [|split].
  - split; [apply initialized_reachable|].
    split; [vm_compute; reflexivity|]. split; [vm_compute; reflexivity|].
    vm_compute. discriminate.
  - split.
    { exact (@reach_unload Mock.engine (state_ptr Mock.loaded_default)
               Mock.shader_gone loaded_default_reachable). }
    split; [vm_compute; reflexivity|]. split; [vm_compute; reflexivity|].
    vm_compute. discriminate.
  - split.
    { exact (@reach_load Scenario.careless_renderer _
               (Mock.healthy Mock.default_faces) "default"
               (@reach_initialize Scenario.careless_renderer None
                  (Mock.healthy Mock.default_faces) true Mock.default_config
                  (@reach_start Scenario.careless_renderer))). }
    split; [vm_compute; reflexivity|]. split; [vm_compute; reflexivity|].
    split; [vm_compute; reflexivity|].
    intros H. apply H. vm_compute. reflexivity.
Qed.

(** ** The theorems at concrete inputs *)

(** C2: "default" is loaded in a healthy engine and loaded again. *)
Lemma load_tears_down_before_acquiring_witness :
  let m := Mock.loaded_default in
  let st := Mock.state_of Mock.loaded_default in
  reachable (state_ptr m)
  /\ state_ptr m = Some st
  /\ is_loaded st = true
  /\ let u := skybox_system_unload m in
     let l := skybox_system_load "default" (after u) in
     skybox_system_load "default" m = (result l, after l, trace u ++ trace l)
     /\ trace u
        = teardown_calls st
            (fst (do_shader_system_get_by_id (shader_id st) (world m)))
     /\ forallb (fun e => negb (is_acquisition e)) (trace u) = true
     /\ skybox_system_is_loaded (after u) = false.
Proof.
  intros m st.
  assert (H1 : reachable (state_ptr m)) by exact loaded_default_reachable.
  assert (H2 : state_ptr m = Some st) by (vm_compute; reflexivity).
  assert (H3 : is_loaded st = true) by (vm_compute; reflexivity).
  split; [exact H1|]. split; [exact H2|]. split; [exact H3|].
  exact (load_tears_down_before_acquiring m st "default" H1 H2 H3).
Defined.

(** C3: "default" is loaded and then no image exists any more, so a load
    of "default" fails; the loaded skybox is torn down. *)
Lemma load_failure_leaves_unloaded_witness :
  let m := Mock.in_world (Mock.healthy Mock.no_faces) Mock.loaded_default in
  let r := skybox_system_load "default" m in
  consistent (state_ptr m)
  /\ result r = false
  /\ skybox_system_is_loaded m = true
  /\ skybox_system_is_loaded (after r) = false
  /\ skybox_system_get_current_name (after r) = ""%string
  /\ (skybox_system_is_loaded m = true ->
      exists st,
        state_ptr m = Some st
        /\ trace r
           = teardown_calls st
               (fst (do_shader_system_get_by_id (shader_id st) (world m)))
             ++ trace (skybox_system_load "default"
                         (after (skybox_system_unload m)))).
Proof.
  intros m r.
  assert (H1 : consistent (state_ptr m))
    by exact (reachable_consistent _ loaded_default_reachable).
  assert (H2 : result (skybox_system_load "default" m) = false)
    by (vm_compute; reflexivity).
  assert (H3 : skybox_system_is_loaded m = true) by (vm_compute; reflexivity).
  split; [exact H1|]. split; [exact H2|]. split; [exact H3|].
  exact (load_failure_leaves_unloaded m "default" H1 H2).
Defined.

(** C5: "default" is loaded and unloaded again. *)
Lemma load_then_unload_names_witness :
  let m := Mock.initialized (Mock.healthy Mock.default_faces) in
  is_c_string "default"
  /\ (String.length "default" < SKYBOX_NAME_MAX_LENGTH)%nat
  /\ result (skybox_system_load "default" m) = true
  /\ let m1 := after (skybox_system_load "default" m) in
     skybox_system_is_loaded m1 = true
     /\ skybox_system_get_current_name m1 = "default"%string
     /\ forall w',
          let m2 := after (skybox_system_unload (with_world w' m1)) in
          skybox_system_is_loaded m2 = false
          /\ skybox_system_get_current_name m2 = ""%string.
Proof.
  intros m.
  assert (H1 : is_c_string "default") by reflexivity.
  assert (H2 : (String.length "default" < SKYBOX_NAME_MAX_LENGTH)%nat)
    by (vm_compute; lia).
  assert (H3 : result (skybox_system_load "default" m) = true)
    by (vm_compute; reflexivity).
  split; [exact H1|]. split; [exact H2|]. split; [exact H3|].
  exact (load_then_unload_names m "default" H1 H2 H3).
Defined.

(** C6: "default" is loaded in a healthy engine and unloaded. *)
Lemma unload_order_and_idempotence_witness :
  let m := Mock.loaded_default in
  let st := Mock.state_of Mock.loaded_default in
  state_ptr m = Some st
  /\ is_loaded st = true
  /\ let r := skybox_system_unload m in
     trace r
     = teardown_calls st
         (fst (do_shader_system_get_by_id (shader_id st) (world m)))
     /\ skybox_system_is_loaded (after r) = false
     /\ skybox_system_get_current_name (after r) = ""%string
     /\ (forall w',
           skybox_system_unload (with_world w' (after r))
           = (tt, with_world w' (after r), []))
     /\ (forall m0,
           skybox_system_is_loaded m0 = false ->
           skybox_system_unload m0 = (tt, m0, [])).
Proof.
  intros m st.
  assert (H1 : state_ptr m = Some st) by (vm_compute; reflexivity).
  assert (H2 : is_loaded st = true) by (vm_compute; reflexivity).
  split; [exact H1|]. split; [exact H2|].
  exact (unload_order_and_idempotence m st H1 H2).
Defined.


(** The concrete renderer only hands out the instance slots 5 and 6. *)
Lemma mock_renderer_ids_valid : @renderer_ids_valid Mock.engine.
Proof.
  intros s maps old w id w' H. cbn in H.
  destruct (Mock.instance_ok w); [|discriminate].
  injection H as <- _. unfold valid_instance_id. cbn.
  destruct (Mock.second_slot w); discriminate.
Qed.

(** C9: "default" is loaded in a healthy engine, and then unloaded in
    one. *)
Lemma loaded_instance_id_is_valid_witness :
  let sp := state_ptr Mock.loaded_default in
  let st := Mock.state_of Mock.loaded_default in
  let w := Mock.healthy Mock.default_faces in
  renderer_ids_valid
  /\ reachable sp
  /\ sp = Some st
  /\ is_loaded st = true
  /\ valid_instance_id (shader_instance_id st)
  /\ exists st',
       state_ptr (after (skybox_system_unload
                           {| state_ptr := Some st; world := w |}))
       = Some st'
       /\ is_loaded st' = false
       /\ shader_instance_id st'
          = match fst (do_shader_system_get_by_id (shader_id st) w) with
            | Some _ => INVALID_ID
            | None => shader_instance_id st
            end.
Proof.
  intros sp st w.
  assert (H1 : renderer_ids_valid) by exact mock_renderer_ids_valid.
  assert (H2 : reachable sp) by exact loaded_default_reachable.
  assert (H3 : sp = Some st) by (vm_compute; reflexivity).
  assert (H4 : is_loaded st = true) by (vm_compute; reflexivity).
  split; [exact H1|]. split; [exact H2|]. split; [exact H3|].
  split; [exact H4|]. split.
  - exact (proj1 (loaded_instance_id_is_valid H1) sp st H2 H3 H4).
  - exact (proj1 (proj2 (loaded_instance_id_is_valid H1)) st w H4).
Defined.

(** C10: an engine without the skybox shader. *)
Lemma degraded_entry_points_witness :
  let m := Mock.initialized Mock.shader_missing in
  reachable (state_ptr m)
  /\ degraded m
  /\ (forall name, skybox_system_load name m = (false, m, []))
  /\ skybox_system_is_loaded m = false
  /\ skybox_system_get_current_name m = ""%string
  /\ (forall projection view n,
        skybox_system_render projection view n m = (tt, m, []))
  /\ skybox_system_unload m = (tt, m, [])
  /\ (forall m0 config,
        fst (do_shader_system_get_id "Shader.Builtin.Skybox" (world m0))
        = INVALID_ID ->
        let r := skybox_system_initialize true config m0 in
        result r = true
        /\ trace r = [EvShaderGetId "Shader.Builtin.Skybox" INVALID_ID]
        /\ degraded (after r)).
Proof.
  intros m.
  assert (H1 : reachable (state_ptr m)) by apply initialized_reachable.
  assert (H2 : degraded m) by (vm_compute; reflexivity).
  split; [exact H1|]. split; [exact H2|].
  exact (degraded_entry_points m H1 H2).
Defined.

(** C4: the renderer refuses the texture-map resources. *)
Lemma load_releases_on_acquisition_failure_witness :
  let r := skybox_system_load "default"
             (Mock.initialized Mock.map_refused) in
  exists mp mp',
    In (EvMapAcquire mp false mp') (trace r)
    /\ result r = false
    /\ exists before pixels tex created frees,
         trace r
         = before ++ EvCubemapCreate pixels tex created :: frees
           ++ [EvMapAcquire mp false mp'; EvCubemapDestroy created]
         /\ existsb is_cubemap_create before = false
         /\ forallb is_face_event frees = true.
Proof.
  intros r.
  assert (H : existsb is_map_refused (trace r) = true)
    by (vm_compute; reflexivity).
  destruct (map_refused_in _ H) as (mp & mp' & Hin).
  exists mp, mp'. split; [exact Hin|].
  exact (proj1 (load_releases_on_acquisition_failure
                  (Mock.initialized Mock.map_refused) "default") mp mp' Hin).
Defined.

(** C8: "default" is loaded and the uniforms cannot be set. *)
Lemma render_noop_and_aborts_witness :
  let m := Mock.in_world Mock.uniforms_refused Mock.loaded_default in
  let r := skybox_system_render tt tt 7 m in
  existsb is_failed_stage (trace r) = true
  /\ existsb is_draw (trace r) = false
  /\ state_ptr (after r) = state_ptr m.
Proof.
  intros m r.
  assert (H : existsb is_failed_stage (trace r) = true)
    by (vm_compute; reflexivity).
  split; [exact H|].
  exact (proj2 (render_noop_and_aborts m tt tt 7) H).
Defined.

(** ** The further theorems at concrete inputs *)

#[local] Existing Instance MockPlatform.platform.

(** X4: the faces of "default" are asked for in a healthy engine. *)
Lemma load_cubemap_faces_request_order_witness :
  let r := load_cubemap_faces "default" (repeat 0 6)
             (Mock.initialized (Mock.healthy Mock.default_faces)) in
  let received := List.length (loaded_images (trace r)) in
  is_c_string "default"
  /\ fits_resource_name "default" = true
  /\ exists k,
       (1 <= k <= 6)%nat
       /\ requested_names (trace r) = map (face_path "default") (seq 0 k)
       /\ (fst (result r) = true ->
           k = 6%nat /\ received = 6%nat
           /\ requested_names (trace r)
              = [ "../skyboxes/" ++ "default" ++ "/right";
                  "../skyboxes/" ++ "default" ++ "/left";
                  "../skyboxes/" ++ "default" ++ "/top";
                  "../skyboxes/" ++ "default" ++ "/bottom";
                  "../skyboxes/" ++ "default" ++ "/front";
                  "../skyboxes/" ++ "default" ++ "/back" ]%string)
       /\ (fst (result r) = false -> (received <= k <= S received)%nat).
Proof.
  intros r received.
  assert (H1 : is_c_string "default") by reflexivity.
  assert (H2 : fits_resource_name "default" = true) by reflexivity.
  split; [exact H1|]. split; [exact H2|].
  exact (load_cubemap_faces_request_order "default" (repeat 0 6)
           (Mock.initialized (Mock.healthy Mock.default_faces)) H1 H2).
Defined.

(** X6: "default" is loaded in a healthy engine. *)
Lemma load_result_is_loaded_witness :
  let m := Mock.initialized (Mock.healthy Mock.default_faces) in
  reachable (state_ptr m)
  /\ skybox_system_is_loaded (after (skybox_system_load "default" m))
     = result (skybox_system_load "default" m).
Proof.
  intros m.
  assert (H1 : reachable (state_ptr m)) by apply initialized_reachable.
  split; [exact H1|].
  exact (load_result_is_loaded m "default" H1).
Defined.

(** X7: "default" is loaded in a healthy engine and then rendered. *)
Lemma first_render_after_load_updates_witness :
  let m := Mock.initialized (Mock.healthy Mock.default_faces) in
  result (skybox_system_load "default" m) = true
  /\ forall w' projection view n,
       let r := skybox_system_render projection view n
                  (with_world w' (after (skybox_system_load "default" m))) in
       (n <> U64_MAX ->
        instance_updates (trace r) = []
        \/ instance_updates (trace r) = [true])
       /\ (n = U64_MAX ->
           instance_updates (trace r) = []
           \/ instance_updates (trace r) = [false])
       /\ (existsb is_draw (trace r) = true ->
           instance_updates (trace r) = [negb (U64_MAX =? n)]).
Proof.
  intros m.
  assert (H1 : result (skybox_system_load "default" m) = true)
    by (vm_compute; reflexivity).
  split; [exact H1|].
  exact (first_render_after_load_updates m "default" H1).
Defined.

(** The state after initialisation serves the state with "default"
    loaded. *)
Lemma serves_loaded_default :
  serves (Mock.state_of (Mock.initialized (Mock.healthy Mock.default_faces)))
         (Mock.state_of Mock.loaded_default).
Proof.
  apply (@serves_load Mock.engine _ _ _ (Mock.healthy Mock.default_faces)
           "default" (serves_nothing _)).
  vm_compute. reflexivity.
Qed.

(** X8: from initialisation to "default" loaded. *)
Lemma serving_keeps_setup_witness :
  let st := Mock.state_of (Mock.initialized (Mock.healthy Mock.default_faces)) in
  let st' := Mock.state_of Mock.loaded_default in
  serves st st' /\ same_setup st st'.
Proof.
  intros st st'.
  assert (H1 : serves st st') by exact serves_loaded_default.
  split; [exact H1|].
  exact (serving_keeps_setup st st' H1).
Defined.

(** The geometry system refused the cube; "default" is loaded all the
    same. *)
Lemma serves_without_geometry :
  serves (Mock.state_of (Mock.initialized Scenario.no_geometry))
         (Mock.state_of
            (after (skybox_system_load "default"
                      (Mock.initialized Scenario.no_geometry)))).
Proof.
  apply (@serves_load Mock.engine _ _ _ Scenario.no_geometry
           "default" (serves_nothing _)).
  vm_compute. reflexivity.
Qed.

(** X9: the geometry system refused the cube, "default" is loaded, and a
    render does nothing. *)
Lemma no_geometry_never_draws_witness :
  let st := Mock.state_of (Mock.initialized Scenario.no_geometry) in
  let st' := Mock.state_of
               (after (skybox_system_load "default"
                         (Mock.initialized Scenario.no_geometry))) in
  serves st st'
  /\ cube_geometry st = None
  /\ is_loaded st' = true
  /\ forall w projection view n,
       skybox_system_render projection view n
         {| state_ptr := Some st'; world := w |}
       = (tt, {| state_ptr := Some st'; world := w |}, []).
Proof.
  intros st st'.
  assert (H1 : serves st st') by exact serves_without_geometry.
  assert (H2 : cube_geometry st = None) by (vm_compute; reflexivity).
  assert (H3 : is_loaded st' = true) by (vm_compute; reflexivity).
  split; [exact H1|]. split; [exact H2|]. split; [exact H3|].
  exact (no_geometry_never_draws st st' H1 H2).
Defined.

(** X14: a base path is configured. *)
Lemma initialize_stores_base_path_witness :
  let config := {| skybox_base_path := Some "../game/skies"%string |} in
  let m := Mock.boot (Mock.healthy Mock.default_faces) in
  (is_c_string "../game/skies" /\ (String.length "../game/skies" < 512)%nat)
  /\ exists st',
       state_ptr (after (skybox_system_initialize true config m)) = Some st'
       /\ c_string (base_path st') = "../game/skies"%string.
Proof.
  intros config m.
  assert (H1 : is_c_string "../game/skies"
               /\ (String.length "../game/skies" < 512)%nat)
    by (split; [reflexivity|cbn; lia]).
  split; [exact H1|].
  exact (initialize_stores_base_path m config H1).
Defined.



(** X20: the file of "default" exists; the list is obtained and given
    back. *)
Lemma available_list_round_trip_witness :
  let m := Mock.initialized (Mock.healthy Mock.default_faces) in
  let lst := {| out_count := 1;
                out_names := (4096, [(4104, "default"%string)]) |} in
  let r := skybox_system_get_available true true m in
  let r' := skybox_system_free_available_list (out_names lst) (out_count lst)
              (with_world (Mock.healthy Mock.default_faces) (lafter r)) in
  lresult r = (true, Some lst)
  /\ allocation_failed (ltrace r) = false
  /\ freed (trace r') = rev (filter nonnull (obtained (ltrace r)))
  /\ state_ptr (after r') = state_ptr m
  /\ (forall size p,
        In (EvEngine (EvAllocate size p)) (ltrace r) ->
        In (p, size) (free_sizes (trace r')))
  /\ (forall source p,
        In (EvStringDuplicate source p) (ltrace r) -> nonnull p = true ->
        In (p, 8) (free_sizes (trace r'))).
Proof.
  intros m lst r r'.
  assert (H1 : lresult r = (true, Some lst)) by (vm_compute; reflexivity).
  assert (H2 : allocation_failed (ltrace r) = false)
    by (vm_compute; reflexivity).
  split; [exact H1|]. split; [exact H2|].
  exact (available_list_round_trip m lst (Mock.healthy Mock.default_faces)
           H1 H2).
Defined.

(** X16: "default" is loaded and the uniforms cannot be set; the refused
    "projection" is the last call of the render. *)
Lemma render_acquires_and_releases_nothing_witness :
  let m := Mock.in_world Mock.uniforms_refused Mock.loaded_default in
  let r := skybox_system_render tt tt 7 m in
  let e := EvUniformSet "projection" tt false in
  In e (trace r)
  /\ is_failed_stage e = true
  /\ last_call (trace r) = Some e.
Proof.
  intros m r e.
  assert (Ht : trace r
               = [EvShaderUse 1 true; EvShaderGetById 1 (Some 1);
                  EvBindGlobals 1 true; e])
    by (vm_compute; reflexivity).
  assert (H1 : In e (trace r))
    by (rewrite Ht; right; right; right; left; reflexivity).
  assert (H2 : is_failed_stage e = true) by reflexivity.
  split; [exact H1|]. split; [exact H2|].
  exact (proj2 (render_acquires_and_releases_nothing m tt tt 7) e H1 H2).
Defined.

